(** * screenshot-server: request validation, endpoint resolution and
      capture orchestration

    A shallow embedding of the Go program (package [main]): its request
    model ([ScreenshotRequest], [applyDefaults], [validate], the GET
    parser), the endpoint resolver ([rewriteWebSocketDebuggerURL],
    [resolveWSEndpointViaJSONVersion] and its two fallbacks,
    [resolveWSEndpoint]) and the HTTP handlers ([screenshotHandler],
    the [/health] handler of [main]).

    Go values are rendered as follows.
    - [string] is a byte string: Rocq's [string], one [ascii] per byte.
    - [int] and [int64] are [Z]; the program only compares and copies them.
    - [float64] is the binary64 type [float] of [Floats].
    - [error] is [GoError]: the text of [Error()] and the two facts that
      [errors.Is] is asked about.
    - The network, the browser and the process environment are an explicit
      world threaded through a state monad that records every call. *)

From Stdlib Require Import ZArith String Ascii List Bool Floats Lia.
Import ListNotations.
Open Scope string_scope.
Open Scope Z_scope.

(** ** Package [strings] *)

Module strings.

Definition byte (c : ascii) : N := N_of_ascii c.

Definition byte_is (c : ascii) (n : N) : bool := N.eqb (byte c) n.

(** [strings.HasPrefix(s, prefix)]. *)
Fixpoint HasPrefix (s prefix : string) {struct prefix} : bool :=
  match prefix with
  | EmptyString => true
  | String a prefix' =>
      match s with
      | EmptyString => false
      | String b s' => if Ascii.eqb a b then HasPrefix s' prefix' else false
      end
  end.

(** [strings.Contains(s, substr)]: [substr] occurs at some offset of [s]. *)
Fixpoint Contains (s substr : string) {struct s} : bool :=
  HasPrefix s substr
  || match s with
     | EmptyString => false
     | String _ s' => Contains s' substr
     end.

Fixpoint rev_onto (s acc : string) : string :=
  match s with
  | EmptyString => acc
  | String c s' => rev_onto s' (String c acc)
  end.

Definition rev (s : string) : string := rev_onto s EmptyString.

(** [strings.HasSuffix(s, suffix)]. *)
Definition HasSuffix (s suffix : string) : bool :=
  HasPrefix (rev s) (rev suffix).

(** The six ASCII bytes of [asciiSpace]: tab, LF, VT, FF, CR and space. *)
Definition isASCIISpace (c : ascii) : bool :=
  let n := byte c in
  ((9 <=? n) && (n <=? 13) || (n =? 32))%N.

(** The UTF-8 encodings of the code points of [unicode.IsSpace] outside
    ASCII: U+0085 and U+00A0 (two bytes), and U+1680, U+2000..U+200A,
    U+2028, U+2029, U+202F, U+205F, U+3000 (three bytes). *)
Definition isSpace2 (a b : ascii) : bool :=
  byte_is a 194 && (byte_is b 133 || byte_is b 160).

Definition isSpace3 (a b c : ascii) : bool :=
  let z := byte c in
  (byte_is a 225 && byte_is b 154 && byte_is c 128)
  || (byte_is a 226 && byte_is b 128
      && ((128 <=? z) && (z <=? 138) || (z =? 168) || (z =? 169) || (z =? 175))%N)
  || (byte_is a 226 && byte_is b 129 && byte_is c 159)
  || (byte_is a 227 && byte_is b 128 && byte_is c 128).

(** Leading white space of [TrimSpace]: drop runes while [unicode.IsSpace]
    holds. A byte sequence that is not one of the encodings above decodes to
    a rune that is no space (an invalid byte decodes to U+FFFD). *)
Fixpoint trimLeftSpace (s : string) : string :=
  match s with
  | EmptyString => s
  | String a r =>
      if isASCIISpace a then trimLeftSpace r
      else
        match r with
        | EmptyString => s
        | String b r2 =>
            if isSpace2 a b then trimLeftSpace r2
            else
              match r2 with
              | EmptyString => s
              | String c r3 => if isSpace3 a b c then trimLeftSpace r3 else s
              end
        end
  end.

(** The same from the end, on the reversed string: [DecodeLastRuneInString]
    finds a space exactly when the string ends with one of the encodings. *)
Fixpoint trimLeftSpaceRev (s : string) : string :=
  match s with
  | EmptyString => s
  | String a r =>
      if isASCIISpace a then trimLeftSpaceRev r
      else
        match r with
        | EmptyString => s
        | String b r2 =>
            if isSpace2 b a then trimLeftSpaceRev r2
            else
              match r2 with
              | EmptyString => s
              | String c r3 => if isSpace3 c b a then trimLeftSpaceRev r3 else s
              end
        end
  end.

(** [strings.TrimSpace(s)]. *)
Definition TrimSpace (s : string) : string :=
  rev (trimLeftSpaceRev (rev (trimLeftSpace s))).

Fixpoint dropWhile (p : ascii -> bool) (s : string) : string :=
  match s with
  | EmptyString => s
  | String c s' => if p c then dropWhile p s' else s
  end.

(** [strings.TrimRight(s, "/")], the only cutset the program uses. *)
Definition TrimRightSlash (s : string) : string :=
  rev (dropWhile (fun c => byte_is c 47) (rev s)).

Definition lowerByte (c : ascii) : ascii :=
  let n := byte c in
  if ((65 <=? n) && (n <=? 90))%N then ascii_of_N (n + 32) else c.

(** [strings.ToLower(s)], as far as the program observes it.

    Every use in the program compares the result with ASCII literals
    ([==] in [validate], [strings.Contains] elsewhere). An ASCII byte of
    Go's result comes from an ASCII byte of [s] (lowered when in A..Z) or
    from one of the two code points outside ASCII whose lower case is
    ASCII: U+212A KELVIN SIGN (E2 84 AA, to k) and U+0130 (C4 B0, to i).
    These are mapped as Go maps them. Other bytes outside ASCII are kept as
    they are, where Go lowers the rune or writes U+FFFD for an invalid
    byte; either way the bytes written are outside ASCII, so no comparison
    with an ASCII literal can tell the difference. *)
Fixpoint ToLower (s : string) : string :=
  match s with
  | EmptyString => EmptyString
  | String a r =>
      match r with
      | String b r2 =>
          if byte_is a 196 && byte_is b 176 then String "i" (ToLower r2)
          else
            match r2 with
            | String c r3 =>
                if byte_is a 226 && byte_is b 132 && byte_is c 170
                then String "k" (ToLower r3)
                else String (lowerByte a) (ToLower r)
            | EmptyString => String (lowerByte a) (ToLower r)
            end
      | EmptyString => String (lowerByte a) (ToLower r)
      end
  end.

(** [strings.LastIndexByte(s, c)] as a split: the text before the last [c]
    and the text after it, [None] when [c] does not occur. *)
Fixpoint cutLast (c : ascii) (s : string) : option (string * string) :=
  match s with
  | EmptyString => None
  | String a r =>
      match cutLast c r with
      | Some (pre, post) => Some (String a pre, post)
      | None => if Ascii.eqb a c then Some (EmptyString, r) else None
      end
  end.

Fixpoint forallb (p : ascii -> bool) (s : string) : bool :=
  match s with
  | EmptyString => true
  | String c s' => p c && forallb p s'
  end.

Definition isDigit (c : ascii) : bool :=
  let n := byte c in ((48 <=? n) && (n <=? 57))%N.

(** The first [n] bytes of [s] ([io.LimitReader] followed by [io.ReadAll]). *)
Fixpoint take (n : nat) (s : string) : string :=
  match n, s with
  | S n', String c s' => String c (take n' s')
  | _, _ => EmptyString
  end.

End strings.

(** ** Package [strconv] *)

Module strconv.

Definition minInt64 : Z := - 2 ^ 63.
Definition maxInt64 : Z := 2 ^ 63 - 1.

Fixpoint digitsValue (s : string) (acc : Z) : Z :=
  match s with
  | EmptyString => acc
  | String c s' => digitsValue s' (10 * acc + (Z.of_N (strings.byte c) - 48))
  end.

Definition unsignedDecimal (s : string) : option Z :=
  match s with
  | EmptyString => None
  | _ => if strings.forallb strings.isDigit s then Some (digitsValue s 0) else None
  end.

(** [strconv.Atoi(s)] on a 64-bit platform: an optional sign, one or more
    decimal digits, and a value that fits [int]; [None] is any error. *)
Definition Atoi (s : string) : option Z :=
  let signed :=
    match s with
    | String c r =>
        if strings.byte_is c 43 then unsignedDecimal r
        else if strings.byte_is c 45 then option_map Z.opp (unsignedDecimal r)
        else unsignedDecimal s
    | EmptyString => None
    end in
  match signed with
  | Some v => if (minInt64 <=? v) && (v <=? maxInt64) then Some v else None
  | None => None
  end.

(** [strconv.ParseBool(s)]. *)
Definition ParseBool (s : string) : option bool :=
  if existsb (String.eqb s) ["1"; "t"; "T"; "TRUE"; "true"; "True"] then Some true
  else if existsb (String.eqb s) ["0"; "f"; "F"; "FALSE"; "false"; "False"] then Some false
  else None.

Fixpoint digitsOf (fuel : nat) (n : Z) (acc : string) : string :=
  match fuel with
  | O => acc
  | S fuel' =>
      let acc' := String (ascii_of_N (Z.to_N (48 + n mod 10))) acc in
      if n / 10 =? 0 then acc' else digitsOf fuel' (n / 10) acc'
  end.

(** [strconv.Itoa(n)], the rendering of the verb [%d]. *)
Definition Itoa (n : Z) : string :=
  if n <? 0 then String "-" (digitsOf 20 (- n) EmptyString)
  else digitsOf 20 n EmptyString.

End strconv.

(** ** Errors *)

(** A Go [error] as the program observes it: the text of [Error()], and
    what [errors.Is] answers for [context.DeadlineExceeded] and
    [context.Canceled]. *)
Record GoError := mkError {
  Error : string;
  IsDeadlineExceeded : bool;
  IsCanceled : bool
}.

Module errors.

(** [errors.New(text)], and [fmt.Errorf] without the verb [%w]. *)
Definition New (text : string) : GoError := mkError text false false.

(** [fmt.Errorf] with the verb [%w]: [text] is the formatted message and
    [errors.Is] sees through to the wrapped error. *)
Definition Wrap (text : string) (wrapped : GoError) : GoError :=
  mkError text (IsDeadlineExceeded wrapped) (IsCanceled wrapped).

End errors.

(** ** Packages [net/url] and [net] *)

Module url.

Record Userinfo := mkUserinfo {
  username : string;
  password : string;
  passwordSet : bool
}.

(** [url.URL], field by field. *)
Record URL := mkURL {
  Scheme : string;
  Opaque : string;
  User : option Userinfo;
  Host : string;
  Path : string;
  RawPath : string;
  OmitHost : bool;
  ForceQuery : bool;
  RawQuery : string;
  Fragment : string;
  RawFragment : string
}.

(** [validOptionalPort] applied to the text from the last colon on: the
    text after that colon is all digits (possibly none). *)
Definition validPortDigits (digits : string) : bool :=
  strings.forallb strings.isDigit digits.

Definition tail (s : string) : string :=
  match s with
  | String _ r => r
  | EmptyString => EmptyString
  end.

(** [host[1 : len(host)-1]] when [host] starts with "[" and ends with "]". *)
Definition stripBrackets (host : string) : string :=
  if strings.HasPrefix host "[" && strings.HasSuffix host "]"
  then strings.rev (tail (strings.rev (tail host)))
  else host.

(** [splitHostPort(hostPort)]: the port is what follows the last colon when
    that is a valid optional port; square brackets around the host are
    removed. *)
Definition splitHostPort (hostPort : string) : string * string :=
  match strings.cutLast ":" hostPort with
  | Some (pre, post) =>
      if validPortDigits post then (stripBrackets pre, post)
      else (stripBrackets hostPort, EmptyString)
  | None => (stripBrackets hostPort, EmptyString)
  end.

(** [u.Hostname()]. *)
Definition Hostname (u : URL) : string := fst (splitHostPort (Host u)).

(** [u.Port()]. *)
Definition Port (u : URL) : string := snd (splitHostPort (Host u)).

Definition withSchemeHost (u : URL) (scheme host : string) : URL :=
  mkURL scheme (Opaque u) (User u) host (Path u) (RawPath u) (OmitHost u)
        (ForceQuery u) (RawQuery u) (Fragment u) (RawFragment u).

(** A copy of [u] with [Path] replaced and [RawQuery], [Fragment] cleared,
    as the resolver builds its discovery addresses. *)
Definition withPathOnly (u : URL) (path : string) : URL :=
  mkURL (Scheme u) (Opaque u) (User u) (Host u) path (RawPath u) (OmitHost u)
        (ForceQuery u) EmptyString EmptyString (RawFragment u).

End url.

Module net.

(** [net.JoinHostPort(host, port)]: a host that contains a colon (an IPv6
    literal) goes in square brackets. *)
Definition JoinHostPort (host port : string) : string :=
  if strings.Contains host ":" then "[" ++ host ++ "]:" ++ port
  else host ++ ":" ++ port.

End net.

(** ** The request model *)

Definition defaultWidth : Z := 1920.
Definition defaultHeight : Z := 1080.
Definition defaultFormat : string := "png".
Definition defaultQuality : Z := 90.
Definition defaultDeviceScale : float := 1%float.
Definition defaultTimeoutSec : Z := 30.
Definition maxTimeoutSec : Z := 120.
Definition maxAutoViewportHeight : Z := 30000.
Definition defaultBrowserlessHTTPURL : string := "http://localhost:3000".

Module Clip.

Record t := mk {
  X : float;
  Y : float;
  Width : float;
  Height : float
}.

End Clip.

(** [map[string]string], kept as the list of its entries. *)
Definition HeaderMap : Type := list (string * string).

Record ScreenshotRequest := mkRequest {
  URL : string;
  Selector : string;
  Width : Z;
  Height : Z;
  Format : string;
  Quality : Z;
  WaitTime : Z;
  WaitFor : string;
  FullPage : bool;
  Headers : HeaderMap;
  UserAgent : string;
  DeviceScale : float;
  Mobile : bool;
  Landscape : bool;
  Timeout : Z;
  Clip : option Clip.t
}.

(** The zero value [ScreenshotRequest{}]. *)
Definition zeroRequest : ScreenshotRequest :=
  mkRequest "" "" 0 0 "" 0 0 "" false [] "" 0%float false false 0 None.

(** Assignments to single fields. *)
Definition setWidth (r : ScreenshotRequest) (v : Z) : ScreenshotRequest :=
  mkRequest (URL r) (Selector r) v (Height r) (Format r) (Quality r) (WaitTime r)
    (WaitFor r) (FullPage r) (Headers r) (UserAgent r) (DeviceScale r) (Mobile r)
    (Landscape r) (Timeout r) (Clip r).

Definition setHeight (r : ScreenshotRequest) (v : Z) : ScreenshotRequest :=
  mkRequest (URL r) (Selector r) (Width r) v (Format r) (Quality r) (WaitTime r)
    (WaitFor r) (FullPage r) (Headers r) (UserAgent r) (DeviceScale r) (Mobile r)
    (Landscape r) (Timeout r) (Clip r).

Definition setFormat (r : ScreenshotRequest) (v : string) : ScreenshotRequest :=
  mkRequest (URL r) (Selector r) (Width r) (Height r) v (Quality r) (WaitTime r)
    (WaitFor r) (FullPage r) (Headers r) (UserAgent r) (DeviceScale r) (Mobile r)
    (Landscape r) (Timeout r) (Clip r).

Definition setQuality (r : ScreenshotRequest) (v : Z) : ScreenshotRequest :=
  mkRequest (URL r) (Selector r) (Width r) (Height r) (Format r) v (WaitTime r)
    (WaitFor r) (FullPage r) (Headers r) (UserAgent r) (DeviceScale r) (Mobile r)
    (Landscape r) (Timeout r) (Clip r).

Definition setWaitTime (r : ScreenshotRequest) (v : Z) : ScreenshotRequest :=
  mkRequest (URL r) (Selector r) (Width r) (Height r) (Format r) (Quality r) v
    (WaitFor r) (FullPage r) (Headers r) (UserAgent r) (DeviceScale r) (Mobile r)
    (Landscape r) (Timeout r) (Clip r).

Definition setFullPage (r : ScreenshotRequest) (v : bool) : ScreenshotRequest :=
  mkRequest (URL r) (Selector r) (Width r) (Height r) (Format r) (Quality r) (WaitTime r)
    (WaitFor r) v (Headers r) (UserAgent r) (DeviceScale r) (Mobile r)
    (Landscape r) (Timeout r) (Clip r).

Definition setHeaders (r : ScreenshotRequest) (v : HeaderMap) : ScreenshotRequest :=
  mkRequest (URL r) (Selector r) (Width r) (Height r) (Format r) (Quality r) (WaitTime r)
    (WaitFor r) (FullPage r) v (UserAgent r) (DeviceScale r) (Mobile r)
    (Landscape r) (Timeout r) (Clip r).

Definition setUserAgent (r : ScreenshotRequest) (v : string) : ScreenshotRequest :=
  mkRequest (URL r) (Selector r) (Width r) (Height r) (Format r) (Quality r) (WaitTime r)
    (WaitFor r) (FullPage r) (Headers r) v (DeviceScale r) (Mobile r)
    (Landscape r) (Timeout r) (Clip r).

Definition setDeviceScale (r : ScreenshotRequest) (v : float) : ScreenshotRequest :=
  mkRequest (URL r) (Selector r) (Width r) (Height r) (Format r) (Quality r) (WaitTime r)
    (WaitFor r) (FullPage r) (Headers r) (UserAgent r) v (Mobile r)
    (Landscape r) (Timeout r) (Clip r).

Definition setMobile (r : ScreenshotRequest) (v : bool) : ScreenshotRequest :=
  mkRequest (URL r) (Selector r) (Width r) (Height r) (Format r) (Quality r) (WaitTime r)
    (WaitFor r) (FullPage r) (Headers r) (UserAgent r) (DeviceScale r) v
    (Landscape r) (Timeout r) (Clip r).

Definition setLandscape (r : ScreenshotRequest) (v : bool) : ScreenshotRequest :=
  mkRequest (URL r) (Selector r) (Width r) (Height r) (Format r) (Quality r) (WaitTime r)
    (WaitFor r) (FullPage r) (Headers r) (UserAgent r) (DeviceScale r) (Mobile r)
    v (Timeout r) (Clip r).

Definition setTimeout (r : ScreenshotRequest) (v : Z) : ScreenshotRequest :=
  mkRequest (URL r) (Selector r) (Width r) (Height r) (Format r) (Quality r) (WaitTime r)
    (WaitFor r) (FullPage r) (Headers r) (UserAgent r) (DeviceScale r) (Mobile r)
    (Landscape r) v (Clip r).

(** ** Discovery payloads *)

Record browserlessVersionResponse := mkVersion {
  version_WebSocketDebuggerURL : string
}.

Record browserlessCDPJSONPayload := mkPayload {
  Description : string;
  DevtoolsFrontendURL : string;
  ID : string;
  Title : string;
  Type_ : string;
  PayloadURL : string;
  WebSocketDebuggerURL : string
}.

(** ** The library the program is linked against

    Functions of the Go standard library and of gin whose code is not part
    of the program and that are too large to render here in full. The
    program is embedded over any implementation of them; the theorems hold
    for every one. *)
Class GoLib := {
  (** [url.Parse(rawURL)] *)
  url_Parse : string -> GoError + url.URL;
  (** [url.ParseRequestURI(rawURL)] *)
  url_ParseRequestURI : string -> GoError + url.URL;
  (** [u.String()] *)
  URL_String : url.URL -> string;
  (** [strconv.Quote(s)], the rendering of the verb [%q] *)
  strconv_Quote : string -> string;
  (** the verb [%v] applied to a [float64] *)
  fmt_Float64 : float -> string;
  (** [strconv.ParseFloat(s, 64)]; [None] is any error *)
  strconv_ParseFloat : string -> option float;
  (** [json.Unmarshal([]byte(s), &headers)] into an empty map; [None] is any error *)
  json_Unmarshal_headers : string -> option HeaderMap;
  (** [c.ShouldBindJSON(&req)] on a zero request with this body: the request
      as the decoder leaves it, and whether it failed *)
  ShouldBindJSON : string -> ScreenshotRequest * bool;
  (** [json.NewDecoder(body).Decode(&v)] for the three payload shapes *)
  json_Decode_version : string -> GoError + browserlessVersionResponse;
  json_Decode_payload : string -> GoError + browserlessCDPJSONPayload;
  json_Decode_payloads : string -> GoError + list browserlessCDPJSONPayload
}.

(** ** The gin context, as far as the handlers read it *)

Module gin.

Record Context := mkContext {
  (** [c.Request.Method] *)
  Method : string;
  (** [c.Request.URL.Query()]: the decoded pairs, in the order of the query string *)
  QueryValues : list (string * string);
  (** the request body *)
  Body : string
}.

Fixpoint first (key : string) (values : list (string * string)) : option string :=
  match values with
  | [] => None
  | (k, v) :: rest => if String.eqb k key then Some v else first key rest
  end.

(** [c.GetQuery(key)]: the first value of [key], when the key is present. *)
Definition GetQuery (c : Context) (key : string) : option string :=
  first key (QueryValues c).

(** [c.Query(key)]. *)
Definition Query (c : Context) (key : string) : string :=
  match GetQuery c key with
  | Some v => v
  | None => EmptyString
  end.

(** [c.DefaultQuery(key, defaultValue)]. *)
Definition DefaultQuery (c : Context) (key defaultValue : string) : string :=
  match GetQuery c key with
  | Some v => v
  | None => defaultValue
  end.

End gin.

(** ** Defaulting *)

(** [(r *ScreenshotRequest) applyDefaults()]: the request after the call. *)
Definition applyDefaults (r : ScreenshotRequest) : ScreenshotRequest :=
  let r := if Width r =? 0 then setWidth r defaultWidth else r in
  let r := if (Height r =? 0) && (Selector r =? "")%string
           then setHeight r defaultHeight else r in
  let r := if (Format r =? "")%string then setFormat r defaultFormat else r in
  let r := if Quality r =? 0 then setQuality r defaultQuality else r in
  let r := if PrimFloat.eqb (DeviceScale r) 0 then setDeviceScale r defaultDeviceScale else r in
  let r := if Timeout r =? 0 then setTimeout r defaultTimeoutSec else r in
  r.

(** [isTimeoutErr(err)]; [None] is the nil error. *)
Definition isTimeoutErr (err : option GoError) : bool :=
  match err with
  | None => false
  | Some e =>
      IsDeadlineExceeded e || IsCanceled e
      || strings.Contains (strings.ToLower (Error e)) "deadline exceeded"
  end.

(** [contentTypeForFormat(format)]. *)
Definition contentTypeForFormat (format : string) : string :=
  let f := strings.ToLower format in
  if (f =? "jpeg")%string then "image/jpeg"
  else if (f =? "webp")%string then "image/webp"
  else "image/png".

Inductive CaptureScreenshotFormat :=
| CaptureScreenshotFormatJpeg
| CaptureScreenshotFormatPng
| CaptureScreenshotFormatWebp.

(** [captureFormat(format)]. *)
Definition captureFormat (format : string) : CaptureScreenshotFormat :=
  let f := strings.ToLower format in
  if (f =? "jpeg")%string then CaptureScreenshotFormatJpeg
  else if (f =? "webp")%string then CaptureScreenshotFormatWebp
  else CaptureScreenshotFormatPng.

(** ** Validation, request parsing and address rewriting *)

Section Program.

Context {L : GoLib}.

Local Open Scope string_scope.

(** [(r *ScreenshotRequest) validate()]: the request after the call (the
    format is stored lower-cased once it is accepted) and the error. *)
Definition validate (r : ScreenshotRequest) : ScreenshotRequest * option GoError :=
  if URL r =? "" then (r, Some (errors.New "url is required"))
  else if match url_ParseRequestURI (URL r) with
          | inl _ => true
          | inr parsedURL =>
              negb (url.Scheme parsedURL =? "http") && negb (url.Scheme parsedURL =? "https")
          end
  then (r, Some (errors.New "url must be a valid http/https URL"))
  else if ((Width r <? 100) || (Width r >? 4096))%Z
  then (r, Some (errors.New "width must be between 100 and 4096"))
  else if (negb (Height r =? 0) && ((Height r <? 100) || (Height r >? 10000)))%Z
  then (r, Some (errors.New "height must be between 100 and 10000"))
  else if (Height r =? 0)%Z && (Selector r =? "")
  then (r, Some (errors.New "height must be between 100 and 10000"))
  else
    let f := strings.ToLower (Format r) in
    if negb (f =? "png") && negb (f =? "jpeg") && negb (f =? "webp")
    then (r, Some (errors.New "format must be one of: png, jpeg, webp"))
    else
      let r := setFormat r f in
      if ((Quality r <? 1) || (Quality r >? 100))%Z
      then (r, Some (errors.New "quality must be between 1 and 100"))
      else if ((Timeout r <? 1) || (Timeout r >? maxTimeoutSec))%Z
      then (r, Some (errors.New ("timeout must be between 1 and "
                                 ++ strconv.Itoa maxTimeoutSec ++ " seconds")))
      else if PrimFloat.leb (DeviceScale r) 0 || PrimFloat.ltb 4 (DeviceScale r)
      then (r, Some (errors.New "device_scale must be between 0 and 4"))
      else if (WaitTime r <? 0)%Z
      then (r, Some (errors.New "wait_time must be >= 0"))
      else
        match Clip r with
        | Some c =>
            if PrimFloat.leb (Clip.Width c) 0 || PrimFloat.leb (Clip.Height c) 0
            then (r, Some (errors.New "clip width/height must be > 0"))
            else if PrimFloat.ltb (Clip.X c) 0 || PrimFloat.ltb (Clip.Y c) 0
            then (r, Some (errors.New "clip x/y must be >= 0"))
            else (r, None)
        | None => (r, None)
        end.

(** [parseBoolQuery(c, key, defaultValue)]. *)
Definition parseBoolQuery (c : gin.Context) (key : string) (defaultValue : bool)
  : bool * option GoError :=
  let v := gin.Query c key in
  if v =? "" then (defaultValue, None)
  else
    match strconv.ParseBool v with
    | Some b => (b, None)
    | None => (false, Some (errors.New (key ++ " must be boolean")))
    end.

(** [parseIntQuery(c, key, defaultValue)]. *)
Definition parseIntQuery (c : gin.Context) (key : string) (defaultValue : Z)
  : Z * option GoError :=
  let v := gin.Query c key in
  if v =? "" then (defaultValue, None)
  else
    match strconv.Atoi v with
    | Some i => (i, None)
    | None => (0%Z, Some (errors.New (key ++ " must be integer")))
    end.

(** [parseFloatQuery(c, key, defaultValue)]. *)
Definition parseFloatQuery (c : gin.Context) (key : string) (defaultValue : float)
  : float * option GoError :=
  let v := gin.Query c key in
  if v =? "" then (defaultValue, None)
  else
    match strconv_ParseFloat v with
    | Some f => (f, None)
    | None => (0%float, Some (errors.New (key ++ " must be number")))
    end.

(** [req.F, err = parse(...); if err != nil { return req, err }]: the field
    is assigned whatever the parser returned, and an error ends the parse. *)
Definition assign {A : Type} (parsed : A * option GoError)
  (set : A -> ScreenshotRequest)
  (next : ScreenshotRequest -> ScreenshotRequest * option GoError)
  : ScreenshotRequest * option GoError :=
  let req := set (fst parsed) in
  match snd parsed with
  | Some err => (req, Some err)
  | None => next req
  end.

(** [parseRequestFromGET(c)]. *)
Definition parseRequestFromGET (c : gin.Context) : ScreenshotRequest * option GoError :=
  let req :=
    mkRequest (gin.Query c "url") (gin.Query c "selector") 0 0
      (gin.DefaultQuery c "format" defaultFormat) 0 0 (gin.Query c "wait_for")
      false [] "" 0%float false false 0 None in
  assign (parseIntQuery c "width" defaultWidth) (setWidth req) (fun req =>
  assign (parseIntQuery c "height" 0) (setHeight req) (fun req =>
  assign (parseIntQuery c "quality" defaultQuality) (setQuality req) (fun req =>
  assign (parseIntQuery c "wait_time" 0) (setWaitTime req) (fun req =>
  assign (parseIntQuery c "timeout" defaultTimeoutSec) (setTimeout req) (fun req =>
  assign (parseFloatQuery c "device_scale" defaultDeviceScale) (setDeviceScale req) (fun req =>
  assign (parseBoolQuery c "full_page" false) (setFullPage req) (fun req =>
  assign (parseBoolQuery c "mobile" false) (setMobile req) (fun req =>
  assign (parseBoolQuery c "landscape" false) (setLandscape req) (fun req =>
    let req := setUserAgent req (gin.Query c "user_agent") in
    let headersRaw := gin.Query c "headers" in
    if negb (headersRaw =? "") then
      match json_Unmarshal_headers headersRaw with
      | None => (req, Some (errors.New "headers must be a valid JSON object"))
      | Some headers => (setHeaders req headers, None)
      end
    else (req, None)))))))))).

(** [parseRequest(c)]. *)
Definition parseRequest (c : gin.Context) : ScreenshotRequest * option GoError :=
  if gin.Method c =? "GET" then parseRequestFromGET c
  else
    let (req, failed) := ShouldBindJSON (gin.Body c) in
    if failed then (req, Some (errors.New "invalid JSON body"))
    else (applyDefaults req, None).

(** [hasDevToolsPath(wsRaw)]. *)
Definition hasDevToolsPath (wsRaw : string) : bool :=
  let wsRaw := strings.TrimSpace wsRaw in
  if wsRaw =? "" then false
  else
    match url_Parse wsRaw with
    | inl _ => false
    | inr u => strings.HasPrefix (strings.TrimSpace (url.Path u)) "/devtools/"
    end.

(** [parseBrowserlessHTTPBase(raw)]. *)
Definition parseBrowserlessHTTPBase (raw : string) : GoError + url.URL :=
  let raw := strings.TrimSpace raw in
  if raw =? "" then inl (errors.New "BROWSERLESS_HTTP_URL is empty")
  else
    let invalid := "invalid BROWSERLESS_HTTP_URL " ++ strconv_Quote raw ++ ": " in
    match url_Parse raw with
    | inl err => inl (errors.Wrap (invalid ++ Error err) err)
    | inr u =>
        if url.Scheme u =? "" then inl (errors.New (invalid ++ "missing scheme (http/https)"))
        else if negb (url.Scheme u =? "http") && negb (url.Scheme u =? "https")
        then inl (errors.New (invalid ++ "scheme must be http/https"))
        else if url.Host u =? "" then inl (errors.New (invalid ++ "missing host"))
        else inr u
    end.

(** [httpBaseHostPortWithDefault(u)]. *)
Definition httpBaseHostPortWithDefault (u : url.URL) : GoError + string :=
  let invalid := "invalid BROWSERLESS_HTTP_URL " ++ strconv_Quote (URL_String u) ++ ": " in
  let host := url.Hostname u in
  if host =? "" then inl (errors.New (invalid ++ "missing hostname"))
  else
    let port := url.Port u in
    if port =? "" then
      if url.Scheme u =? "http" then inr (net.JoinHostPort host "80")
      else if url.Scheme u =? "https" then inr (net.JoinHostPort host "443")
      else inl (errors.New (invalid ++ "unsupported scheme " ++ strconv_Quote (url.Scheme u)))
    else inr (net.JoinHostPort host port).

(** [wsSchemeForHTTPBase(u)]. *)
Definition wsSchemeForHTTPBase (u : url.URL) : GoError + string :=
  if url.Scheme u =? "http" then inr "ws"
  else if url.Scheme u =? "https" then inr "wss"
  else inl (errors.New ("invalid BROWSERLESS_HTTP_URL " ++ strconv_Quote (URL_String u)
                        ++ ": unsupported scheme " ++ strconv_Quote (url.Scheme u))).

(** [rewriteWebSocketDebuggerURL(webSocketDebuggerURL, httpBase)]. *)
Definition rewriteWebSocketDebuggerURL (webSocketDebuggerURL : string) (httpBase : url.URL)
  : GoError + string :=
  let wsRaw := strings.TrimSpace webSocketDebuggerURL in
  if wsRaw =? "" then inl (errors.New "missing webSocketDebuggerUrl")
  else
    let invalid := "invalid webSocketDebuggerUrl " ++ strconv_Quote wsRaw ++ ": " in
    match url_Parse wsRaw with
    | inl err => inl (errors.Wrap (invalid ++ Error err) err)
    | inr wsU =>
        if (url.Scheme wsU =? "") || (url.Host wsU =? "")
        then inl (errors.New (invalid ++ "missing scheme or host"))
        else
          match httpBaseHostPortWithDefault httpBase with
          | inl err => inl err
          | inr hostPort =>
              match wsSchemeForHTTPBase httpBase with
              | inl err => inl err
              | inr desiredScheme =>
                  inr (URL_String (url.withSchemeHost wsU desiredScheme hostPort))
              end
          end
    end.

(** [httpBaseFromWSEndpoint(wsRaw)]. *)
Definition httpBaseFromWSEndpoint (wsRaw : string) : GoError + url.URL :=
  let wsRaw := strings.TrimSpace wsRaw in
  if wsRaw =? "" then inl (errors.New "ws endpoint is empty")
  else
    match url_Parse wsRaw with
    | inl err => inl err
    | inr u =>
        if negb (url.Scheme u =? "ws") && negb (url.Scheme u =? "wss")
        then inl (errors.New ("scheme must be ws/wss, got " ++ strconv_Quote (url.Scheme u)))
        else if url.Host u =? "" then inl (errors.New "missing host")
        else
          let httpScheme := if url.Scheme u =? "wss" then "https" else "http" in
          inr (url.mkURL httpScheme "" None (url.Host u) (url.Path u) "" false false "" "" "")
    end.

End Program.

(** ** The world: environment, network and browser *)

Module http.

(** [http.Response], as far as the resolver reads it. *)
Record Response := mkResponse {
  StatusCode : Z;
  Body : string
}.

End http.

(** [dom.Rect] and the rectangle the bounding-box script returns. *)
Record Rect := mkRect {
  rect_X : float;
  rect_Y : float;
  rect_Width : float;
  rect_Height : float
}.

(** [page.Viewport]. *)
Record Viewport := mkViewport {
  vp_X : float;
  vp_Y : float;
  vp_Width : float;
  vp_Height : float;
  vp_Scale : float
}.

(** The parameters of [page.CaptureScreenshot()] that the handler sets. *)
Record CaptureParams := mkCapture {
  cap_Format : CaptureScreenshotFormat;
  cap_FromSurface : bool;
  cap_CaptureBeyondViewport : bool;
  cap_Quality : option Z;
  cap_Clip : option Viewport
}.

(** Browser operations that return nothing but an error. *)
Inductive Command :=
| NetworkEnable
| SetDeviceMetricsOverride (width height : Z) (deviceScaleFactor : float) (mobile : bool)
| SetUserAgentOverride (userAgent : string)
| SetExtraHTTPHeaders (headers : HeaderMap)
| Navigate (urlstr : string)
| WaitReady (sel : string)
| WaitVisible (sel : string)
| Sleep (milliseconds : Z)
| ScrollIntoView (sel : string).

(** What [chromedp.Run(dialCtx, ...)] leaves behind: its error, and whether
    [dialCtx.Err()] is [context.DeadlineExceeded] afterwards. *)
Record DialResult := mkDial {
  dial_err : option GoError;
  dialCtx_DeadlineExceeded : bool
}.

(** Every call the program makes on the outside, in the order made. *)
Inductive Event :=
| EvHTTP (method urlstr : string)
| EvDial (wsURL : string)
| EvCommand (c : Command)
| EvGetLayoutMetrics
| EvEvaluatePageHeight
| EvEvaluateBoundingRect (sel : string)
| EvCaptureScreenshot (p : CaptureParams).

(** The outside world with state [W]. Each operation answers and moves the
    world on. Deadlines and cancellation are the world's business: a call
    that runs out of time answers with the error Go would return.

    [http_Do method url] stands for [http.NewRequestWithContext] followed by
    [client.Do]; the resolver treats a failure of either alike.
    [cdp_EvaluatePageHeight] and [cdp_EvaluateBoundingRect sel] stand for
    [chromedp.EvaluateAsDevTools] on the two scripts of the handler, the
    second built from the selector; a [null] result leaves the zero
    rectangle. *)
Record World (W : Type) := mkWorld {
  os_LookupEnv : string -> option string;
  time_Now : W -> string;
  http_Do : string -> string -> W -> (GoError + http.Response) * W;
  chromedp_Dial : string -> W -> DialResult * W;
  cdp_Do : Command -> W -> option GoError * W;
  cdp_GetLayoutMetrics : W -> (GoError + option Rect) * W;
  cdp_EvaluatePageHeight : W -> (GoError + float) * W;
  cdp_EvaluateBoundingRect : string -> W -> (GoError + Rect) * W;
  cdp_CaptureScreenshot : CaptureParams -> W -> (GoError + string) * W
}.

Arguments os_LookupEnv {W}.
Arguments time_Now {W}.
Arguments http_Do {W}.
Arguments chromedp_Dial {W}.
Arguments cdp_Do {W}.
Arguments cdp_GetLayoutMetrics {W}.
Arguments cdp_EvaluatePageHeight {W}.
Arguments cdp_EvaluateBoundingRect {W}.
Arguments cdp_CaptureScreenshot {W}.

(** The state monad of the program: the world and the trace of calls. *)
Definition M (W A : Type) : Type := W * list Event -> A * (W * list Event).

Definition ret {W A : Type} (a : A) : M W A := fun s => (a, s).

Definition bind {W A B : Type} (m : M W A) (k : A -> M W B) : M W B :=
  fun s => let (a, s') := m s in k a s'.

(** One call on the world, recorded in the trace. *)
Definition call {W A : Type} (ev : Event) (f : W -> A * W) : M W A :=
  fun s => let (a, w') := f (fst s) in (a, (w', (snd s ++ [ev])%list)).

Declare Scope monad_scope.
Delimit Scope monad_scope with monad.
Notation "x <- m ;; k" := (bind m (fun x => k))
  (at level 61, m at next level, right associativity) : monad_scope.

(** [os.Getenv(key)]. *)
Definition os_Getenv {W : Type} (world : World W) (key : string) : string :=
  match os_LookupEnv world key with
  | Some v => v
  | None => EmptyString
  end.

(** [int64(math.Ceil(x))].

    [math.Ceil] of a finite [x] is the least integer not below it, computed
    here from the mantissa and exponent of [x]. A value outside [int64], an
    infinity and NaN have no defined conversion in Go; the program is built
    for amd64 (Dockerfile: [GOARCH=amd64]), where the conversion
    instruction then yields the smallest [int64]. *)
Definition ceiling (x : float) : option Z :=
  match Prim2SF x with
  | S754_zero _ => Some 0
  | S754_finite s m e =>
      let v := if s then Z.neg m else Z.pos m in
      Some (if 0 <=? e then v * 2 ^ e else - ((- v) / 2 ^ (- e)))
  | S754_infinity _ => None
  | S754_nan => None
  end.

Definition int64_Ceil (x : float) : Z :=
  match ceiling x with
  | Some c =>
      if (strconv.minInt64 <=? c) && (c <=? strconv.maxInt64) then c
      else strconv.minInt64
  | None => strconv.minInt64
  end.

(** ** What a handler writes *)

Inductive JSONValue :=
| JString (s : string)
| JBool (b : bool).

(** [c.JSON(status, gin.H{...})] and [c.Data(status, contentType, data)]. *)
Inductive Reply :=
| JSON (status : Z) (h : list (string * JSONValue))
| Data (status : Z) (contentType : string) (data : string).

Definition status (r : Reply) : Z :=
  match r with
  | JSON s _ => s
  | Data s _ _ => s
  end.

(** The value of a key of the JSON object written, if any. *)
Fixpoint field (key : string) (h : list (string * JSONValue)) : option JSONValue :=
  match h with
  | [] => None
  | (k, v) :: rest => if String.eqb k key then Some v else field key rest
  end.

Definition jsonField (key : string) (r : Reply) : option JSONValue :=
  match r with
  | JSON _ h => field key h
  | Data _ _ _ => None
  end.

Definition StatusOK : Z := 200.
Definition StatusBadRequest : Z := 400.
Definition StatusInternalServerError : Z := 500.
Definition StatusBadGateway : Z := 502.
Definition StatusServiceUnavailable : Z := 503.
Definition StatusGatewayTimeout : Z := 504.

(** The steps of the list handed to [chromedp.Run(taskCtx, actions...)]:
    library actions, and the four closures of the handler. *)
Inductive Action :=
| ActCommand (c : Command)
| ActAutoExpand
| ActSelectorClip
| ActFullPageClip
| ActCapture.

(** The variables of the handler that its closures assign. *)
Record Vars := mkVars {
  viewportHeight : Z;
  clip : option Viewport;
  img : string
}.

(** ** Endpoint resolution and the handlers *)

Section Server.

Context {L : GoLib} {W : Type} (world : World W).

Local Open Scope string_scope.
Local Open Scope monad_scope.

Definition httpDo (method urlstr : string) : M W (GoError + http.Response) :=
  call (EvHTTP method urlstr) (http_Do world method urlstr).

Definition cdpDo (c : Command) : M W (option GoError) :=
  call (EvCommand c) (cdp_Do world c).

(** [getBrowserlessHTTPURL()]. *)
Definition getBrowserlessHTTPURL : string :=
  match os_LookupEnv world "BROWSERLESS_HTTP_URL" with
  | None => defaultBrowserlessHTTPURL
  | Some v => strings.TrimSpace v
  end.

(** [getChromeWSEndpoint()]. *)
Definition getChromeWSEndpoint : string :=
  strings.TrimSpace (os_Getenv world "CHROME_WS_ENDPOINT").

Definition non2xx (resp : http.Response) : bool :=
  ((http.StatusCode resp <? 200) || (http.StatusCode resp >=? 300))%Z.

(** The message for a status outside 2xx: the status and the first 4096
    bytes of the body, trimmed. *)
Definition returned (endpoint : string) (resp : http.Response) : GoError :=
  errors.New ("browserless " ++ endpoint ++ " returned "
              ++ strconv.Itoa (http.StatusCode resp) ++ ": "
              ++ strings.TrimSpace (strings.take 4096 (http.Body resp))).

(** [resolveWSEndpointViaJSONNew(ctx, httpBase)]. *)
Definition resolveWSEndpointViaJSONNew (httpBase : url.URL) : M W (GoError + string) :=
  let basePath := strings.TrimRightSlash (url.Path httpBase) in
  let newURL := url.withPathOnly httpBase (basePath ++ "/json/new") in
  r <- httpDo "PUT" (URL_String newURL) ;;
  ret match r with
      | inl err => inl err
      | inr resp =>
          if non2xx resp then inl (returned "/json/new" resp)
          else
            match json_Decode_payload (http.Body resp) with
            | inl err => inl err
            | inr payload =>
                if negb (hasDevToolsPath (WebSocketDebuggerURL payload))
                then inl (errors.New ("browserless /json/new returned non-devtools ws: "
                                      ++ strconv_Quote (strings.TrimSpace
                                                          (WebSocketDebuggerURL payload))))
                else rewriteWebSocketDebuggerURL (WebSocketDebuggerURL payload) httpBase
            end
      end.

(** The loop of [resolveWSEndpointViaJSONList]: the first payload that has
    the devtools path and whose address can be rewritten. *)
Fixpoint firstUsable (httpBase : url.URL) (payloads : list browserlessCDPJSONPayload)
  : option string :=
  match payloads with
  | [] => None
  | p :: rest =>
      if negb (hasDevToolsPath (WebSocketDebuggerURL p)) then firstUsable httpBase rest
      else
        match rewriteWebSocketDebuggerURL (WebSocketDebuggerURL p) httpBase with
        | inl _ => firstUsable httpBase rest
        | inr rewritten => Some rewritten
        end
  end.

(** [resolveWSEndpointViaJSONList(ctx, httpBase)]. *)
Definition resolveWSEndpointViaJSONList (httpBase : url.URL) : M W (GoError + string) :=
  let basePath := strings.TrimRightSlash (url.Path httpBase) in
  let listURL := url.withPathOnly httpBase (basePath ++ "/json/list") in
  r <- httpDo "GET" (URL_String listURL) ;;
  ret match r with
      | inl err => inl err
      | inr resp =>
          if non2xx resp then inl (returned "/json/list" resp)
          else
            match json_Decode_payloads (http.Body resp) with
            | inl err => inl err
            | inr payloads =>
                match firstUsable httpBase payloads with
                | Some rewritten => inr rewritten
                | None =>
                    inl (errors.New ("browserless /json/list returned "
                                     ++ strconv.Itoa (Z.of_nat (length payloads))
                                     ++ " targets, but none has a usable devtools ws"))
                end
            end
      end.

(** [resolveWSEndpointViaJSONVersion(ctx, httpBase)]. *)
Definition resolveWSEndpointViaJSONVersion (httpBase : url.URL) : M W (GoError + string) :=
  let basePath := strings.TrimRightSlash (url.Path httpBase) in
  let versionURL := url.withPathOnly httpBase (basePath ++ "/json/version") in
  r <- httpDo "GET" (URL_String versionURL) ;;
  match r with
  | inl err => ret (inl err)
  | inr resp =>
      if non2xx resp then ret (inl (returned "/json/version" resp))
      else
        match json_Decode_version (http.Body resp) with
        | inl err => ret (inl err)
        | inr vr =>
            let raw := strings.TrimSpace (version_WebSocketDebuggerURL vr) in
            if hasDevToolsPath raw then ret (rewriteWebSocketDebuggerURL raw httpBase)
            else
              viaNew <- resolveWSEndpointViaJSONNew httpBase ;;
              match viaNew with
              | inr resolved => ret (inr resolved)
              | inl _ =>
                  viaList <- resolveWSEndpointViaJSONList httpBase ;;
                  match viaList with
                  | inr resolved => ret (inr resolved)
                  | inl _ =>
                      ret (inl (errors.New
                        ("browserless /json/version returned non-devtools ws ("
                         ++ strconv_Quote raw
                         ++ ") and fallbacks (/json/new,/json/list) failed")))
                  end
              end
        end
  end.

(** [resolveWSEndpoint(ctx)]: [(wsURL, configured, err)]. *)
Definition resolveWSEndpoint : M W (string * bool * option GoError) :=
  let ws := getChromeWSEndpoint in
  if negb (ws =? "") then
    if match url_Parse ws with
       | inr u => strings.HasPrefix (url.Path u) "/devtools/browser/"
       | inl _ => false
       end
    then ret (ws, true, None)
    else
      match httpBaseFromWSEndpoint ws with
      | inl convErr =>
          ret ("", true,
               Some (errors.Wrap ("invalid CHROME_WS_ENDPOINT " ++ strconv_Quote ws ++ ": "
                                  ++ Error convErr) convErr))
      | inr httpBase =>
          r <- resolveWSEndpointViaJSONVersion httpBase ;;
          match r with
          | inl rErr => ret ("", true, Some rErr)
          | inr resolved => ret (resolved, true, None)
          end
      end
  else
    let httpBaseRaw := getBrowserlessHTTPURL in
    if httpBaseRaw =? "" then
      ret ("", false, Some (errors.New "browserless endpoint is not configured"))
    else
      match parseBrowserlessHTTPBase httpBaseRaw with
      | inl err => ret ("", true, Some err)
      | inr httpBase =>
          r <- resolveWSEndpointViaJSONVersion httpBase ;;
          match r with
          | inl err => ret ("", true, Some err)
          | inr resolved => ret (resolved, true, None)
          end
      end.

(** The viewport of the handler before the first action is built:
    [viewportWidth] and [viewportHeight] after the default for an unset
    height and after the exchange for a mobile landscape request. *)
Definition initialViewport (req : ScreenshotRequest) : Z * Z :=
  let viewportWidth := Width req in
  let viewportHeight := Height req in
  let viewportHeight := if (viewportHeight =? 0)%Z then defaultHeight else viewportHeight in
  if Mobile req && Landscape req then (viewportHeight, viewportWidth)
  else (viewportWidth, viewportHeight).

(** The measurement at the head of the auto-expand closure: the content
    height of [page.GetLayoutMetrics] when that call succeeds with a content
    size of positive height, else the height the fallback script returns. *)
Definition measurePageHeight : M W (GoError + float) :=
  metrics <- call EvGetLayoutMetrics (cdp_GetLayoutMetrics world) ;;
  match metrics with
  | inr (Some contentSize) =>
      if PrimFloat.ltb 0 (rect_Height contentSize)
      then ret (inr (rect_Height contentSize))
      else call EvEvaluatePageHeight (cdp_EvaluatePageHeight world)
  | _ => call EvEvaluatePageHeight (cdp_EvaluatePageHeight world)
  end.

(** The closure of the auto-expand step: the error it returns and the value
    of [viewportHeight] when it ends. *)
Definition autoExpand (req : ScreenshotRequest) (viewportWidth viewportHeight : Z)
  : M W (option GoError * Z) :=
  measured <- measurePageHeight ;;
  match measured with
  | inl err => ret (Some err, viewportHeight)
  | inr pageHeight =>
      if PrimFloat.leb pageHeight 0
      then ret (Some (errors.New "failed to determine page height"), viewportHeight)
      else
        let desired := int64_Ceil pageHeight in
        let desired := if (desired <? viewportHeight)%Z then viewportHeight else desired in
        let desired := if (desired >? maxAutoViewportHeight)%Z
                       then maxAutoViewportHeight else desired in
        if negb (desired =? viewportHeight)%Z then
          err <- cdpDo (SetDeviceMetricsOverride viewportWidth desired
                          (DeviceScale req) (Mobile req)) ;;
          ret (err, desired)
        else ret (None, viewportHeight)
  end.

(** The closure that turns the selector's bounding box into the clip. *)
Definition selectorClip (req : ScreenshotRequest) : M W (option GoError * option Viewport) :=
  r <- call (EvEvaluateBoundingRect (Selector req))
            (cdp_EvaluateBoundingRect world (Selector req)) ;;
  ret match r with
      | inl err => (Some err, None)
      | inr rect =>
          if PrimFloat.leb (rect_Width rect) 0 || PrimFloat.leb (rect_Height rect) 0
          then (Some (errors.New ("selector resolved but has empty bounding box: "
                                  ++ Selector req)), None)
          else (None, Some (mkViewport (rect_X rect) (rect_Y rect)
                              (rect_Width rect) (rect_Height rect) 1))
      end.

(** The closure that builds the clip of a full-page capture. *)
Definition fullPageClip : M W (option GoError * option Viewport) :=
  r <- call EvGetLayoutMetrics (cdp_GetLayoutMetrics world) ;;
  ret match r with
      | inl err => (Some err, None)
      | inr None => (Some (errors.New "failed to get layout metrics content size"), None)
      | inr (Some contentSize) =>
          if PrimFloat.leb (rect_Width contentSize) 0
             || PrimFloat.leb (rect_Height contentSize) 0
          then (Some (errors.New ("invalid content size: "
                                  ++ fmt_Float64 (rect_Width contentSize) ++ "x"
                                  ++ fmt_Float64 (rect_Height contentSize))), None)
          else (None, Some (mkViewport 0 0 (rect_Width contentSize)
                              (rect_Height contentSize) 1))
      end.

(** The parameters the capture closure sets before [cap.Do(ctx)]. *)
Definition captureParams (req : ScreenshotRequest) (clip : option Viewport) : CaptureParams :=
  mkCapture (captureFormat (Format req)) true
    (FullPage req && (Selector req =? "")
     && match Clip req with None => true | Some _ => false end)
    (if (Format req =? "jpeg") || (Format req =? "webp") then Some (Quality req) else None)
    clip.

(** One step of the list, run on the handler's variables. *)
Definition runAction (req : ScreenshotRequest) (viewportWidth : Z) (a : Action) (v : Vars)
  : M W (option GoError * Vars) :=
  match a with
  | ActCommand c =>
      err <- cdpDo c ;;
      ret (err, v)
  | ActAutoExpand =>
      r <- autoExpand req viewportWidth (viewportHeight v) ;;
      ret (fst r, mkVars (snd r) (clip v) (img v))
  | ActSelectorClip =>
      r <- selectorClip req ;;
      ret (fst r, match snd r with
                  | Some c => mkVars (viewportHeight v) (Some c) (img v)
                  | None => v
                  end)
  | ActFullPageClip =>
      r <- fullPageClip ;;
      ret (fst r, match snd r with
                  | Some c => mkVars (viewportHeight v) (Some c) (img v)
                  | None => v
                  end)
  | ActCapture =>
      let p := captureParams req (clip v) in
      r <- call (EvCaptureScreenshot p) (cdp_CaptureScreenshot world p) ;;
      ret match r with
          | inl err => (Some err, v)
          | inr buf => (None, mkVars (viewportHeight v) (clip v) buf)
          end
  end.

(** [chromedp.Run(taskCtx, actions...)] on an established session: the
    actions in order, stopping at the first error. *)
Fixpoint runActions (req : ScreenshotRequest) (viewportWidth : Z) (actions : list Action)
  (v : Vars) : M W (option GoError * Vars) :=
  match actions with
  | [] => ret (None, v)
  | a :: rest =>
      r <- runAction req viewportWidth a v ;;
      match fst r with
      | Some err => ret (Some err, snd r)
      | None => runActions req viewportWidth rest (snd r)
      end
  end.

(** The list of actions the handler builds. *)
Definition buildActions (req : ScreenshotRequest) (viewportWidth viewportHeight : Z)
  (autoExpandViewportHeight : bool) : list Action :=
  ([ ActCommand NetworkEnable;
     ActCommand (SetDeviceMetricsOverride viewportWidth viewportHeight
                   (DeviceScale req) (Mobile req)) ]
   ++ (if negb (UserAgent req =? "")
       then [ActCommand (SetUserAgentOverride (UserAgent req))] else [])
   ++ (if (0 <? Z.of_nat (length (Headers req)))%Z
       then [ActCommand (SetExtraHTTPHeaders (Headers req))] else [])
   ++ [ ActCommand (Navigate (URL req)); ActCommand (WaitReady "body") ]
   ++ (if negb (WaitFor req =? "") then [ActCommand (WaitVisible (WaitFor req))] else [])
   ++ (if (WaitTime req >? 0)%Z then [ActCommand (Sleep (WaitTime req))] else [])
   ++ (if autoExpandViewportHeight then [ActAutoExpand] else [])
   ++ (if negb (Selector req =? "")
       then [ ActCommand (ScrollIntoView (Selector req));
              ActCommand (WaitVisible (Selector req));
              ActSelectorClip ]
       else if FullPage req && match Clip req with None => true | Some _ => false end
            then [ActFullPageClip] else [])
   ++ [ActCapture])%list.

(** The request's clip as the handler's initial [clip]. *)
Definition initialClip (req : ScreenshotRequest) : option Viewport :=
  match Clip req with
  | Some c => Some (mkViewport (Clip.X c) (Clip.Y c) (Clip.Width c) (Clip.Height c) 1)
  | None => None
  end.

(** The reply to a failed endpoint resolution. *)
Definition resolveFailure (err : GoError) : Reply :=
  if isTimeoutErr (Some err)
  then JSON StatusGatewayTimeout
         [("error", JString "browserless endpoint timeout"); ("details", JString (Error err))]
  else JSON StatusBadGateway
         [("error", JString "failed to resolve browserless websocket endpoint");
          ("details", JString (Error err))].

(** The reply to a failed dial. *)
Definition dialFailure (d : DialResult) (err : GoError) : Reply :=
  if dialCtx_DeadlineExceeded d || IsDeadlineExceeded err
  then JSON StatusGatewayTimeout
         [("error", JString "chrome dial timeout"); ("details", JString (Error err))]
  else
    let msg := strings.ToLower (Error err) in
    if strings.Contains msg "websocket" || strings.Contains msg "handshake"
       || strings.Contains msg "connect" || strings.Contains msg "dial"
    then JSON StatusBadGateway
           [("error", JString "failed to connect chrome endpoint");
            ("details", JString ("dial failed: " ++ Error err))]
    else if isTimeoutErr (Some err)
    then JSON StatusGatewayTimeout
           [("error", JString "chrome dial timeout"); ("details", JString (Error err))]
    else JSON StatusBadGateway
           [("error", JString "failed to connect chrome endpoint");
            ("details", JString (Error err))].

(** The reply to a failure of [chromedp.Run(taskCtx, actions...)]. *)
Definition runFailure (err : GoError) : Reply :=
  if isTimeoutErr (Some err)
  then JSON StatusGatewayTimeout
         [("error", JString "screenshot timeout"); ("details", JString (Error err))]
  else
    let msg := strings.ToLower (Error err) in
    if strings.Contains msg "websocket" || strings.Contains msg "handshake"
       || strings.Contains msg "connect"
    then JSON StatusBadGateway
           [("error", JString "failed to connect chrome endpoint");
            ("details", JString (Error err))]
    else JSON StatusInternalServerError
           [("error", JString "failed to screenshot"); ("details", JString (Error err))].

Definition notConfiguredMessage : string :=
  "browserless/chrome endpoint is not configured, set BROWSERLESS_HTTP_URL or CHROME_WS_ENDPOINT".

(** [screenshotHandler()], applied to a request. *)
Definition screenshotHandler (c : gin.Context) : M W Reply :=
  match parseRequest c with
  | (_, Some err) => ret (JSON StatusBadRequest [("error", JString (Error err))])
  | (req, None) =>
      let req := applyDefaults req in
      match validate req with
      | (_, Some err) => ret (JSON StatusBadRequest [("error", JString (Error err))])
      | (req, None) =>
          let autoExpandViewportHeight := negb (Selector req =? "") && (Height req =? 0)%Z in
          let (viewportWidth, viewportHeight) := initialViewport req in
          r <- resolveWSEndpoint ;;
          let '(wsURL, configured, err) := r in
          if negb configured
          then ret (JSON StatusServiceUnavailable [("error", JString notConfiguredMessage)])
          else
            match err with
            | Some err => ret (resolveFailure err)
            | None =>
                d <- call (EvDial wsURL) (chromedp_Dial world wsURL) ;;
                match dial_err d with
                | Some err => ret (dialFailure d err)
                | None =>
                    let actions :=
                      buildActions req viewportWidth viewportHeight
                        autoExpandViewportHeight in
                    r <- runActions req viewportWidth actions
                           (mkVars viewportHeight (initialClip req) "") ;;
                    match fst r with
                    | Some err => ret (runFailure err)
                    | None =>
                        ret (Data StatusOK (contentTypeForFormat (Format req)) (img (snd r)))
                    end
                end
            end
      end
  end.

(** The [/health] handler of [main]. *)
Definition healthHandler : M W Reply :=
  r <- resolveWSEndpoint ;;
  let '(wsURL, configured, err) := r in
  let available :=
    configured && match err with None => true | Some _ => false end
    && negb (wsURL =? "") in
  let status := if negb available then StatusServiceUnavailable else StatusOK in
  let state := if negb available then "degraded" else "ok" in
  fun s =>
    let payload :=
      [ ("status", JString state);
        ("time", JString (time_Now world (fst s)));
        ("chrome_ws_configured", JBool configured);
        ("chrome_ws_available", JBool available);
        ("browserless_http_url", JString getBrowserlessHTTPURL);
        ("chrome_ws_endpoint", JString wsURL) ] in
    let payload :=
      match err with
      | Some err => (payload ++ [("details", JString (Error err))])%list
      | None => payload
      end in
    (JSON status payload, s).

End Server.

(** ** A rendering of [strconv.Quote] for closed examples *)

Module goQuote.

Local Open Scope string_scope.

(** The double quote, which a string literal here cannot hold. *)
Definition dquote : string := String (ascii_of_N 34) EmptyString.

Definition lowerhex (n : N) : ascii :=
  ascii_of_N (if (n <? 10)%N then 48 + n else 87 + n)%N.

(** One byte of [strconv.Quote]: the quote and the backslash are escaped,
    the control bytes are written as Go writes them, the printable ASCII
    bytes stand for themselves. A byte outside ASCII is kept: this is Go's
    rendering of valid UTF-8 text of printable runes only, for Go escapes a
    rune that is not printable and a byte that is no UTF-8. The rendering
    is exact on ASCII text, and the examples quote ASCII text only. *)
Definition quoteByte (c : ascii) : string :=
  let n := strings.byte c in
  let bs := String (ascii_of_N 92) EmptyString in
  if (n =? 34)%N then bs ++ dquote
  else if (n =? 92)%N then bs ++ bs
  else if (n =? 7)%N then bs ++ "a"
  else if (n =? 8)%N then bs ++ "b"
  else if (n =? 12)%N then bs ++ "f"
  else if (n =? 10)%N then bs ++ "n"
  else if (n =? 13)%N then bs ++ "r"
  else if (n =? 9)%N then bs ++ "t"
  else if (n =? 11)%N then bs ++ "v"
  else if ((n <? 32) || (n =? 127))%N
  then bs ++ "x" ++ String (lowerhex (n / 16)) (String (lowerhex (n mod 16)) EmptyString)
  else String c EmptyString.

Fixpoint quoteBody (s : string) : string :=
  match s with
  | EmptyString => EmptyString
  | String c r => quoteByte c ++ quoteBody r
  end.

(** [strconv.Quote(s)]. *)
Definition Quote (s : string) : string := dquote ++ quoteBody s ++ dquote.

End goQuote.

(** ** A rendering of [net/url] for closed examples

    [Parse], [ParseRequestURI] and [URL.String] of Go 1.23 ([net/url]),
    function by function. It instantiates [GoLib] where a statement needs a
    concrete library; the general theorems do not depend on it. *)

Module goURL.

Import url.

Local Open Scope string_scope.

Inductive encoding :=
| encodePath
| encodePathSegment
| encodeHost
| encodeZone
| encodeUserPassword
| encodeQueryComponent
| encodeFragment.

Definition isHostMode (mode : encoding) : bool :=
  match mode with
  | encodeHost | encodeZone => true
  | _ => false
  end.

Definition isAlnum (c : ascii) : bool :=
  let n := strings.byte c in
  ((97 <=? n) && (n <=? 122) || (65 <=? n) && (n <=? 90) || (48 <=? n) && (n <=? 57))%N.

Definition oneOf (c : ascii) (set : string) : bool :=
  strings.Contains set (String c EmptyString).

Definition dquote : string := goQuote.dquote.

(** [shouldEscape(c, mode)]. *)
Definition shouldEscape (c : ascii) (mode : encoding) : bool :=
  if isAlnum c then false
  else if isHostMode mode && oneOf c ("!$&'()*+,;=:[]<>" ++ dquote) then false
  else if oneOf c "-_.~" then false
  else if oneOf c "$&+,/:;=?@" then
    match mode with
    | encodePath => Ascii.eqb c "?"
    | encodePathSegment => oneOf c "/;,?"
    | encodeUserPassword => oneOf c "@/?:"
    | encodeQueryComponent => true
    | encodeFragment => false
    | _ => true
    end
  else if match mode with encodeFragment => oneOf c "!()*" | _ => false end then false
  else true.

Definition ishex (c : ascii) : bool :=
  let n := strings.byte c in
  ((48 <=? n) && (n <=? 57) || (97 <=? n) && (n <=? 102) || (65 <=? n) && (n <=? 70))%N.

Definition unhex (c : ascii) : N :=
  let n := strings.byte c in
  (if (48 <=? n) && (n <=? 57) then n - 48
   else if (97 <=? n) && (n <=? 102) then n - 97 + 10
   else if (65 <=? n) && (n <=? 70) then n - 65 + 10
   else 0)%N.

Definition upperhex (n : N) : ascii :=
  ascii_of_N (if (n <? 10)%N then 48 + n else 55 + n)%N.

Definition EscapeError (s : string) : GoError :=
  errors.New ("invalid URL escape " ++ goQuote.Quote s).

Definition InvalidHostError (c : ascii) : GoError :=
  errors.New ("invalid character " ++ goQuote.Quote (String c EmptyString)
              ++ " in host name").

(** [unescape(s, mode)]. *)
Fixpoint unescape (s : string) (mode : encoding) : GoError + string :=
  match s with
  | EmptyString => inr EmptyString
  | String c r =>
      if Ascii.eqb c "%" then
        match r with
        | String h1 (String h2 r') =>
            let v := (unhex h1 * 16 + unhex h2)%N in
            let is25 := Ascii.eqb h1 "2" && Ascii.eqb h2 "5" in
            if negb (ishex h1 && ishex h2)
            then inl (EscapeError (strings.take 3 s))
            else if match mode with encodeHost => true | _ => false end
                    && (unhex h1 <? 8)%N && negb is25
            then inl (EscapeError (strings.take 3 s))
            else if match mode with encodeZone => true | _ => false end
                    && negb is25 && negb (v =? 32)%N
                    && shouldEscape (ascii_of_N v) encodeHost
            then inl (EscapeError (strings.take 3 s))
            else
              match unescape r' mode with
              | inl e => inl e
              | inr t => inr (String (ascii_of_N v) t)
              end
        | _ => inl (EscapeError (strings.take 3 s))
        end
      else if isHostMode mode && (strings.byte c <? 128)%N && shouldEscape c mode
              && negb (Ascii.eqb c "+")
      then inl (InvalidHostError c)
      else
        match unescape r mode with
        | inl e => inl e
        | inr t =>
            inr (String (if Ascii.eqb c "+"
                            && match mode with encodeQueryComponent => true | _ => false end
                         then " "%char else c) t)
        end
  end.

(** [escape(s, mode)]. *)
Fixpoint escape (s : string) (mode : encoding) : string :=
  match s with
  | EmptyString => EmptyString
  | String c r =>
      if shouldEscape c mode then
        if Ascii.eqb c " " && match mode with encodeQueryComponent => true | _ => false end
        then String "+" (escape r mode)
        else String "%" (String (upperhex (strings.byte c / 16))
                           (String (upperhex (strings.byte c mod 16)) (escape r mode)))
      else String c (escape r mode)
  end.

(** [validEncoded(s, mode)]. *)
Fixpoint validEncoded (s : string) (mode : encoding) : bool :=
  match s with
  | EmptyString => true
  | String c r =>
      (oneOf c "!$&'()*+,;=:@[]%" || negb (shouldEscape c mode)) && validEncoded r mode
  end.

(** [strings.Cut(s, sep)] for a one-byte separator: the text before the
    first [sep] and the text after it. *)
Fixpoint cut (s : string) (sep : ascii) : string * string * bool :=
  match s with
  | EmptyString => (EmptyString, EmptyString, false)
  | String c r =>
      if Ascii.eqb c sep then (EmptyString, r, true)
      else let '(before, after, found) := cut r sep in (String c before, after, found)
  end.

Fixpoint count (s : string) (c : ascii) : nat :=
  match s with
  | EmptyString => O
  | String a r => (if Ascii.eqb a c then 1 else 0) + count r c
  end.

(** [stringContainsCTLByte(s)]. *)
Definition stringContainsCTLByte (s : string) : bool :=
  negb (strings.forallb (fun c => negb ((strings.byte c <? 32) || (strings.byte c =? 127))%N) s).

Definition isLetter (c : ascii) : bool :=
  let n := strings.byte c in
  ((97 <=? n) && (n <=? 122) || (65 <=? n) && (n <=? 90))%N.

(** The loop of [getScheme] from offset [i] on; [i = 0] is told by [first]. *)
Fixpoint getSchemeFrom (rawURL rest acc : string) (first : bool)
  : GoError + (string * string) :=
  match rest with
  | EmptyString => inr (EmptyString, rawURL)
  | String c r =>
      if isLetter c then getSchemeFrom rawURL r (String c acc) false
      else if strings.isDigit c || oneOf c "+-." then
        if first then inr (EmptyString, rawURL)
        else getSchemeFrom rawURL r (String c acc) false
      else if Ascii.eqb c ":" then
        if first then inl (errors.New "missing protocol scheme")
        else inr (strings.rev acc, r)
      else inr (EmptyString, rawURL)
  end.

(** [getScheme(rawURL)]. *)
Definition getScheme (rawURL : string) : GoError + (string * string) :=
  getSchemeFrom rawURL rawURL EmptyString true.

(** [validUserinfo(s)]. *)
Definition validUserinfo (s : string) : bool :=
  strings.forallb (fun c => isAlnum c || oneOf c "-._:~!$&'()*+,;=%@") s.

(** The text before the first occurrence of [sub] in [s], and the text from
    it on ([strings.Index]). *)
Fixpoint splitAt (s sub : string) : option (string * string) :=
  if strings.HasPrefix s sub then Some (EmptyString, s)
  else
    match s with
    | EmptyString => None
    | String c r =>
        match splitAt r sub with
        | Some (pre, post) => Some (String c pre, post)
        | None => None
        end
    end.

Definition invalidPort (colonPort : string) : GoError :=
  errors.New ("invalid port " ++ goQuote.Quote colonPort ++ " after host").

(** [parseHost(host)]. *)
Definition parseHost (host : string) : GoError + string :=
  if strings.HasPrefix host "[" then
    match strings.cutLast "]" host with
    | None => inl (errors.New "missing ']' in host")
    | Some (inside, colonPort) =>
        if negb (match colonPort with
                 | EmptyString => true
                 | String c digits => Ascii.eqb c ":" && validPortDigits digits
                 end)
        then inl (invalidPort colonPort)
        else
          match splitAt inside "%25" with
          | Some (host1, zone) =>
              match unescape host1 encodeHost with
              | inl e => inl e
              | inr h1 =>
                  match unescape zone encodeZone with
                  | inl e => inl e
                  | inr h2 =>
                      match unescape ("]" ++ colonPort) encodeHost with
                      | inl e => inl e
                      | inr h3 => inr (h1 ++ h2 ++ h3)
                      end
                  end
              end
          | None => unescape host encodeHost
          end
    end
  else
    match strings.cutLast ":" host with
    | Some (_, digits) =>
        if negb (validPortDigits digits) then inl (invalidPort (":" ++ digits))
        else unescape host encodeHost
    | None => unescape host encodeHost
    end.

(** [parseAuthority(authority)]. *)
Definition parseAuthority (authority : string) : GoError + (option Userinfo * string) :=
  match strings.cutLast "@" authority with
  | None =>
      match parseHost authority with
      | inl e => inl e
      | inr host => inr (None, host)
      end
  | Some (userinfo, hostText) =>
      match parseHost hostText with
      | inl e => inl e
      | inr host =>
          if negb (validUserinfo userinfo) then inl (errors.New "net/url: invalid userinfo")
          else if negb (strings.Contains userinfo ":") then
            match unescape userinfo encodeUserPassword with
            | inl e => inl e
            | inr name => inr (Some (mkUserinfo name EmptyString false), host)
            end
          else
            let '(name, pass, _) := cut userinfo ":" in
            match unescape name encodeUserPassword with
            | inl e => inl e
            | inr name' =>
                match unescape pass encodeUserPassword with
                | inl e => inl e
                | inr pass' => inr (Some (mkUserinfo name' pass' true), host)
                end
            end
      end
  end.

(** [parse(rawURL, viaRequest)]. *)
Definition parse (rawURL : string) (viaRequest : bool) : GoError + URL :=
  if stringContainsCTLByte rawURL
  then inl (errors.New "net/url: invalid control character in URL")
  else if (rawURL =? "") && viaRequest then inl (errors.New "empty url")
  else if rawURL =? "*"
  then inr (mkURL "" "" None "" "*" "" false false "" "" "")
  else
    match getScheme rawURL with
    | inl e => inl e
    | inr (scheme, rest) =>
        let scheme := strings.ToLower scheme in
        let '(rest, rawQuery, forceQuery) :=
          if strings.HasSuffix rest "?" && Nat.eqb (count rest "?") 1
          then (strings.rev (tail (strings.rev rest)), EmptyString, true)
          else let '(before, after, _) := cut rest "?" in (before, after, false) in
        if negb (strings.HasPrefix rest "/") && negb (scheme =? "")
        then inr (mkURL scheme rest None "" "" "" false forceQuery rawQuery "" "")
        else if negb (strings.HasPrefix rest "/") && viaRequest
        then inl (errors.New "invalid URI for request")
        else if negb (strings.HasPrefix rest "/")
                && strings.Contains (fst (fst (cut rest "/"))) ":"
        then inl (errors.New "first path segment in URL cannot contain colon")
        else
          let authorityForm :=
            (negb (scheme =? "") || negb viaRequest && negb (strings.HasPrefix rest "///"))
            && strings.HasPrefix rest "//" in
          let parsedAuthority :=
            if authorityForm then
              let afterSlashes := tail (tail rest) in
              let '(authority, rest') :=
                match splitAt afterSlashes "/" with
                | Some (a, p) => (a, p)
                | None => (afterSlashes, EmptyString)
                end in
              match parseAuthority authority with
              | inl e => inl e
              | inr (user, host) => inr (user, host, rest', false)
              end
            else inr (None, EmptyString, rest,
                      negb (scheme =? "") && strings.HasPrefix rest "/") in
          match parsedAuthority with
          | inl e => inl e
          | inr (user, host, rest, omitHost) =>
              match unescape rest encodePath with
              | inl e => inl e
              | inr path =>
                  let rawPath := if rest =? escape path encodePath then "" else rest in
                  inr (mkURL scheme "" user host path rawPath omitHost forceQuery
                         rawQuery "" "")
              end
          end
    end.

Definition parseError (rawURL : string) (e : GoError) : GoError :=
  errors.Wrap ("parse " ++ goQuote.Quote rawURL ++ ": " ++ Error e) e.

(** [url.Parse(rawURL)]. *)
Definition Parse (rawURL : string) : GoError + URL :=
  let '(u, frag, _) := cut rawURL "#" in
  match parse u false with
  | inl e => inl (parseError u e)
  | inr parsed =>
      if frag =? "" then inr parsed
      else
        match unescape frag encodeFragment with
        | inl e => inl (parseError rawURL e)
        | inr fragment =>
            let rawFragment := if frag =? escape fragment encodeFragment then "" else frag in
            inr (mkURL (Scheme parsed) (Opaque parsed) (User parsed) (Host parsed)
                   (Path parsed) (RawPath parsed) (OmitHost parsed) (ForceQuery parsed)
                   (RawQuery parsed) fragment rawFragment)
        end
  end.

(** [url.ParseRequestURI(rawURL)]. *)
Definition ParseRequestURI (rawURL : string) : GoError + URL :=
  match parse rawURL true with
  | inl e => inl (parseError rawURL e)
  | inr u => inr u
  end.

Definition unescapesTo (raw : string) (mode : encoding) (decoded : string) : bool :=
  match unescape raw mode with
  | inr t => t =? decoded
  | inl _ => false
  end.

(** [u.EscapedPath()]. *)
Definition EscapedPath (u : URL) : string :=
  if negb (RawPath u =? "") && validEncoded (RawPath u) encodePath
     && unescapesTo (RawPath u) encodePath (Path u)
  then RawPath u
  else if Path u =? "*" then "*"
  else escape (Path u) encodePath.

(** [u.EscapedFragment()]. *)
Definition EscapedFragment (u : URL) : string :=
  if negb (RawFragment u =? "") && validEncoded (RawFragment u) encodeFragment
     && unescapesTo (RawFragment u) encodeFragment (Fragment u)
  then RawFragment u
  else escape (Fragment u) encodeFragment.

(** [Userinfo.String()]. *)
Definition UserinfoString (ui : Userinfo) : string :=
  escape (username ui) encodeUserPassword
  ++ (if passwordSet ui then ":" ++ escape (password ui) encodeUserPassword else "").

(** [u.String()]. *)
Definition String_ (u : URL) : string :=
  let schemePart := if negb (Scheme u =? "") then Scheme u ++ ":" else "" in
  let hasUser := match User u with Some _ => true | None => false end in
  let body :=
    if negb (Opaque u =? "") then Opaque u
    else
      let authority :=
        if negb (Scheme u =? "") || negb (Host u =? "") || hasUser then
          if OmitHost u && (Host u =? "") && negb hasUser then ""
          else
            (if negb (Host u =? "") || negb (Path u =? "") || hasUser then "//" else "")
            ++ match User u with
               | Some ui => UserinfoString ui ++ "@"
               | None => ""
               end
            ++ (if negb (Host u =? "") then escape (Host u) encodeHost else "")
        else "" in
      let path := EscapedPath u in
      let slash :=
        if negb (path =? "") && negb (strings.HasPrefix path "/") && negb (Host u =? "")
        then "/" else "" in
      let dotSlash :=
        if (schemePart ++ authority ++ slash =? "")
           && strings.Contains (fst (fst (cut path "/"))) ":"
        then "./" else "" in
      authority ++ slash ++ dotSlash ++ path in
  schemePart ++ body
  ++ (if ForceQuery u || negb (RawQuery u =? "") then "?" ++ RawQuery u else "")
  ++ (if negb (Fragment u =? "") then "#" ++ EscapedFragment u else "").

End goURL.

(** ** A concrete library and concrete worlds for closed examples *)

Module examples.

Local Open Scope string_scope.

Definition q (s : string) : string := goQuote.dquote ++ s ++ goQuote.dquote.

(** [{"webSocketDebuggerUrl":"ws://0.0.0.0:3000"}] *)
Definition versionBodyBare : string :=
  "{" ++ q "webSocketDebuggerUrl" ++ ":" ++ q "ws://0.0.0.0:3000" ++ "}".

(** [{"webSocketDebuggerUrl":"ws://0.0.0.0:3000/devtools/browser/abc"}] *)
Definition versionBodyFull : string :=
  "{" ++ q "webSocketDebuggerUrl" ++ ":" ++ q "ws://0.0.0.0:3000/devtools/browser/abc" ++ "}".

(** A target list whose first entry has the devtools path but neither
    scheme nor host, and whose second entry is a full address. *)
Definition listBody : string :=
  "[{" ++ q "webSocketDebuggerUrl" ++ ":" ++ q "/devtools/page/A" ++ "},{"
  ++ q "webSocketDebuggerUrl" ++ ":" ++ q "ws://0.0.0.0:3000/devtools/page/B" ++ "}]".

(** [{"url":"https://example.com","format":"jpeg","quality":0}] *)
Definition postBodyQualityZero : string :=
  "{" ++ q "url" ++ ":" ++ q "https://example.com" ++ ","
  ++ q "format" ++ ":" ++ q "jpeg" ++ "," ++ q "quality" ++ ":0}".

Definition payloadWith (ws : string) : browserlessCDPJSONPayload :=
  mkPayload "" "" "" "" "" "" ws.

Definition notThisBody : GoError := errors.New "unexpected end of JSON input".

(** The library of the examples: [net/url] and [strconv.Quote] as rendered
    above, and the decoders by their values at the texts the examples hand
    them: the JSON bodies above, and the text [0] for [strconv.ParseFloat].
    On any other text a decoder answers with failure; the decoding of a
    [headers] parameter and the float verb are reached by no example. *)
Definition lib : GoLib := {|
  url_Parse := goURL.Parse;
  url_ParseRequestURI := goURL.ParseRequestURI;
  URL_String := goURL.String_;
  strconv_Quote := goQuote.Quote;
  fmt_Float64 := fun _ => "";
  strconv_ParseFloat := fun s => if s =? "0" then Some 0%float else None;
  json_Unmarshal_headers := fun _ => None;
  ShouldBindJSON := fun body =>
    if body =? postBodyQualityZero
    then (setFormat (mkRequest "https://example.com" "" 0 0 "" 0 0 "" false [] ""
                       0%float false false 0 None) "jpeg", false)
    else (zeroRequest, true);
  json_Decode_version := fun body =>
    if body =? versionBodyBare then inr (mkVersion "ws://0.0.0.0:3000")
    else if body =? versionBodyFull
    then inr (mkVersion "ws://0.0.0.0:3000/devtools/browser/abc")
    else inl notThisBody;
  json_Decode_payload := fun _ => inl notThisBody;
  json_Decode_payloads := fun body =>
    if body =? listBody
    then inr [ payloadWith "/devtools/page/A";
               payloadWith "ws://0.0.0.0:3000/devtools/page/B" ]
    else inl notThisBody
|}.

Definition refused : GoError :=
  errors.New "dial tcp 127.0.0.1:3000: connect: connection refused".

(** A stateless world: the environment [env], a network answering by
    [network], and a browser that obeys every command, reports a content
    size of 800 by [contentHeight], and captures the bytes [IMG]. *)
Definition worldOf (env : string -> option string)
  (network : string -> string -> GoError + http.Response) (contentHeight : float)
  : World unit := {|
  os_LookupEnv := env;
  time_Now := fun _ => "2026-02-27T00:00:00Z";
  http_Do := fun method urlstr w => (network method urlstr, w);
  chromedp_Dial := fun _ w => (mkDial None false, w);
  cdp_Do := fun _ w => (None, w);
  cdp_GetLayoutMetrics := fun w => (inr (Some (mkRect 0 0 800 contentHeight)), w);
  cdp_EvaluatePageHeight := fun w => (inr contentHeight, w);
  cdp_EvaluateBoundingRect := fun _ w => (inr (mkRect 10 20 300 400), w);
  cdp_CaptureScreenshot := fun _ w => (inr "IMG", w)
|}.

Definition noNetwork (method urlstr : string) : GoError + http.Response := inl refused.

(** A control plane at [http://localhost:3000]: its [/json/version] names a
    bare address, [/json/new] answers 500, [/json/list] answers [listBody]. *)
Definition bareVersionNetwork (method urlstr : string) : GoError + http.Response :=
  if (method =? "GET") && (urlstr =? "http://localhost:3000/json/version")
  then inr (http.mkResponse 200 versionBodyBare)
  else if (method =? "PUT") && (urlstr =? "http://localhost:3000/json/new")
  then inr (http.mkResponse 500 "")
  else if (method =? "GET") && (urlstr =? "http://localhost:3000/json/list")
  then inr (http.mkResponse 200 listBody)
  else inl refused.

(** A control plane whose [/json/version] names a full browser address. *)
Definition fullVersionNetwork (method urlstr : string) : GoError + http.Response :=
  if (method =? "GET") && (urlstr =? "http://localhost:3000/json/version")
  then inr (http.mkResponse 200 versionBodyFull)
  else inl refused.

(** No variable set. *)
Definition emptyEnv (key : string) : option string := None.

(** [BROWSERLESS_HTTP_URL] set to the empty text, nothing else set. *)
Definition blankEnv (key : string) : option string :=
  if key =? "BROWSERLESS_HTTP_URL" then Some "" else None.

(** [GET /screenshot] with no query at all. *)
Definition getNothing : gin.Context := gin.mkContext "GET" [] "".

(** [GET /screenshot?url=https://example.com]. *)
Definition getExample : gin.Context :=
  gin.mkContext "GET" [("url", "https://example.com")] "".

(** [GET /screenshot?url=https://example.com&clip={"x":0,"y":0,"width":10,"height":10}]. *)
Definition getWithClip : gin.Context :=
  gin.mkContext "GET"
    [ ("url", "https://example.com");
      ("clip", "{" ++ q "x" ++ ":0," ++ q "y" ++ ":0," ++ q "width" ++ ":10,"
               ++ q "height" ++ ":10}") ] "".

(** [GET /screenshot?url=https://example.com&width=0&quality=0&device_scale=0&timeout=0]. *)
Definition getZeros : gin.Context :=
  gin.mkContext "GET"
    [ ("url", "https://example.com"); ("width", "0"); ("quality", "0");
      ("device_scale", "0"); ("timeout", "0") ] "".

(** [GET /screenshot?url=https://example.com&width=1280&height=720&mobile=true&landscape=true]. *)
Definition getMobileLandscape : gin.Context :=
  gin.mkContext "GET"
    [ ("url", "https://example.com"); ("width", "1280"); ("height", "720");
      ("mobile", "true"); ("landscape", "true") ] "".

(** [POST /screenshot] with the body [postBodyQualityZero]. *)
Definition postQualityZero : gin.Context := gin.mkContext "POST" [] postBodyQualityZero.

Definition start : unit * list Event := (tt, []).

End examples.

(** * The vocabulary of the statements *)


(** A request whose URL and width pass the two checks that precede the
    height check. *)
Definition passesURLAndWidth {L : GoLib} (r : ScreenshotRequest) : Prop :=
  URL r <> ""%string
  /\ (exists u, url_ParseRequestURI (URL r) = inr u
                /\ (url.Scheme u = "http"%string \/ url.Scheme u = "https"%string))
  /\ 100 <= Width r <= 4096.

(** The messages of the four range checks that a zero value would fail. *)
Definition widthRangeError : string := "width must be between 100 and 4096".
Definition qualityRangeError : string := "quality must be between 1 and 100".
Definition timeoutRangeError : string := "timeout must be between 1 and 120 seconds".
Definition deviceScaleRangeError : string := "device_scale must be between 0 and 4".

(** What [validate] answers after defaulting: the handler's check. *)
Definition handlerCheck {L : GoLib} (r : ScreenshotRequest) : option GoError :=
  snd (validate (applyDefaults r)).




Definition details (r : Reply) : option JSONValue := jsonField "details" r.

(** The authority the rewrite installs: the control plane's host name and
    its port, 80 for http and 443 for https when it names none. *)
Definition controlPlaneAuthority (httpBase : url.URL) : string :=
  net.JoinHostPort (url.Hostname httpBase)
    (if (url.Port httpBase =? "")%string
     then (if (url.Scheme httpBase =? "http")%string then "80" else "443")%string
     else url.Port httpBase).

Definition blankURL : url.URL := url.mkURL "" "" None "" "" "" false false "" "" "".

(** The control-plane address [raw] as [parseBrowserlessHTTPBase] reads it. *)
Definition baseOf {L : GoLib} (raw : string) : url.URL :=
  match parseBrowserlessHTTPBase raw with
  | inr u => u
  | inl _ => blankURL
  end.

(** Neither endpoint is configured: [CHROME_WS_ENDPOINT] is unset or blank,
    and [BROWSERLESS_HTTP_URL] is set to a blank text. *)
Definition notConfigured {W : Type} (world : World W) : Prop :=
  getChromeWSEndpoint world = ""%string /\ getBrowserlessHTTPURL world = ""%string.

Definition notConfiguredReply : Reply :=
  JSON StatusServiceUnavailable [("error"%string, JString notConfiguredMessage)].

(** The address of a discovery endpoint under the control plane. *)
Definition discoveryURL {L : GoLib} (httpBase : url.URL) (endpoint : string) : string :=
  URL_String (url.withPathOnly httpBase
                (strings.TrimRightSlash (url.Path httpBase) ++ endpoint)).

(** A payload the list scan takes, and one it passes over. *)
Definition usable {L : GoLib} (httpBase : url.URL) (p : browserlessCDPJSONPayload)
  (rewritten : string) : Prop :=
  hasDevToolsPath (WebSocketDebuggerURL p) = true
  /\ rewriteWebSocketDebuggerURL (WebSocketDebuggerURL p) httpBase = inr rewritten.

Definition unusable {L : GoLib} (httpBase : url.URL) (p : browserlessCDPJSONPayload) : Prop :=
  hasDevToolsPath (WebSocketDebuggerURL p) = false
  \/ exists e, rewriteWebSocketDebuggerURL (WebSocketDebuggerURL p) httpBase = inl e.

(** ** The vocabulary of the further properties *)

(** The format test of [validate]: none of the three formats. *)
Definition formatChecks (f : string) : bool :=
  negb (f =? "png")%string && negb (f =? "jpeg")%string && negb (f =? "webp")%string.

(** The limits of a request as the README's parameter table words them,
    with the comparisons on [float64] as Go evaluates them. *)
Definition withinLimits {L : GoLib} (r : ScreenshotRequest) : Prop :=
  passesURLAndWidth r
  /\ (100 <= Height r <= 10000 \/ (Height r = 0 /\ Selector r <> ""%string))
  /\ In (strings.ToLower (Format r)) ["png"; "jpeg"; "webp"]%string
  /\ 1 <= Quality r <= 100
  /\ 1 <= Timeout r <= 120
  /\ (PrimFloat.leb (DeviceScale r) 0 = false /\ PrimFloat.ltb 4 (DeviceScale r) = false)
  /\ 0 <= WaitTime r
  /\ match Clip r with
     | Some c =>
         PrimFloat.leb (Clip.Width c) 0 = false /\ PrimFloat.leb (Clip.Height c) 0 = false
         /\ PrimFloat.ltb (Clip.X c) 0 = false /\ PrimFloat.ltb (Clip.Y c) 0 = false
     | None => True
     end.

(** The actions that assign neither [clip] nor [img]. *)
Definition keepsClip (a : Action) : bool :=
  match a with
  | ActCommand _ | ActAutoExpand => true
  | _ => false
  end.

(** The event is a capture. *)
Definition isCapture (ev : Event) : bool :=
  match ev with
  | EvCaptureScreenshot _ => true
  | _ => false
  end.

(** The list of [buildActions] in three parts: the actions up to the step
    that settles the clip, that step, and the capture. *)
Definition preparation (req : ScreenshotRequest) (viewportWidth viewportHeight : Z)
  (autoExpandViewportHeight : bool) : list Action :=
  ([ ActCommand NetworkEnable;
     ActCommand (SetDeviceMetricsOverride viewportWidth viewportHeight
                   (DeviceScale req) (Mobile req)) ]
   ++ (if negb (UserAgent req =? "")%string
       then [ActCommand (SetUserAgentOverride (UserAgent req))] else [])
   ++ (if (0 <? Z.of_nat (length (Headers req)))%Z
       then [ActCommand (SetExtraHTTPHeaders (Headers req))] else [])
   ++ [ ActCommand (Navigate (URL req)); ActCommand (WaitReady "body") ]
   ++ (if negb (WaitFor req =? "")%string
       then [ActCommand (WaitVisible (WaitFor req))] else [])
   ++ (if (WaitTime req >? 0)%Z then [ActCommand (Sleep (WaitTime req))] else [])
   ++ (if autoExpandViewportHeight then [ActAutoExpand] else []))%list.

Definition clipStep (req : ScreenshotRequest) : list Action :=
  if negb (Selector req =? "")%string
  then [ ActCommand (ScrollIntoView (Selector req));
         ActCommand (WaitVisible (Selector req));
         ActSelectorClip ]
  else if FullPage req && match Clip req with None => true | Some _ => false end
       then [ActFullPageClip] else [].

(** The run of the handler's list from the handler's initial variables. *)
Definition handlerRun {L : GoLib} {W : Type} (world : World W) (req : ScreenshotRequest)
  : M W (option GoError * Vars) :=
  runActions world req (fst (initialViewport req))
    (buildActions req (fst (initialViewport req)) (snd (initialViewport req))
       (negb (Selector req =? "")%string && (Height req =? 0)))
    (mkVars (snd (initialViewport req)) (initialClip req) "").

(** What a step leaves of the run so far: the trace extended by events
    [evs], none of them a capture, and [clip] and [img] as they were. *)
Definition quiet {W : Type} (v : Vars) (s : W * list Event)
  (r : option GoError * Vars * (W * list Event)) : Prop :=
  clip (snd (fst r)) = clip v /\ img (snd (fst r)) = img v
  /\ exists evs, snd (snd r) = (snd s ++ evs)%list /\ existsb isCapture evs = false.

(** [CHROME_WS_ENDPOINT] names a browser address in full: it parses and its
    path begins with [/devtools/browser/]. *)
Definition isFullEndpoint {L : GoLib} (ws : string) : bool :=
  match url_Parse ws with
  | inr u => strings.HasPrefix (url.Path u) "/devtools/browser/"
  | inl _ => false
  end.

(** The control plane a discovery is run against, if the configuration
    leads to one. *)
Definition discoveryBase {L : GoLib} {W : Type} (world : World W) : option url.URL :=
  let ws := getChromeWSEndpoint world in
  if negb (ws =? "")%string then
    if isFullEndpoint ws then None
    else match httpBaseFromWSEndpoint ws with
         | inr httpBase => Some httpBase
         | inl _ => None
         end
  else
    let raw := getBrowserlessHTTPURL world in
    if (raw =? "")%string then None
    else match parseBrowserlessHTTPBase raw with
         | inr httpBase => Some httpBase
         | inl _ => None
         end.

(** The requests of a discovery against [httpBase], in the order made. *)
Definition discoveryRequests {L : GoLib} (httpBase : url.URL) : list Event :=
  [ EvHTTP "GET" (discoveryURL httpBase "/json/version");
    EvHTTP "PUT" (discoveryURL httpBase "/json/new");
    EvHTTP "GET" (discoveryURL httpBase "/json/list") ].

(** The world with the environment variable [key] set to [value], or unset. *)
Definition withEnv {W : Type} (world : World W) (key : string) (value : option string)
  : World W :=
  mkWorld W (fun k => if (k =? key)%string then value else os_LookupEnv world k)
    (time_Now world) (http_Do world) (chromedp_Dial world) (cdp_Do world)
    (cdp_GetLayoutMetrics world) (cdp_EvaluatePageHeight world)
    (cdp_EvaluateBoundingRect world) (cdp_CaptureScreenshot world).

(** What [/json/version] settles by itself: the result of the discovery
    when no fallback is called for, and [None] when the answer is a 2xx
    whose address lacks the devtools path. *)
Definition settledByVersion {L : GoLib} (httpBase : url.URL)
  (answer : GoError + http.Response) : option (GoError + string) :=
  match answer with
  | inl err => Some (inl err)
  | inr resp =>
      if ((http.StatusCode resp <? 200) || (http.StatusCode resp >=? 300))%Z
      then Some (inl (errors.New ("browserless /json/version returned "
                                  ++ strconv.Itoa (http.StatusCode resp) ++ ": "
                                  ++ strings.TrimSpace (strings.take 4096 (http.Body resp)))))
      else
        match json_Decode_version (http.Body resp) with
        | inl err => Some (inl err)
        | inr vr =>
            let raw := strings.TrimSpace (version_WebSocketDebuggerURL vr) in
            if hasDevToolsPath raw then Some (rewriteWebSocketDebuggerURL raw httpBase)
            else None
        end
  end.

(** The typed parameters of [GET /screenshot], in the order the parser
    reads them. *)
Inductive ParamKind := IntParam | FloatParam | BoolParam.

Definition typedParams : list (string * ParamKind) :=
  [ ("width", IntParam); ("height", IntParam); ("quality", IntParam);
    ("wait_time", IntParam); ("timeout", IntParam); ("device_scale", FloatParam);
    ("full_page", BoolParam); ("mobile", BoolParam); ("landscape", BoolParam) ]%string.

(** A parameter is malformed when it has a non-empty text that its type
    does not read. *)
Definition malformed {L : GoLib} (c : gin.Context) (p : string * ParamKind) : bool :=
  let v := gin.Query c (fst p) in
  negb (v =? "")%string
  && match snd p with
     | IntParam => match strconv.Atoi v with Some _ => false | None => true end
     | FloatParam => match strconv_ParseFloat v with Some _ => false | None => true end
     | BoolParam => match strconv.ParseBool v with Some _ => false | None => true end
     end.

Definition complaint (p : string * ParamKind) : string :=
  (fst p ++ " must be " ++ match snd p with
                           | IntParam => "integer"
                           | FloatParam => "number"
                           | BoolParam => "boolean"
                           end)%string.

(** The complaint a query deserves: that of its first malformed typed
    parameter, else that of a [headers] text that is no JSON object. *)
Definition firstComplaint {L : GoLib} (c : gin.Context) : option string :=
  match find (malformed c) typedParams with
  | Some p => Some (complaint p)
  | None =>
      if negb (gin.Query c "headers" =? "")%string
      then match json_Unmarshal_headers (gin.Query c "headers") with
           | Some _ => None
           | None => Some "headers must be a valid JSON object"%string
           end
      else None
  end.

(** The parameters of [GET /screenshot] that have a default. *)
Definition defaultedParams : list string :=
  [ "format"; "width"; "height"; "quality"; "wait_time"; "timeout"; "device_scale";
    "full_page"; "mobile"; "landscape"; "headers" ]%string.

(** The request a JSON body binds to when it names only the four texts. *)
Definition textsOnly (urlstr selector waitFor userAgent : string) : ScreenshotRequest :=
  mkRequest urlstr selector 0 0 "" 0 0 waitFor false [] userAgent 0%float false false 0 None.

(** The titles of the replies to a failure after validation, and the
    statuses they come with. *)
Definition failureTitles : list (Z * string) :=
  [ (StatusGatewayTimeout, "browserless endpoint timeout");
    (StatusBadGateway, "failed to resolve browserless websocket endpoint");
    (StatusGatewayTimeout, "chrome dial timeout");
    (StatusBadGateway, "failed to connect chrome endpoint");
    (StatusGatewayTimeout, "screenshot timeout");
    (StatusInternalServerError, "failed to screenshot") ]%string.

(** * The vocabulary of the handler's steps *)





(** The calls the handler makes before it hands a viewport to the browser:
    the discovery requests, the dial and [network.Enable]. *)
Definition beforeCommit (ev : Event) : bool :=
  match ev with
  | EvHTTP _ _ | EvDial _ | EvCommand NetworkEnable => true
  | _ => false
  end.

(** The viewports a trace hands to the browser, in the order handed: the
    width and height of every [emulation.SetDeviceMetricsOverride]. *)
Definition committedViewports (evs : list Event) : list (Z * Z) :=
  flat_map (fun ev => match ev with
                      | EvCommand (SetDeviceMetricsOverride width height _ _) =>
                          [(width, height)]
                      | _ => []
                      end) evs.

(** The actions that hand no viewport to the browser. *)
Definition leavesViewport (a : Action) : bool :=
  match a with
  | ActCommand (SetDeviceMetricsOverride _ _ _ _) | ActAutoExpand => false
  | _ => true
  end.

Module scenarios.

(** [CHROME_WS_ENDPOINT] names a browser in full; nothing else is set. *)
Definition directEnv (key : string) : option string :=
  if (key =? "CHROME_WS_ENDPOINT")%string
  then Some " ws://chrome:9222/devtools/browser/abc "%string
  else None.



(** [GET /screenshot?url=https://example.com&selector=%23main&width=1280&mobile=true&landscape=true]:
    a mobile landscape capture of the element [#main], its height unset. *)
Definition getMobileLandscapeElement : gin.Context :=
  gin.mkContext "GET"
    [ ("url", "https://example.com"); ("selector", "#main"); ("width", "1280");
      ("mobile", "true"); ("landscape", "true") ] "".

End scenarios.

(** A request within every limit, its format in upper case. *)
Definition validExample : ScreenshotRequest :=
  mkRequest "https://example.com" "" 1280 720 "JPEG" 80 0 "" false [] "" 2%float
    false false 30 None.

(** * Properties *)

Ltac unfold_setters :=
  cbv beta delta [setWidth setHeight setFormat setQuality setWaitTime setFullPage
    setHeaders setUserAgent setDeviceScale setMobile setLandscape setTimeout] in *.

Ltac fields :=
  cbn beta iota delta
    [URL Selector Width Height Format Quality WaitTime WaitFor FullPage Headers
     UserAgent DeviceScale Mobile Landscape Timeout Clip fst snd] in *.

Ltac case_if :=
  match goal with
  | |- context [if ?b then _ else _] => destruct b eqn:?; unfold_setters; fields
  end.

(** ** Defaulting *)

(** [applyDefaults] field by field. *)
Lemma applyDefaults_fields (r : ScreenshotRequest) :
  applyDefaults r =
  mkRequest (URL r) (Selector r)
    (if Width r =? 0 then defaultWidth else Width r)
    (if (Height r =? 0) && (Selector r =? "")%string then defaultHeight else Height r)
    (if (Format r =? "")%string then defaultFormat else Format r)
    (if Quality r =? 0 then defaultQuality else Quality r)
    (WaitTime r) (WaitFor r) (FullPage r) (Headers r) (UserAgent r)
    (if PrimFloat.eqb (DeviceScale r) 0 then defaultDeviceScale else DeviceScale r)
    (Mobile r) (Landscape r)
    (if Timeout r =? 0 then defaultTimeoutSec else Timeout r)
    (Clip r).
Proof.
  destruct r as [u sel w h f qu wt wf fp hd ua ds mo la ti cl].
  cbv delta [applyDefaults]; cbv zeta; fields.
  destruct (w =? 0); cbv beta delta [setWidth]; fields;
    destruct ((h =? 0) && (sel =? "")%string); cbv beta delta [setHeight]; fields;
    destruct (f =? "")%string; cbv beta delta [setFormat]; fields;
    destruct (qu =? 0); cbv beta delta [setQuality]; fields;
    destruct (PrimFloat.eqb ds 0); cbv beta delta [setDeviceScale]; fields;
    destruct (ti =? 0); cbv beta delta [setTimeout]; fields; reflexivity.
Qed.

Lemma applyDefaults_twice (r : ScreenshotRequest) :
  applyDefaults (applyDefaults r) = applyDefaults r.
Proof.
  rewrite (applyDefaults_fields (applyDefaults r)).
  rewrite (applyDefaults_fields r); fields.
  f_equal.
  - destruct (Width r =? 0) eqn:E; [reflexivity | now rewrite E].
  - destruct ((Height r =? 0) && (Selector r =? "")%string) eqn:E; [reflexivity|].
    now rewrite E.
  - destruct (Format r =? "")%string eqn:E; [reflexivity | now rewrite E].
  - destruct (Quality r =? 0) eqn:E; [reflexivity | now rewrite E].
  - destruct (PrimFloat.eqb (DeviceScale r) 0) eqn:E; [reflexivity | now rewrite E].
  - destruct (Timeout r =? 0) eqn:E; [reflexivity | now rewrite E].
Qed.

(** C9. Defaulting is idempotent: a second [applyDefaults] changes nothing,
    for every request. The handler relies on it for a POST request, which
    [parseRequest] has defaulted once before the handler defaults it again:
    the request it validates is the bound request defaulted once. *)
Theorem applyDefaults_idempotent :
  (forall r : ScreenshotRequest, applyDefaults (applyDefaults r) = applyDefaults r)
  /\ (forall (L : GoLib) (c : gin.Context) (bound : ScreenshotRequest),
        (gin.Method c =? "GET")%string = false ->
        ShouldBindJSON (gin.Body c) = (bound, false) ->
        applyDefaults (fst (parseRequest c)) = applyDefaults bound).
Proof.
  split; [exact applyDefaults_twice|].
  intros L c bound Hm Hb.
  unfold parseRequest. rewrite Hm, Hb. cbn [fst]. apply applyDefaults_twice.
Qed.

(** The POST half of C9 at [examples.postQualityZero]. *)
Lemma applyDefaults_idempotent_witness :
  (gin.Method examples.postQualityZero =? "GET")%string = false
  /\ applyDefaults (fst (parseRequest (L := examples.lib) examples.postQualityZero))
     = applyDefaults (fst (ShouldBindJSON (GoLib := examples.lib)
                             (gin.Body examples.postQualityZero))).
Proof.
  split; [reflexivity|].
  apply (proj2 applyDefaults_idempotent examples.lib examples.postQualityZero);
    reflexivity.
Defined.

(** ** Validation *)


Lemma validate_message_cases (L : GoLib) (r : ScreenshotRequest) (e : GoError) :
  snd (validate r) = Some e ->
  (Error e = widthRangeError -> (Width r <? 100) || (Width r >? 4096) = true)
  /\ (Error e = qualityRangeError -> (Quality r <? 1) || (Quality r >? 100) = true)
  /\ (Error e = timeoutRangeError -> (Timeout r <? 1) || (Timeout r >? maxTimeoutSec) = true)
  /\ (Error e = deviceScaleRangeError ->
      PrimFloat.leb (DeviceScale r) 0 || PrimFloat.ltb 4 (DeviceScale r) = true).
Proof.
  unfold validate.
  destruct r as [u sel w h f qu wt wf fp hd ua ds mo la ti cl]; cbn.
  repeat case_if;
    try destruct cl as [c|]; cbn;
    repeat case_if;
    intro H; inversion H; subst; cbn;
    repeat split; intro M; try discriminate M; reflexivity.
Qed.

(** C10. A zero width, quality, device scale or timeout is replaced by its
    default before validation, so the handler's check of a request never
    answers with the range error of a field the request holds as zero. This
    is the check of a GET request as parsed, and of a POST request as bound
    from its body, which the handler validates defaulted once. The POST
    body of [examples.postQualityZero], with quality 0, is served as a JPEG
    captured at quality 90; the GET query of [examples.getZeros], with all
    four fields 0, is served at 1920 by 1080 and scale 1. *)
Theorem zero_values_are_defaulted :
  (forall (L : GoLib) (r : ScreenshotRequest),
     (Width r = 0 ->
        Width (applyDefaults r) = 1920
        /\ forall e, handlerCheck r = Some e -> Error e <> widthRangeError)
     /\ (Quality r = 0 ->
        Quality (applyDefaults r) = 90
        /\ forall e, handlerCheck r = Some e -> Error e <> qualityRangeError)
     /\ (PrimFloat.eqb (DeviceScale r) 0 = true ->
        DeviceScale (applyDefaults r) = 1%float
        /\ forall e, handlerCheck r = Some e -> Error e <> deviceScaleRangeError)
     /\ (Timeout r = 0 ->
        Timeout (applyDefaults r) = 30
        /\ forall e, handlerCheck r = Some e -> Error e <> timeoutRangeError))
  /\ (forall (L : GoLib) (c : gin.Context) (bound : ScreenshotRequest),
        (gin.Method c =? "GET")%string = false ->
        ShouldBindJSON (gin.Body c) = (bound, false) ->
        validate (applyDefaults (fst (parseRequest c))) = validate (applyDefaults bound))
  /\ (let world := examples.worldOf examples.emptyEnv examples.fullVersionNetwork 800 in
      let post := screenshotHandler (L := examples.lib) world
                    examples.postQualityZero examples.start in
      let get := screenshotHandler (L := examples.lib) world
                   examples.getZeros examples.start in
      Quality (fst (ShouldBindJSON (GoLib := examples.lib)
                      (gin.Body examples.postQualityZero))) = 0
      /\ fst post = Data StatusOK "image/jpeg" "IMG"
      /\ In (EvCaptureScreenshot
               (mkCapture CaptureScreenshotFormatJpeg true false (Some 90) None))
            (snd (snd post))
      /\ fst get = Data StatusOK "image/png" "IMG"
      /\ In (EvCommand (SetDeviceMetricsOverride 1920 1080 1 false)) (snd (snd get))).
Proof.
  split; [|split].
  - intros L r. unfold handlerCheck.
    split; [|split; [|split]]; intro Hz;
      (split; [rewrite applyDefaults_fields; fields; now rewrite Hz | intros e He M]).
    + apply (proj1 (validate_message_cases L _ e He)) in M.
      rewrite applyDefaults_fields in M; fields. rewrite Hz in M. discriminate M.
    + apply (proj1 (proj2 (validate_message_cases L _ e He))) in M.
      rewrite applyDefaults_fields in M; fields. rewrite Hz in M. discriminate M.
    + apply (proj2 (proj2 (proj2 (validate_message_cases L _ e He)))) in M.
      rewrite applyDefaults_fields in M; fields. rewrite Hz in M. discriminate M.
    + apply (proj1 (proj2 (proj2 (validate_message_cases L _ e He)))) in M.
      rewrite applyDefaults_fields in M; fields. rewrite Hz in M. discriminate M.
  - intros L c bound Hm Hb.
    unfold parseRequest. rewrite Hm, Hb. cbn [fst].
    now rewrite applyDefaults_twice.
  - cbv zeta. split; [reflexivity|]. split; [vm_compute; reflexivity|].
    split; [vm_compute; do 6 right; left; reflexivity|].
    split; [vm_compute; reflexivity|].
    vm_compute. do 3 right. left. reflexivity.
Qed.

(** C10 at the request that sets nothing but a URL and a zero quality. *)
Lemma zero_values_are_defaulted_witness :
  let r := mkRequest "https://example.com" "" 0 0 "" 0 0 "" false [] ""
             0%float false false 0 None in
  Quality r = 0
  /\ Quality (applyDefaults r) = 90
  /\ handlerCheck (L := examples.lib) r = None.
Proof.
  cbv zeta. split; [reflexivity|]. split; [|reflexivity].
  apply (proj1 (proj2 (proj1 zero_values_are_defaulted examples.lib _))).
  reflexivity.
Defined.

(** ** The GET parser *)

Lemma assign_keeps_no_clip {A : Type} (parsed : A * option GoError)
  (set : A -> ScreenshotRequest)
  (next : ScreenshotRequest -> ScreenshotRequest * option GoError) :
  (forall a, Clip (set a) = None) ->
  (forall req, Clip req = None -> Clip (fst (next req)) = None) ->
  Clip (fst (assign parsed set next)) = None.
Proof.
  intros Hset Hnext. unfold assign.
  destruct (snd parsed); cbn; [apply Hset | apply Hnext, Hset].
Qed.

(** C8 fails on the code. [parseRequestFromGET] reads fifteen fields of the
    request from the query and never the clip: whatever the query holds,
    the request it returns has no clip, and the query of
    [examples.getWithClip], which carries a [clip] parameter, is parsed
    into the defaulted request for its URL with no clip. *)
Theorem parseRequestFromGET_never_sets_clip :
  (forall (L : GoLib) (c : gin.Context), Clip (fst (parseRequestFromGET c)) = None)
  /\ (forall L : GoLib,
        gin.GetQuery examples.getWithClip "clip" <> None
        /\ parseRequestFromGET examples.getWithClip
           = (mkRequest "https://example.com" "" 1920 0 "png" 90 0 "" false [] ""
                1%float false false 30 None, None)).
Proof.
  split.
  - intros L c. unfold parseRequestFromGET.
    apply assign_keeps_no_clip; [intro; reflexivity | intros req0 H0].
    repeat (apply assign_keeps_no_clip; [intro; exact H0 | clear req0 H0; intros req0 H0]).
    cbv zeta.
    destruct (negb _); [destruct (json_Unmarshal_headers _)|]; exact H0.
  - intro L. split; [discriminate | reflexivity].
Qed.

(** ** Replies to failures *)

(** Every reply of [screenshotHandler] is a success, a rejected request, the
    not-configured reply, or the reply to a failure of resolution, of the
    dial or of the run. *)
Lemma screenshotHandler_replies (L : GoLib) (W : Type) (world : World W)
  (c : gin.Context) (s : W * list Event) :
  let reply := fst (screenshotHandler world c s) in
  status reply = StatusOK
  \/ status reply = StatusBadRequest
  \/ reply = notConfiguredReply
  \/ (exists e, reply = resolveFailure e)
  \/ (exists d e, dial_err d = Some e /\ reply = dialFailure d e)
  \/ (exists e, reply = runFailure e).
Proof.
  cbv zeta. unfold screenshotHandler.
  destruct (parseRequest c) as [req [e|]]; [right; left; reflexivity|].
  destruct (validate (applyDefaults req)) as [req' [e|]]; [right; left; reflexivity|].
  destruct (initialViewport req') as [vw vh].
  unfold bind.
  destruct (resolveWSEndpoint world s) as [[[wsURL configured] err] s1].
  destruct configured; cbn [negb]; [|do 2 right; left; reflexivity].
  destruct err as [e|]; [do 3 right; left; exists e; reflexivity|].
  destruct (call (EvDial wsURL) (chromedp_Dial world wsURL) s1) as [d s2].
  destruct (dial_err d) as [e|] eqn:Hd;
    [do 4 right; left; exists d, e; split; [exact Hd | reflexivity]|].
  destruct (runActions world req' vw _ _ s2) as [[[e|] v] s3]; cbn.
  - do 5 right. exists e. reflexivity.
  - left. reflexivity.
Qed.

(** ** Address rewriting *)

(** C1. A discovered address that parses with a scheme and a host is
    rewritten, against an http or https control plane with a host name, to
    the address with scheme ws (for http) or wss (for https), with the
    control plane's host and port (80 or 443 when it names none), and with
    every other component, the path among them, as parsed. In particular
    [ws://0.0.0.0:3000/devtools/browser/abc] against
    [https://example.com:8443] gives
    [wss://example.com:8443/devtools/browser/abc]. *)
Theorem rewrite_overrides_authority :
  (forall (L : GoLib) (raw : string) (httpBase wsU : url.URL),
     strings.TrimSpace raw <> ""%string ->
     url_Parse (strings.TrimSpace raw) = inr wsU ->
     url.Scheme wsU <> ""%string ->
     url.Host wsU <> ""%string ->
     url.Scheme httpBase = "http"%string \/ url.Scheme httpBase = "https"%string ->
     url.Hostname httpBase <> ""%string ->
     exists out : url.URL,
       rewriteWebSocketDebuggerURL raw httpBase = inr (URL_String out)
       /\ url.Scheme out
          = (if (url.Scheme httpBase =? "http")%string then "ws" else "wss")%string
       /\ url.Host out = controlPlaneAuthority httpBase
       /\ url.Path out = url.Path wsU
       /\ out = url.withSchemeHost wsU (url.Scheme out) (url.Host out))
  /\ rewriteWebSocketDebuggerURL (L := examples.lib)
       "ws://0.0.0.0:3000/devtools/browser/abc"
       (baseOf (L := examples.lib) "https://example.com:8443")
     = inr "wss://example.com:8443/devtools/browser/abc"%string.
Proof.
  split; [|vm_compute; reflexivity].
  intros L raw httpBase wsU Hraw Hparse Hscheme Hhost Hbase Hname.
  unfold rewriteWebSocketDebuggerURL, httpBaseHostPortWithDefault, wsSchemeForHTTPBase,
    controlPlaneAuthority.
  apply String.eqb_neq in Hraw, Hscheme, Hhost, Hname.
  rewrite Hraw, Hparse, Hscheme, Hhost, Hname. cbn [orb].
  destruct Hbase as [Hb | Hb]; rewrite Hb; cbn [String.eqb Ascii.eqb Bool.eqb];
    destruct (url.Port httpBase =? "")%string;
    eexists; (split; [reflexivity|]); cbn; repeat split.
Qed.

(** C1 at a control plane that names no port: the default port is used. *)
Lemma rewrite_overrides_authority_witness :
  let raw := "ws://0.0.0.0:3000/devtools/browser/abc"%string in
  let httpBase := url.mkURL "http" "" None "localhost" "" "" false false "" "" "" in
  exists out : url.URL,
    rewriteWebSocketDebuggerURL (L := examples.lib) raw httpBase
    = inr (URL_String (GoLib := examples.lib) out)
    /\ url.Scheme out = "ws"%string
    /\ url.Host out = "localhost:80"%string
    /\ url.Path out = "/devtools/browser/abc"%string
    /\ URL_String (GoLib := examples.lib) out
       = "ws://localhost:80/devtools/browser/abc"%string.
Proof.
  cbv zeta.
  destruct (proj1 rewrite_overrides_authority examples.lib
              "ws://0.0.0.0:3000/devtools/browser/abc"%string
              (url.mkURL "http" "" None "localhost" "" "" false false "" "" "")
              (url.mkURL "ws" "" None "0.0.0.0:3000" "/devtools/browser/abc" ""
                 false false "" "" ""))
    as (out & Hr & Hs & Hh & Hp & Hout);
    [discriminate | reflexivity | discriminate | discriminate | left; reflexivity
    | discriminate |].
  exists out. split; [exact Hr|]. split; [exact Hs|]. split; [exact Hh|].
  split; [exact Hp|].
  rewrite Hout, Hs, Hh. reflexivity.
Defined.

(** ** Auto-expand *)




(** ** No endpoint configured *)

Lemma resolveWSEndpoint_not_configured (L : GoLib) (W : Type) (world : World W)
  (s : W * list Event) :
  notConfigured world ->
  resolveWSEndpoint world s
  = ((""%string, false, Some (errors.New "browserless endpoint is not configured")), s).
Proof.
  intros [Hws Hhttp]. unfold resolveWSEndpoint. rewrite Hws, Hhttp. reflexivity.
Qed.

Lemma resolveWSEndpoint_configured (L : GoLib) (W : Type) (world : World W)
  (s : W * list Event) :
  snd (fst (fst (resolveWSEndpoint world s))) = false -> notConfigured world.
Proof.
  unfold resolveWSEndpoint, notConfigured, bind, ret.
  destruct (getChromeWSEndpoint world =? "")%string eqn:Hws; cbn [negb].
  - apply String.eqb_eq in Hws.
    destruct (getBrowserlessHTTPURL world =? "")%string eqn:Hhttp.
    + apply String.eqb_eq in Hhttp. intros _. split; assumption.
    + destruct (parseBrowserlessHTTPBase _) as [e | httpBase]; cbn; [discriminate|].
      destruct (resolveWSEndpointViaJSONVersion world httpBase s) as [[e | r] s'];
        cbn; discriminate.
  - destruct (match url_Parse _ with inl _ => false | inr u => _ end); cbn; [discriminate|].
    destruct (httpBaseFromWSEndpoint _) as [e | httpBase]; cbn; [discriminate|].
    destruct (resolveWSEndpointViaJSONVersion world httpBase s) as [[e | r] s'];
      cbn; discriminate.
Qed.

Lemma resolveFailure_status (e : GoError) :
  status (resolveFailure e) = StatusGatewayTimeout
  \/ status (resolveFailure e) = StatusBadGateway.
Proof.
  unfold resolveFailure. destruct (isTimeoutErr (Some e)); [left | right]; reflexivity.
Qed.

Lemma dialFailure_status (d : DialResult) (e : GoError) :
  status (dialFailure d e) = StatusGatewayTimeout
  \/ status (dialFailure d e) = StatusBadGateway.
Proof.
  unfold dialFailure.
  repeat match goal with
         | |- context [if ?b then _ else _] => destruct b
         end; cbn; auto.
Qed.

Lemma runFailure_status (e : GoError) :
  status (runFailure e) = StatusGatewayTimeout
  \/ status (runFailure e) = StatusBadGateway
  \/ status (runFailure e) = StatusInternalServerError.
Proof.
  unfold runFailure.
  repeat match goal with
         | |- context [if ?b then _ else _] => destruct b
         end; cbn; auto.
Qed.

Lemma screenshotHandler_503_not_configured (L : GoLib) (W : Type) (world : World W)
  (c : gin.Context) (s : W * list Event) :
  status (fst (screenshotHandler world c s)) = StatusServiceUnavailable ->
  notConfigured world.
Proof.
  unfold screenshotHandler.
  destruct (parseRequest c) as [req [e|]]; [discriminate|].
  destruct (validate (applyDefaults req)) as [req' [e|]]; [discriminate|].
  destruct (initialViewport req') as [vw vh].
  unfold bind.
  destruct (resolveWSEndpoint world s) as [[[wsURL configured] err] s1] eqn:Hres.
  destruct configured; cbn [negb].
  - destruct err as [e|].
    + cbn. destruct (resolveFailure_status e) as [H | H]; rewrite H; discriminate.
    + destruct (call (EvDial wsURL) (chromedp_Dial world wsURL) s1) as [d s2].
      destruct (dial_err d) as [e|].
      * cbn. destruct (dialFailure_status d e) as [H | H]; rewrite H; discriminate.
      * destruct (runActions world req' vw _ _ s2) as [[[e|] v] s3]; cbn;
          [|discriminate].
        destruct (runFailure_status e) as [H | [H | H]]; rewrite H; discriminate.
  - intros _. apply (resolveWSEndpoint_configured L W world s). now rewrite Hres.
Qed.

(** C2, as amended. With neither endpoint configured, every call to
    [/screenshot] whose request parses and passes validation is answered 503
    with the not-configured error, before any outside call (a request that
    does not parse or fails validation is answered 400 first), and every
    call to [/health] is answered 503 with status "degraded".
    [/screenshot] answers 503 in no other situation, so a resolution failure
    (502 or 504) is told apart. [CHROME_WS_ENDPOINT] counts as not
    configured when it is unset or blank; [BROWSERLESS_HTTP_URL] only when
    it is set to a blank text: unset, it defaults to
    [http://localhost:3000]. *)
Theorem not_configured_is_unavailable :
  (forall (L : GoLib) (W : Type) (world : World W) (s : W * list Event),
     notConfigured world ->
     (forall (c : gin.Context) (req : ScreenshotRequest),
        parseRequest c = (req, None) ->
        snd (validate (applyDefaults req)) = None ->
        screenshotHandler world c s = (notConfiguredReply, s))
     /\ (forall (c : gin.Context) (req : ScreenshotRequest) (e : GoError),
          parseRequest c = (req, Some e)
          \/ (parseRequest c = (req, None) /\ snd (validate (applyDefaults req)) = Some e) ->
          screenshotHandler world c s
          = (JSON StatusBadRequest [("error"%string, JString (Error e))], s))
     /\ status (fst (healthHandler world s)) = StatusServiceUnavailable
     /\ jsonField "status" (fst (healthHandler world s)) = Some (JString "degraded")
     /\ jsonField "chrome_ws_configured" (fst (healthHandler world s)) = Some (JBool false)
     /\ snd (healthHandler world s) = s)
  /\ (forall (L : GoLib) (W : Type) (world : World W) (c : gin.Context)
             (s : W * list Event),
        status (fst (screenshotHandler world c s)) = StatusServiceUnavailable ->
        notConfigured world)
  /\ (forall e : GoError,
        status (resolveFailure e) = StatusGatewayTimeout
        \/ status (resolveFailure e) = StatusBadGateway)
  /\ (forall (W : Type) (world : World W),
        (os_LookupEnv world "BROWSERLESS_HTTP_URL" = None ->
         getBrowserlessHTTPURL world = "http://localhost:3000"%string)
        /\ (forall v, os_LookupEnv world "BROWSERLESS_HTTP_URL" = Some v ->
            getBrowserlessHTTPURL world = strings.TrimSpace v)
        /\ (os_LookupEnv world "CHROME_WS_ENDPOINT" = None ->
            getChromeWSEndpoint world = ""%string)
        /\ (forall v, os_LookupEnv world "CHROME_WS_ENDPOINT" = Some v ->
            getChromeWSEndpoint world = strings.TrimSpace v)).
Proof.
  split; [|split; [|split]].
  - intros L W world s Hnc. split; [|split].
    + intros c req Hparse Hvalid.
      unfold screenshotHandler. rewrite Hparse.
      destruct (validate (applyDefaults req)) as [req' verr]. cbn in Hvalid. subst verr.
      destruct (initialViewport req') as [vw vh].
      unfold bind. rewrite (resolveWSEndpoint_not_configured L W world s Hnc).
      reflexivity.
    + intros c req e [Hparse | [Hparse Hvalid]];
        unfold screenshotHandler; rewrite Hparse; [reflexivity|].
      destruct (validate (applyDefaults req)) as [req' verr]. cbn in Hvalid. subst verr.
      reflexivity.
    + unfold healthHandler, bind.
      rewrite (resolveWSEndpoint_not_configured L W world s Hnc).
      repeat split.
  - apply screenshotHandler_503_not_configured.
  - apply resolveFailure_status.
  - intros W world. unfold getBrowserlessHTTPURL, getChromeWSEndpoint, os_Getenv.
    split; [|split; [|split]].
    + intros ->. reflexivity.
    + intros v ->. reflexivity.
    + intros ->. reflexivity.
    + intros v ->. reflexivity.
Qed.

(** C2 at a world whose [BROWSERLESS_HTTP_URL] is set to the empty text,
    for [GET /screenshot?url=https://example.com]. *)
Lemma not_configured_is_unavailable_witness :
  let world := examples.worldOf examples.blankEnv examples.noNetwork 800 in
  notConfigured world
  /\ snd (validate (L := examples.lib)
            (applyDefaults (fst (parseRequest (L := examples.lib) examples.getExample))))
     = None
  /\ screenshotHandler (L := examples.lib) world examples.getExample examples.start
     = (notConfiguredReply, examples.start).
Proof.
  cbv zeta.
  assert (Hnc : notConfigured (examples.worldOf examples.blankEnv examples.noNetwork 800))
    by (split; reflexivity).
  split; [exact Hnc|]. split; [reflexivity|].
  apply (proj1 (proj1 not_configured_is_unavailable examples.lib unit _ examples.start Hnc)
           examples.getExample
           (fst (parseRequest (L := examples.lib) examples.getExample)));
    reflexivity.
Defined.

(** C2 as stated fails: with neither endpoint configured, a call to
    [/screenshot] that names no URL is answered 400, not 503. *)
Lemma not_configured_invalid_request :
  let world := examples.worldOf examples.blankEnv examples.noNetwork 800 in
  getChromeWSEndpoint world = ""%string
  /\ getBrowserlessHTTPURL world = ""%string
  /\ screenshotHandler (L := examples.lib) world examples.getNothing examples.start
     = (JSON StatusBadRequest [("error"%string, JString "url is required")],
        examples.start).
Proof. cbv zeta. repeat split. Qed.

(** ** Discovery fallbacks *)

Lemma firstUsable_some (L : GoLib) (httpBase : url.URL)
  (payloads : list browserlessCDPJSONPayload) (rewritten : string) :
  firstUsable httpBase payloads = Some rewritten ->
  exists skipped p rest,
    payloads = (skipped ++ p :: rest)%list
    /\ Forall (unusable httpBase) skipped
    /\ usable httpBase p rewritten.
Proof.
  induction payloads as [|p rest IH]; cbn; [discriminate|].
  destruct (hasDevToolsPath (WebSocketDebuggerURL p)) eqn:Hp; cbn.
  - destruct (rewriteWebSocketDebuggerURL (WebSocketDebuggerURL p) httpBase)
      as [e | r] eqn:Hr.
    + intro H. destruct (IH H) as (skipped & p' & rest' & -> & Hs & Hu).
      exists (p :: skipped), p', rest'. repeat split; try apply Hu.
      constructor; [right; exists e; exact Hr | exact Hs].
    + intro H. inversion H; subst.
      exists [], p, rest. repeat split; [constructor | exact Hp | exact Hr].
  - intro H. destruct (IH H) as (skipped & p' & rest' & -> & Hs & Hu).
    exists (p :: skipped), p', rest'. repeat split; try apply Hu.
    constructor; [left; exact Hp | exact Hs].
Qed.

Lemma viaJSONNew_trace (L : GoLib) (W : Type) (world : World W) (httpBase : url.URL)
  (s : W * list Event) :
  snd (snd (resolveWSEndpointViaJSONNew world httpBase s))
  = (snd s ++ [EvHTTP "PUT" (discoveryURL httpBase "/json/new")])%list.
Proof.
  unfold resolveWSEndpointViaJSONNew, bind, httpDo, call, ret, discoveryURL.
  destruct (http_Do world _ _ (fst s)). reflexivity.
Qed.

Lemma viaJSONList_trace (L : GoLib) (W : Type) (world : World W) (httpBase : url.URL)
  (s : W * list Event) :
  snd (snd (resolveWSEndpointViaJSONList world httpBase s))
  = (snd s ++ [EvHTTP "GET" (discoveryURL httpBase "/json/list")])%list.
Proof.
  unfold resolveWSEndpointViaJSONList, bind, httpDo, call, ret, discoveryURL.
  destruct (http_Do world _ _ (fst s)). reflexivity.
Qed.

Lemma viaJSONNew_rewrites (L : GoLib) (W : Type) (world : World W) (httpBase : url.URL)
  (s : W * list Event) (resolved : string) :
  fst (resolveWSEndpointViaJSONNew world httpBase s) = inr resolved ->
  exists resp payload,
    fst (http_Do world "PUT" (discoveryURL httpBase "/json/new") (fst s)) = inr resp
    /\ json_Decode_payload (http.Body resp) = inr payload
    /\ usable httpBase payload resolved.
Proof.
  unfold resolveWSEndpointViaJSONNew, bind, httpDo, call, ret, discoveryURL, usable.
  destruct (http_Do world _ _ (fst s)) as [[e | resp] w']; cbn; [discriminate|].
  destruct (non2xx resp); [discriminate|].
  destruct (json_Decode_payload (http.Body resp)) as [e | payload] eqn:Hd; [discriminate|].
  destruct (hasDevToolsPath (WebSocketDebuggerURL payload)) eqn:Hp; cbn; [|discriminate].
  intro H. exists resp, payload. repeat split; assumption.
Qed.

Lemma viaJSONList_rewrites (L : GoLib) (W : Type) (world : World W) (httpBase : url.URL)
  (s : W * list Event) (resolved : string) :
  fst (resolveWSEndpointViaJSONList world httpBase s) = inr resolved ->
  exists resp payloads skipped p rest,
    fst (http_Do world "GET" (discoveryURL httpBase "/json/list") (fst s)) = inr resp
    /\ json_Decode_payloads (http.Body resp) = inr payloads
    /\ payloads = (skipped ++ p :: rest)%list
    /\ Forall (unusable httpBase) skipped
    /\ usable httpBase p resolved.
Proof.
  unfold resolveWSEndpointViaJSONList, bind, httpDo, call, ret, discoveryURL.
  destruct (http_Do world _ _ (fst s)) as [[e | resp] w']; cbn; [discriminate|].
  destruct (non2xx resp); [discriminate|].
  destruct (json_Decode_payloads (http.Body resp)) as [e | payloads] eqn:Hd; [discriminate|].
  destruct (firstUsable httpBase payloads) as [r|] eqn:Hf; [|discriminate].
  intro H. inversion H; subst.
  destruct (firstUsable_some L httpBase payloads resolved Hf)
    as (skipped & p & rest & Hsplit & Hs & Hu).
  exists resp, payloads, skipped, p, rest. repeat split; try assumption; apply Hu.
Qed.

(** C3, as amended. When [GET {base}/json/version] answers 2xx with a
    [webSocketDebuggerUrl] that lacks the [/devtools/] path, the resolver
    next calls [PUT {base}/json/new]; if that yields an address it is the
    result and nothing else is called; only otherwise it calls
    [GET {base}/json/list], whose result is the result; and it fails, after
    exactly these three calls, when both fail. An address from
    [/json/new] is the rewrite of the payload's address; an address from
    [/json/list] is the rewrite of the first entry that has the devtools
    path and whose rewrite succeeds, every entry before it lacking the path
    or failing the rewrite. *)
Theorem discovery_falls_back_in_order (L : GoLib) (W : Type) (world : World W)
  (httpBase : url.URL) (w w1 : W) (trace : list Event)
  (resp : http.Response) (vr : browserlessVersionResponse) :
  let version := EvHTTP "GET" (discoveryURL httpBase "/json/version") in
  let new := EvHTTP "PUT" (discoveryURL httpBase "/json/new") in
  let list := EvHTTP "GET" (discoveryURL httpBase "/json/list") in
  http_Do world "GET" (discoveryURL httpBase "/json/version") w = (inr resp, w1) ->
  non2xx resp = false ->
  json_Decode_version (http.Body resp) = inr vr ->
  hasDevToolsPath (strings.TrimSpace (version_WebSocketDebuggerURL vr)) = false ->
  let result := resolveWSEndpointViaJSONVersion world httpBase (w, trace) in
  let viaNew := resolveWSEndpointViaJSONNew world httpBase (w1, (trace ++ [version])%list) in
  let viaList := resolveWSEndpointViaJSONList world httpBase (snd viaNew) in
  (forall resolved,
     fst viaNew = inr resolved ->
     result = (inr resolved, snd viaNew)
     /\ snd (snd result) = (trace ++ [version; new])%list
     /\ exists r payload,
          fst (http_Do world "PUT" (discoveryURL httpBase "/json/new") w1) = inr r
          /\ json_Decode_payload (http.Body r) = inr payload
          /\ usable httpBase payload resolved)
  /\ (forall e resolved,
        fst viaNew = inl e ->
        fst viaList = inr resolved ->
        result = (inr resolved, snd viaList)
        /\ snd (snd result) = (trace ++ [version; new; list])%list
        /\ exists r payloads skipped p rest,
             fst (http_Do world "GET" (discoveryURL httpBase "/json/list")
                    (fst (snd viaNew))) = inr r
             /\ json_Decode_payloads (http.Body r) = inr payloads
             /\ payloads = (skipped ++ p :: rest)%list
             /\ Forall (unusable httpBase) skipped
             /\ usable httpBase p resolved)
  /\ (forall e e',
        fst viaNew = inl e ->
        fst viaList = inl e' ->
        snd (snd result) = (trace ++ [version; new; list])%list
        /\ exists err, fst result = inl err)
  /\ (forall err, fst result = inl err ->
        exists e e', fst viaNew = inl e /\ fst viaList = inl e').
Proof.
  intros version new list Hdo H2xx Hdec Hbare result viaNew viaList.
  assert (Hresult :
    result = match fst viaNew with
             | inr resolved => (inr resolved, snd viaNew)
             | inl _ =>
                 match fst viaList with
                 | inr resolved => (inr resolved, snd viaList)
                 | inl _ =>
                     (inl (errors.New
                        ("browserless /json/version returned non-devtools ws ("
                         ++ strconv_Quote (strings.TrimSpace (version_WebSocketDebuggerURL vr))
                         ++ ") and fallbacks (/json/new,/json/list) failed")), snd viaList)
                 end
             end).
  { subst result viaList viaNew version.
    unfold resolveWSEndpointViaJSONVersion, bind, httpDo, call, ret.
    fold (discoveryURL httpBase "/json/version").
    cbn [fst snd]. rewrite Hdo, H2xx, Hdec, Hbare.
    destruct (resolveWSEndpointViaJSONNew world httpBase _) as [[e | r] sNew]; cbn [fst snd];
      [|reflexivity].
    destruct (resolveWSEndpointViaJSONList world httpBase sNew) as [[e' | r] sList];
      reflexivity. }
  assert (HtNew : snd (snd viaNew) = (trace ++ [version; new])%list).
  { subst viaNew. rewrite viaJSONNew_trace. cbn [snd]. now rewrite <- app_assoc. }
  assert (HtList : snd (snd viaList) = (trace ++ [version; new; list])%list).
  { subst viaList. rewrite viaJSONList_trace, HtNew. now rewrite <- app_assoc. }
  split; [|split; [|split]].
  - intros resolved Hnew. rewrite Hresult, Hnew.
    split; [reflexivity|]. split; [exact HtNew|].
    subst viaNew. apply (viaJSONNew_rewrites L W world httpBase _ resolved Hnew).
  - intros e resolved Hnew Hlist. rewrite Hresult, Hnew, Hlist.
    split; [reflexivity|]. split; [exact HtList|].
    subst viaList. apply (viaJSONList_rewrites L W world httpBase _ resolved Hlist).
  - intros e e' Hnew Hlist. rewrite Hresult, Hnew, Hlist.
    split; [exact HtList|]. eexists. reflexivity.
  - intros err Herr. rewrite Hresult in Herr.
    destruct (fst viaNew) as [e | r]; [|discriminate].
    destruct (fst viaList) as [e' | r]; [|discriminate].
    exists e, e'. split; reflexivity.
Qed.

(** C3 at a control plane whose [/json/version] names the bare address
    [ws://0.0.0.0:3000], whose [/json/new] answers 500 and whose
    [/json/list] answers [examples.listBody]. *)
Lemma discovery_falls_back_in_order_witness :
  let world := examples.worldOf examples.emptyEnv examples.bareVersionNetwork 800 in
  let httpBase := baseOf (L := examples.lib) "http://localhost:3000" in
  http_Do world "GET" (discoveryURL (L := examples.lib) httpBase "/json/version") tt
  = (inr (http.mkResponse 200 examples.versionBodyBare), tt)
  /\ hasDevToolsPath (L := examples.lib) "ws://0.0.0.0:3000" = false
  /\ resolveWSEndpointViaJSONVersion (L := examples.lib) world httpBase examples.start
     = (inr "ws://localhost:3000/devtools/page/B"%string,
        (tt, [ EvHTTP "GET" "http://localhost:3000/json/version";
               EvHTTP "PUT" "http://localhost:3000/json/new";
               EvHTTP "GET" "http://localhost:3000/json/list" ])).
Proof.
  cbv zeta. split; [reflexivity|]. split; [reflexivity|].
  destruct (discovery_falls_back_in_order examples.lib unit
              (examples.worldOf examples.emptyEnv examples.bareVersionNetwork 800)
              (baseOf (L := examples.lib) "http://localhost:3000") tt tt []
              (http.mkResponse 200 examples.versionBodyBare)
              (mkVersion "ws://0.0.0.0:3000")
              eq_refl eq_refl eq_refl eq_refl)
    as (_ & Hlist & _).
  destruct (Hlist (errors.New "browserless /json/new returned 500: ")
              "ws://localhost:3000/devtools/page/B"%string eq_refl eq_refl)
    as (Hresult & _).
  exact Hresult.
Defined.

(** C3 as stated fails: the list scan does not take the first entry that
    has the devtools path when that entry cannot be rewritten. The first
    entry of [examples.listBody] has the path but neither scheme nor host;
    the resolver passes over it and resolves to the second. *)
Lemma discovery_list_skips_unusable_entry :
  let world := examples.worldOf examples.emptyEnv examples.bareVersionNetwork 800 in
  let httpBase := baseOf (L := examples.lib) "http://localhost:3000" in
  json_Decode_payloads (GoLib := examples.lib) examples.listBody
  = inr [ examples.payloadWith "/devtools/page/A";
          examples.payloadWith "ws://0.0.0.0:3000/devtools/page/B" ]
  /\ hasDevToolsPath (L := examples.lib) "/devtools/page/A" = true
  /\ rewriteWebSocketDebuggerURL (L := examples.lib) "/devtools/page/A" httpBase
     = inl (errors.New ("invalid webSocketDebuggerUrl " ++ examples.q "/devtools/page/A"
                        ++ ": missing scheme or host"))
  /\ fst (resolveWSEndpointViaJSONVersion (L := examples.lib) world httpBase examples.start)
     = inr "ws://localhost:3000/devtools/page/B"%string.
Proof. cbv zeta. repeat split. Qed.

(** * Further properties *)

(** ** Floating-point comparisons *)

Lemma SFcompare_antisym (x y : spec_float) (c : comparison) :
  SFcompare x y = Some c -> SFcompare y x = Some (CompOpp c).
Proof.
  destruct x as [sx | sx | | sx mx ex], y as [sy | sy | | sy my ey]; cbn;
    try discriminate;
    try (intro H; injection H as <-;
         repeat match goal with s : bool |- _ => destruct s end; reflexivity).
  intro H; injection H as <-.
  rewrite (Z.compare_antisym ex ey).
  destruct sx, sy; cbn; try reflexivity;
    destruct (ex ?= ey); cbn; try reflexivity.
  - pose proof (Pos.compare_cont_antisym mx my Eq) as H. cbn in H. rewrite <- H.
    reflexivity.
  - pose proof (Pos.compare_cont_antisym mx my Eq) as H. cbn in H. rewrite <- H.
    reflexivity.
Qed.

Lemma float_leb_false (x y : float) :
  PrimFloat.leb x y = false <->
  SFcompare (Prim2SF x) (Prim2SF y) = None \/ PrimFloat.ltb y x = true.
Proof.
  rewrite leb_spec, ltb_spec. unfold SFleb, SFltb.
  destruct (SFcompare (Prim2SF x) (Prim2SF y)) as [c|] eqn:E.
  - rewrite (SFcompare_antisym _ _ _ E).
    destruct c; cbn; split; intro H; try discriminate; auto;
      destruct H; discriminate.
  - split; auto.
Qed.

Lemma float_ltb_false (x y : float) :
  PrimFloat.ltb x y = false <->
  SFcompare (Prim2SF x) (Prim2SF y) = None \/ PrimFloat.leb y x = true.
Proof.
  rewrite leb_spec, ltb_spec. unfold SFleb, SFltb.
  destruct (SFcompare (Prim2SF x) (Prim2SF y)) as [c|] eqn:E.
  - rewrite (SFcompare_antisym _ _ _ E).
    destruct c; cbn; split; intro H; try discriminate; auto;
      destruct H; discriminate.
  - split; auto.
Qed.

(** Against a number, only NaN is unordered. *)
Lemma SFcompare_none_zero (d : float) :
  SFcompare (Prim2SF d) (Prim2SF 0) = None <-> Prim2SF d = S754_nan.
Proof.
  change (Prim2SF 0) with (S754_zero false).
  destruct (Prim2SF d); cbn; split; intro H; try discriminate; reflexivity.
Qed.

Lemma SFcompare_four_none (d : float) :
  SFcompare (Prim2SF 4) (Prim2SF d) = None <-> Prim2SF d = S754_nan.
Proof.
  change (Prim2SF 4) with (S754_finite false 4503599627370496 (-50)).
  destruct (Prim2SF d); cbn; split; intro H; try discriminate; reflexivity.
Qed.

Lemma float_eqb_leb (x y : float) : PrimFloat.eqb x y = true -> PrimFloat.leb x y = true.
Proof.
  rewrite eqb_spec, leb_spec. unfold SFeqb, SFleb.
  destruct (SFcompare _ _) as [[]|]; try discriminate; reflexivity.
Qed.

Lemma nan_unordered (d x : float) :
  Prim2SF d = S754_nan ->
  PrimFloat.leb d x = false /\ PrimFloat.ltb x d = false /\ PrimFloat.eqb d x = false
  /\ PrimFloat.ltb d x = false /\ PrimFloat.leb x d = false.
Proof.
  intro H. rewrite !leb_spec, !ltb_spec, eqb_spec, H.
  unfold SFleb, SFltb, SFeqb. cbn.
  destruct (Prim2SF x); cbn; repeat split.
Qed.

(** The device scales the check lets through. *)
Lemma scale_check (d : float) :
  PrimFloat.leb d 0 || PrimFloat.ltb 4 d = false <->
  Prim2SF d = S754_nan \/ (PrimFloat.ltb 0 d = true /\ PrimFloat.leb d 4 = true).
Proof.
  rewrite orb_false_iff, float_leb_false, float_ltb_false.
  rewrite SFcompare_none_zero, SFcompare_four_none.
  split.
  - intros [[Hn | Hl] [Hn' | Hl']]; auto.
  - intros [Hn | [Hl Hl']]; auto.
Qed.

(** ** What [validate] accepts *)

Lemma validate_accepts_inv (L : GoLib) (r : ScreenshotRequest) :
  snd (validate r) = None ->
  (URL r =? "")%string = false
  /\ (exists u, url_ParseRequestURI (URL r) = inr u
        /\ negb (url.Scheme u =? "http")%string && negb (url.Scheme u =? "https")%string = false)
  /\ ((Width r <? 100) || (Width r >? 4096)) = false
  /\ (negb (Height r =? 0) && ((Height r <? 100) || (Height r >? 10000))) = false
  /\ ((Height r =? 0) && (Selector r =? "")%string) = false
  /\ formatChecks (strings.ToLower (Format r)) = false
  /\ ((Quality r <? 1) || (Quality r >? 100)) = false
  /\ ((Timeout r <? 1) || (Timeout r >? maxTimeoutSec)) = false
  /\ (PrimFloat.leb (DeviceScale r) 0 || PrimFloat.ltb 4 (DeviceScale r)) = false
  /\ (WaitTime r <? 0) = false
  /\ match Clip r with
     | Some c =>
         (PrimFloat.leb (Clip.Width c) 0 || PrimFloat.leb (Clip.Height c) 0) = false
         /\ (PrimFloat.ltb (Clip.X c) 0 || PrimFloat.ltb (Clip.Y c) 0) = false
     | None => True
     end
  /\ fst (validate r) = setFormat r (strings.ToLower (Format r)).
Proof.
  unfold validate, formatChecks.
  destruct r as [u sel w h f qu wt wf fp hd ua ds mo la ti cl]; fields.
  destruct (u =? "")%string eqn:E1; [discriminate|].
  destruct (url_ParseRequestURI u) as [e | pu] eqn:E2; [discriminate|].
  destruct (negb (url.Scheme pu =? "http")%string && negb (url.Scheme pu =? "https")%string) eqn:E3;
    [discriminate|].
  destruct ((w <? 100) || (w >? 4096)) eqn:E4; [discriminate|].
  destruct (negb (h =? 0) && ((h <? 100) || (h >? 10000))) eqn:E5; [discriminate|].
  destruct ((h =? 0) && (sel =? "")%string) eqn:E6; [discriminate|].
  cbv zeta.
  destruct (negb (strings.ToLower f =? "png")%string && negb (strings.ToLower f =? "jpeg")%string
            && negb (strings.ToLower f =? "webp")%string) eqn:E7; [discriminate|].
  cbv beta delta [setFormat]; fields.
  destruct ((qu <? 1) || (qu >? 100)) eqn:E8; [discriminate|].
  destruct ((ti <? 1) || (ti >? maxTimeoutSec)) eqn:E9; [discriminate|].
  destruct (PrimFloat.leb ds 0 || PrimFloat.ltb 4 ds) eqn:E10; [discriminate|].
  destruct (wt <? 0) eqn:E11; [discriminate|].
  destruct cl as [c|].
  - destruct (PrimFloat.leb (Clip.Width c) 0 || PrimFloat.leb (Clip.Height c) 0) eqn:E12;
      [discriminate|].
    destruct (PrimFloat.ltb (Clip.X c) 0 || PrimFloat.ltb (Clip.Y c) 0) eqn:E13;
      [discriminate|].
    intros _. split; [reflexivity|]. split; [exists pu; split; [reflexivity | exact E3]|].
    repeat split; reflexivity.
  - intros _. split; [reflexivity|]. split; [exists pu; split; [reflexivity | exact E3]|].
    repeat split; reflexivity.
Qed.

Lemma validate_accepts_intro (L : GoLib) (r : ScreenshotRequest) :
  (URL r =? "")%string = false ->
  (exists u, url_ParseRequestURI (URL r) = inr u
        /\ negb (url.Scheme u =? "http")%string && negb (url.Scheme u =? "https")%string = false) ->
  ((Width r <? 100) || (Width r >? 4096)) = false ->
  (negb (Height r =? 0) && ((Height r <? 100) || (Height r >? 10000))) = false ->
  ((Height r =? 0) && (Selector r =? "")%string) = false ->
  formatChecks (strings.ToLower (Format r)) = false ->
  ((Quality r <? 1) || (Quality r >? 100)) = false ->
  ((Timeout r <? 1) || (Timeout r >? maxTimeoutSec)) = false ->
  (PrimFloat.leb (DeviceScale r) 0 || PrimFloat.ltb 4 (DeviceScale r)) = false ->
  (WaitTime r <? 0) = false ->
  match Clip r with
  | Some c =>
      (PrimFloat.leb (Clip.Width c) 0 || PrimFloat.leb (Clip.Height c) 0) = false
      /\ (PrimFloat.ltb (Clip.X c) 0 || PrimFloat.ltb (Clip.Y c) 0) = false
  | None => True
  end ->
  validate r = (setFormat r (strings.ToLower (Format r)), None).
Proof.
  unfold validate, formatChecks.
  destruct r as [u sel w h f qu wt wf fp hd ua ds mo la ti cl]; fields.
  intros E1 (pu & E2 & E3) E4 E5 E6 E7 E8 E9 E10 E11 E12.
  rewrite E1, E2, E3, E4, E5, E6. cbv zeta. rewrite E7.
  cbv beta delta [setFormat]; fields.
  rewrite E8, E9, E10, E11.
  destruct cl as [c|]; [|reflexivity].
  destruct E12 as [E12 E13]. rewrite E12, E13. reflexivity.
Qed.

Lemma formatChecks_false (f : string) :
  formatChecks f = false <-> In f ["png"; "jpeg"; "webp"]%string.
Proof.
  unfold formatChecks. cbn [In].
  destruct (f =? "png")%string eqn:E1; [apply String.eqb_eq in E1; cbn; intuition|].
  destruct (f =? "jpeg")%string eqn:E2; [apply String.eqb_eq in E2; cbn; intuition|].
  destruct (f =? "webp")%string eqn:E3; [apply String.eqb_eq in E3; cbn; intuition|].
  apply String.eqb_neq in E1, E2, E3. cbn.
  split; [discriminate|]. intros [H | [H | [H | []]]]; congruence.
Qed.

Lemma scheme_check (s : string) :
  negb (s =? "http")%string && negb (s =? "https")%string = false
  <-> s = "http"%string \/ s = "https"%string.
Proof.
  destruct (s =? "http")%string eqn:E1; [apply String.eqb_eq in E1; cbn; intuition|].
  destruct (s =? "https")%string eqn:E2; [apply String.eqb_eq in E2; cbn; intuition|].
  apply String.eqb_neq in E1, E2. cbn. split; [discriminate|]. intros [H | H]; congruence.
Qed.

Lemma withinLimits_checks (L : GoLib) (r : ScreenshotRequest) :
  withinLimits r <->
  ((URL r =? "")%string = false
   /\ (exists u, url_ParseRequestURI (URL r) = inr u
         /\ negb (url.Scheme u =? "http")%string && negb (url.Scheme u =? "https")%string
            = false)
   /\ ((Width r <? 100) || (Width r >? 4096)) = false
   /\ (negb (Height r =? 0) && ((Height r <? 100) || (Height r >? 10000))) = false
   /\ ((Height r =? 0) && (Selector r =? "")%string) = false
   /\ formatChecks (strings.ToLower (Format r)) = false
   /\ ((Quality r <? 1) || (Quality r >? 100)) = false
   /\ ((Timeout r <? 1) || (Timeout r >? maxTimeoutSec)) = false
   /\ (PrimFloat.leb (DeviceScale r) 0 || PrimFloat.ltb 4 (DeviceScale r)) = false
   /\ (WaitTime r <? 0) = false
   /\ match Clip r with
      | Some c =>
          (PrimFloat.leb (Clip.Width c) 0 || PrimFloat.leb (Clip.Height c) 0) = false
          /\ (PrimFloat.ltb (Clip.X c) 0 || PrimFloat.ltb (Clip.Y c) 0) = false
      | None => True
      end).
Proof.
  unfold withinLimits, passesURLAndWidth, maxTimeoutSec.
  rewrite formatChecks_false.
  rewrite <- (String.eqb_neq (URL r) "").
  assert (Hu : (exists u, url_ParseRequestURI (URL r) = inr u
                  /\ negb (url.Scheme u =? "http")%string
                     && negb (url.Scheme u =? "https")%string = false)
               <-> (exists u, url_ParseRequestURI (URL r) = inr u
                      /\ (url.Scheme u = "http"%string \/ url.Scheme u = "https"%string))).
  { split; intros (u & H1 & H2); exists u; (split; [exact H1|]); now apply scheme_check. }
  rewrite Hu.
  assert (Hw : (Width r <? 100) || (Width r >? 4096) = false <-> 100 <= Width r <= 4096).
  { rewrite orb_false_iff, Z.ltb_ge, Z.gtb_ltb, Z.ltb_ge. lia. }
  assert (Hh : negb (Height r =? 0) && ((Height r <? 100) || (Height r >? 10000)) = false
               /\ (Height r =? 0) && (Selector r =? "")%string = false
               <-> 100 <= Height r <= 10000 \/ (Height r = 0 /\ Selector r <> ""%string)).
  { rewrite <- (String.eqb_neq (Selector r) "").
    destruct (Selector r =? "")%string; destruct (Height r =? 0) eqn:E; cbn;
      rewrite ?Z.gtb_ltb, ?orb_false_iff, ?Z.ltb_ge;
      [apply Z.eqb_eq in E | apply Z.eqb_neq in E | apply Z.eqb_eq in E
       | apply Z.eqb_neq in E];
      intuition (try lia; try discriminate). }
  assert (Hq : (Quality r <? 1) || (Quality r >? 100) = false <-> 1 <= Quality r <= 100).
  { rewrite orb_false_iff, Z.ltb_ge, Z.gtb_ltb, Z.ltb_ge. lia. }
  assert (Ht : (Timeout r <? 1) || (Timeout r >? 120) = false <-> 1 <= Timeout r <= 120).
  { rewrite orb_false_iff, Z.ltb_ge, Z.gtb_ltb, Z.ltb_ge. lia. }
  rewrite Hw, Hq, Ht, Z.ltb_ge, orb_false_iff.
  destruct (Clip r) as [c|]; [rewrite !orb_false_iff|]; tauto.
Qed.

(** X1. [validate] accepts a request exactly when it is within the limits:
    a URL that is not empty and that [url.ParseRequestURI] reads with scheme
    http or https, a width from 100 to 4096, a height from 100 to 10000 or
    unset with a selector, a format that lower-cases to png, jpeg or webp, a
    quality from 1 to 100, a timeout from 1 to 120, a device scale that is
    neither at most 0 nor above 4, a wait time of at least 0 and a clip, if
    any, whose width and height are not at most 0 and whose x and y are not
    below 0. It then returns the request unchanged but for the format,
    which it stores lower-cased. *)
Theorem validate_accepts_exactly (L : GoLib) (r : ScreenshotRequest) :
  (snd (validate r) = None <-> withinLimits r)
  /\ (withinLimits r -> validate r = (setFormat r (strings.ToLower (Format r)), None)).
Proof.
  assert (H : withinLimits r -> validate r = (setFormat r (strings.ToLower (Format r)), None)).
  { intro Hl. apply withinLimits_checks in Hl.
    destruct Hl as (H1 & H2 & H3 & H4 & H5 & H6 & H7 & H8 & H9 & H10 & H11).
    now apply validate_accepts_intro. }
  split; [split|exact H].
  - intro Hv. apply withinLimits_checks.
    pose proof (validate_accepts_inv L r Hv) as Hi. tauto.
  - intro Hl. now rewrite (H Hl).
Qed.


Lemma validExample_withinLimits : withinLimits (L := examples.lib) validExample.
Proof.
  unfold withinLimits, passesURLAndWidth, validExample; cbn.
  repeat split; try lia; try discriminate; try reflexivity.
  - eexists. split; [vm_compute; reflexivity | right; reflexivity].
  - right. left. reflexivity.
Qed.

(** X1 at [validExample]. *)
Lemma validate_accepts_exactly_witness :
  withinLimits (L := examples.lib) validExample
  /\ validate (L := examples.lib) validExample = (setFormat validExample "jpeg", None).
Proof.
  split; [exact validExample_withinLimits|].
  exact (proj2 (validate_accepts_exactly examples.lib validExample)
           validExample_withinLimits).
Defined.

Lemma setDeviceScale_checks (L : GoLib) (r : ScreenshotRequest) (d : float) :
  snd (validate (setDeviceScale r 1)) = None ->
  (snd (validate (setDeviceScale r d)) = None
   <-> PrimFloat.leb d 0 || PrimFloat.ltb 4 d = false).
Proof.
  intro H1. pose proof (validate_accepts_inv L _ H1) as Hi.
  destruct r as [u sel w h f qu wt wf fp hd ua ds mo la ti cl].
  cbv beta delta [setDeviceScale] in *; fields.
  destruct Hi as (I1 & I2 & I3 & I4 & I5 & I6 & I7 & I8 & I9 & I10 & I11 & _).
  split.
  - intro H. pose proof (validate_accepts_inv L _ H) as Hd. fields. tauto.
  - intro H.
    rewrite (validate_accepts_intro L
               (mkRequest u sel w h f qu wt wf fp hd ua d mo la ti cl)); fields; auto.
Qed.

Lemma validate_scale_only_by_check (L : GoLib) (r : ScreenshotRequest) (d1 d2 : float) :
  PrimFloat.leb d1 0 || PrimFloat.ltb 4 d1 = PrimFloat.leb d2 0 || PrimFloat.ltb 4 d2 ->
  snd (validate (setDeviceScale r d1)) = snd (validate (setDeviceScale r d2)).
Proof.
  intro H. unfold validate.
  destruct r as [u sel w h f qu wt wf fp hd ua ds mo la ti cl].
  cbv beta delta [setDeviceScale]; fields.
  destruct (u =? "")%string; [reflexivity|].
  destruct (match url_ParseRequestURI u with inl _ => true | inr _ => _ end); [reflexivity|].
  destruct ((w <? 100) || (w >? 4096)); [reflexivity|].
  destruct (negb (h =? 0) && ((h <? 100) || (h >? 10000))); [reflexivity|].
  destruct ((h =? 0) && (sel =? "")%string); [reflexivity|].
  cbv zeta.
  destruct (negb (strings.ToLower f =? "png")%string && _ && _); [reflexivity|].
  cbv beta delta [setFormat]; fields.
  destruct ((qu <? 1) || (qu >? 100)); [reflexivity|].
  destruct ((ti <? 1) || (ti >? maxTimeoutSec)); [reflexivity|].
  rewrite H.
  destruct (PrimFloat.leb d2 0 || PrimFloat.ltb 4 d2); [reflexivity|].
  destruct (wt <? 0); [reflexivity|].
  destruct cl as [c|]; [|reflexivity].
  destruct (PrimFloat.leb (Clip.Width c) 0 || _); [reflexivity|].
  destruct (PrimFloat.ltb (Clip.X c) 0 || _); reflexivity.
Qed.

Lemma applyDefaults_setDeviceScale (r : ScreenshotRequest) (d : float) :
  PrimFloat.eqb d 0 = false ->
  applyDefaults (setDeviceScale r d) = setDeviceScale (applyDefaults r) d.
Proof.
  intro N. rewrite (applyDefaults_fields (setDeviceScale r d)), (applyDefaults_fields r).
  destruct r as [u sel w h f qu wt wf fp hd ua ds mo la ti cl].
  cbv beta delta [setDeviceScale]; fields. rewrite N. reflexivity.
Qed.

(** X2. Of a request that passes at scale 1, [validate] accepts the
    variants at exactly the scales above 0 and at most 4, and at NaN, on which both
    comparisons of the check are false. NaN is no zero to [applyDefaults]
    either: it reaches the handler's check, which treats the request like
    the same request at scale 1. *)
Theorem validate_device_scale_range (L : GoLib) (r : ScreenshotRequest) (d : float) :
  (snd (validate (setDeviceScale r 1)) = None ->
   (snd (validate (setDeviceScale r d)) = None
    <-> Prim2SF d = S754_nan \/ (PrimFloat.ltb 0 d = true /\ PrimFloat.leb d 4 = true)))
  /\ (Prim2SF d = S754_nan ->
      DeviceScale (applyDefaults (setDeviceScale r d)) = d
      /\ handlerCheck (setDeviceScale r d) = handlerCheck (setDeviceScale r 1)).
Proof.
  split.
  - intro H1. rewrite <- scale_check. now apply setDeviceScale_checks.
  - intro Hn.
    destruct (nan_unordered d 0 Hn) as (N1 & N2 & N3 & N4 & N5).
    destruct (nan_unordered d 4 Hn) as (M1 & M2 & M3 & M4 & M5).
    split.
    + rewrite (applyDefaults_setDeviceScale r d N3). destruct (applyDefaults r). reflexivity.
    + unfold handlerCheck.
      rewrite (applyDefaults_setDeviceScale r d N3).
      rewrite (applyDefaults_setDeviceScale r 1); [|reflexivity].
      apply validate_scale_only_by_check. rewrite N1, M2. reflexivity.
Qed.

(** X2 at [validExample]: NaN and 4 pass, 4.5 does not. *)
Lemma validate_device_scale_range_witness :
  snd (validate (L := examples.lib) (setDeviceScale validExample 1)) = None
  /\ snd (validate (L := examples.lib) (setDeviceScale validExample PrimFloat.nan)) = None
  /\ snd (validate (L := examples.lib) (setDeviceScale validExample 4)) = None
  /\ snd (validate (L := examples.lib) (setDeviceScale validExample 4.5)) <> None.
Proof.
  assert (H1 : snd (validate (L := examples.lib) (setDeviceScale validExample 1)) = None)
    by reflexivity.
  split; [exact H1|]. split; [|split].
  - apply (proj1 (validate_device_scale_range examples.lib validExample PrimFloat.nan) H1).
    left. reflexivity.
  - apply (proj1 (validate_device_scale_range examples.lib validExample 4) H1).
    right. split; reflexivity.
  - intro H.
    apply (proj1 (validate_device_scale_range examples.lib validExample 4.5) H1) in H.
    destruct H as [H | [_ H]]; discriminate H.
Defined.

Lemma ToLower_formats (f : string) :
  In f ["png"; "jpeg"; "webp"]%string -> strings.ToLower f = f.
Proof. intros [<- | [<- | [<- | []]]]; reflexivity. Qed.

(** X16. A request that [validate] accepted is a fixed point of both
    steps: validated again it is accepted unchanged, and [applyDefaults]
    leaves it as it is. Its format is one of png, jpeg and webp. *)
Theorem validated_request_is_stable (L : GoLib) (r : ScreenshotRequest) :
  snd (validate r) = None ->
  let r' := fst (validate r) in
  validate r' = (r', None) /\ applyDefaults r' = r'
  /\ In (Format r') ["png"; "jpeg"; "webp"]%string.
Proof.
  intro Hv. cbv zeta.
  pose proof (validate_accepts_inv L r Hv)
    as (I1 & I2 & I3 & I4 & I5 & I6 & I7 & I8 & I9 & I10 & I11 & ->).
  apply formatChecks_false in I6.
  destruct r as [u sel w h f qu wt wf fp hd ua ds mo la ti cl]; fields.
  cbv beta delta [setFormat]; fields.
  split; [|split; [|exact I6]].
  - rewrite (validate_accepts_intro L); fields; auto.
    + cbv beta delta [setFormat]; fields. rewrite (ToLower_formats _ I6). reflexivity.
    + rewrite (ToLower_formats _ I6). now apply formatChecks_false.
  - rewrite applyDefaults_fields; fields.
    apply orb_false_iff in I3 as [W1 W2], I7 as [Q1 Q2], I8 as [T1 T2], I9 as [D1 D2].
    apply Z.ltb_ge in W1, Q1, T1.
    replace (w =? 0) with false by (symmetry; apply Z.eqb_neq; lia).
    replace (qu =? 0) with false by (symmetry; apply Z.eqb_neq; lia).
    replace (ti =? 0) with false by (symmetry; apply Z.eqb_neq; lia).
    rewrite I5.
    replace (PrimFloat.eqb ds 0) with false.
    2:{ destruct (PrimFloat.eqb ds 0) eqn:E; [|reflexivity].
        apply float_eqb_leb in E. congruence. }
    replace (strings.ToLower f =? "")%string with false; [reflexivity|].
    symmetry. apply String.eqb_neq. intro E. rewrite E in I6.
    destruct I6 as [H | [H | [H | []]]]; discriminate H.
Qed.

(** X16 at [validExample]. *)
Lemma validated_request_is_stable_witness :
  snd (validate (L := examples.lib) validExample) = None
  /\ validate (L := examples.lib) (setFormat validExample "jpeg")
     = (setFormat validExample "jpeg", None)
  /\ applyDefaults (setFormat validExample "jpeg") = setFormat validExample "jpeg".
Proof.
  split; [reflexivity|].
  pose proof (validated_request_is_stable examples.lib validExample eq_refl) as H.
  cbv zeta in H. destruct H as (H1 & H2 & _). split; [exact H1 | exact H2].
Defined.

(** X15. The viewport committed for a validated request has both sides
    between 100 and 10000: width at most 4096 and height at most 10000 as
    validated, or, for a mobile landscape request, the other way round, so
    that the committed width may exceed 4096. When the height is unset a
    selector is present and one side is the default 1080. *)
Theorem validated_viewport_bounds (L : GoLib) (r : ScreenshotRequest) :
  snd (validate r) = None ->
  let r' := fst (validate r) in
  let width := fst (initialViewport r') in
  let height := snd (initialViewport r') in
  (Mobile r && Landscape r = false ->
     100 <= width <= 4096 /\ 100 <= height <= 10000)
  /\ (Mobile r && Landscape r = true ->
     100 <= width <= 10000 /\ 100 <= height <= 4096)
  /\ (Height r = 0 -> Selector r <> ""%string /\ (width = 1080 \/ height = 1080)).
Proof.
  intro Hv. cbv zeta.
  pose proof (validate_accepts_inv L r Hv)
    as (I1 & I2 & I3 & I4 & I5 & I6 & I7 & I8 & I9 & I10 & I11 & ->).
  destruct r as [u sel w h f qu wt wf fp hd ua ds mo la ti cl]; fields.
  cbv beta delta [setFormat initialViewport]; fields. cbv zeta.
  apply orb_false_iff in I3 as [W1 W2].
  apply Z.ltb_ge in W1. rewrite Z.gtb_ltb in W2. apply Z.ltb_ge in W2.
  unfold defaultHeight.
  destruct (h =? 0) eqn:Eh; cbn [negb andb] in I4.
  - apply Z.eqb_eq in Eh. cbn [andb] in I5. apply String.eqb_neq in I5.
    split; [|split].
    + intros ->. cbn. lia.
    + intros ->. cbn. lia.
    + intros _. split; [exact I5|]. destruct (mo && la); cbn; auto.
  - apply Z.eqb_neq in Eh. apply orb_false_iff in I4 as [H1 H2].
    apply Z.ltb_ge in H1. rewrite Z.gtb_ltb in H2. apply Z.ltb_ge in H2.
    split; [|split].
    + intros ->. cbn. lia.
    + intros ->. cbn. lia.
    + intro. contradiction.
Qed.

(** X15 at a mobile landscape request of 1280 by 9000. *)
Lemma validated_viewport_bounds_witness :
  let r := setLandscape (setMobile (setHeight validExample 9000) true) true in
  snd (validate (L := examples.lib) r) = None
  /\ fst (initialViewport (fst (validate (L := examples.lib) r))) = 9000
  /\ 100 <= fst (initialViewport (fst (validate (L := examples.lib) r))) <= 10000.
Proof.
  cbv zeta. split; [reflexivity|]. split; [reflexivity|].
  exact (proj1 (proj1 (proj2 (validated_viewport_bounds examples.lib
            (setLandscape (setMobile (setHeight validExample 9000) true) true) eq_refl))
          eq_refl)).
Defined.

Lemma format_cases (f : string) :
  (contentTypeForFormat f = "image/jpeg"%string
   /\ captureFormat f = CaptureScreenshotFormatJpeg)
  \/ (contentTypeForFormat f = "image/webp"%string
      /\ captureFormat f = CaptureScreenshotFormatWebp)
  \/ (contentTypeForFormat f = "image/png"%string
      /\ captureFormat f = CaptureScreenshotFormatPng).
Proof.
  unfold contentTypeForFormat, captureFormat. cbv zeta.
  destruct (strings.ToLower f =? "jpeg")%string; [left; split; reflexivity|].
  destruct (strings.ToLower f =? "webp")%string; [right; left; split; reflexivity|].
  right; right; split; reflexivity.
Qed.

(** X9. The content type of the reply and the format asked of the browser
    agree on every format text: both jpeg, both webp, or both png. For a
    validated request the capture carries a quality exactly when its
    format is not png, and it is the request's quality, between 1 and 100.
    The lower-casing of [validate] matters here: on the format [JPEG] as
    received, the capture would be a JPEG without quality. *)
Theorem capture_format_and_quality :
  (forall f : string,
     (contentTypeForFormat f = "image/jpeg"%string
      /\ captureFormat f = CaptureScreenshotFormatJpeg)
     \/ (contentTypeForFormat f = "image/webp"%string
         /\ captureFormat f = CaptureScreenshotFormatWebp)
     \/ (contentTypeForFormat f = "image/png"%string
         /\ captureFormat f = CaptureScreenshotFormatPng))
  /\ (forall (L : GoLib) (r : ScreenshotRequest) (clip : option Viewport),
        snd (validate r) = None ->
        let p := captureParams (fst (validate r)) clip in
        cap_Format p = captureFormat (Format r)
        /\ (cap_Format p = CaptureScreenshotFormatPng -> cap_Quality p = None)
        /\ (cap_Format p <> CaptureScreenshotFormatPng ->
            cap_Quality p = Some (Quality r) /\ 1 <= Quality r <= 100)
        /\ cap_FromSurface p = true
        /\ cap_Clip p = clip)
  /\ (let upper := setFormat zeroRequest "JPEG" in
      cap_Quality (captureParams upper None) = None
      /\ cap_Format (captureParams upper None) = CaptureScreenshotFormatJpeg).
Proof.
  split; [|split].
  - exact format_cases.
  - intros L r clip Hv. cbv zeta.
    pose proof (validate_accepts_inv L r Hv)
      as (I1 & I2 & I3 & I4 & I5 & I6 & I7 & I8 & I9 & I10 & I11 & ->).
    apply formatChecks_false in I6.
    apply orb_false_iff in I7 as [Q1 Q2].
    apply Z.ltb_ge in Q1. rewrite Z.gtb_ltb in Q2. apply Z.ltb_ge in Q2.
    destruct r as [u sel w h f qu wt wf fp hd ua ds mo la ti cl]; fields.
    unfold captureParams, captureFormat. cbv beta delta [setFormat]; fields.
    cbn [cap_Format cap_Quality cap_FromSurface cap_Clip]. cbv zeta.
    rewrite (ToLower_formats _ I6).
    destruct I6 as [<- | [<- | [<- | []]]]; cbn;
      (split; [reflexivity|]); (split; [|split; [|split; reflexivity]]);
      intro H; try discriminate H; try reflexivity; try (split; [reflexivity | lia]);
      try (exfalso; apply H; reflexivity).
  - cbv zeta. split; reflexivity.
Qed.

(** X9 at [validExample], a JPEG at quality 80. *)
Lemma capture_format_and_quality_witness :
  snd (validate (L := examples.lib) validExample) = None
  /\ cap_Quality (captureParams (fst (validate (L := examples.lib) validExample)) None)
     = Some 80.
Proof.
  split; [reflexivity|].
  pose proof (proj1 (proj2 capture_format_and_quality) examples.lib validExample None
                eq_refl) as H.
  cbv zeta in H. destruct H as (_ & _ & H & _).
  apply H. discriminate.
Defined.

(** ** The run of the actions *)

Section Runs.

Context {L : GoLib} {W : Type} (world : World W).

Lemma call_eq {A : Type} (ev : Event) (f : W -> A * W) (s : W * list Event) :
  call ev f s = (fst (f (fst s)), (snd (f (fst s)), (snd s ++ [ev])%list)).
Proof. unfold call. destruct (f (fst s)). reflexivity. Qed.

Lemma runActions_app (req : ScreenshotRequest) (vw : Z) (l1 l2 : list Action)
  (v : Vars) (s : W * list Event) :
  runActions world req vw (l1 ++ l2) v s
  = match fst (fst (runActions world req vw l1 v s)) with
    | Some _ => runActions world req vw l1 v s
    | None =>
        runActions world req vw l2 (snd (fst (runActions world req vw l1 v s)))
          (snd (runActions world req vw l1 v s))
    end.
Proof.
  revert v s. induction l1 as [|a l1 IH]; intros v s; [reflexivity|].
  cbn [app runActions]. unfold bind.
  destruct (runAction world req vw a v s) as [[[e|] v1] s1]; cbn [fst snd].
  - reflexivity.
  - apply IH.
Qed.

Lemma runActions_single (req : ScreenshotRequest) (vw : Z) (a : Action) (v : Vars)
  (s : W * list Event) :
  runActions world req vw [a] v s = runAction world req vw a v s.
Proof.
  cbn [runActions]. unfold bind, ret.
  destruct (runAction world req vw a v s) as [[[e|] v1] s1]; reflexivity.
Qed.


Lemma quiet_trans (v v1 : Vars) (s s1 : W * list Event)
  (r : option GoError * Vars * (W * list Event)) :
  quiet v s (None, v1, s1) -> quiet v1 s1 r -> quiet v s r.
Proof.
  intros (C1 & I1 & evs1 & T1 & N1) (C2 & I2 & evs2 & T2 & N2). cbn in *.
  split; [congruence|]. split; [congruence|].
  exists (evs1 ++ evs2)%list. split.
  - rewrite T2, T1, app_assoc. reflexivity.
  - rewrite existsb_app, N1, N2. reflexivity.
Qed.

Lemma measurePageHeight_trace (s : W * list Event) :
  exists evs, snd (snd (measurePageHeight world s)) = (snd s ++ evs)%list
              /\ existsb isCapture evs = false.
Proof.
  unfold measurePageHeight, bind. rewrite call_eq.
  destruct (fst (cdp_GetLayoutMetrics world (fst s))) as [e | [contentSize|]].
  - rewrite call_eq. cbn. exists [EvGetLayoutMetrics; EvEvaluatePageHeight].
    rewrite <- app_assoc. split; reflexivity.
  - destruct (PrimFloat.ltb 0 (rect_Height contentSize)).
    + cbn. exists [EvGetLayoutMetrics]. split; reflexivity.
    + rewrite call_eq. cbn. exists [EvGetLayoutMetrics; EvEvaluatePageHeight].
      rewrite <- app_assoc. split; reflexivity.
  - rewrite call_eq. cbn. exists [EvGetLayoutMetrics; EvEvaluatePageHeight].
    rewrite <- app_assoc. split; reflexivity.
Qed.

Lemma autoExpand_trace (req : ScreenshotRequest) (vw vh : Z) (s : W * list Event) :
  exists evs, snd (snd (autoExpand world req vw vh s)) = (snd s ++ evs)%list
              /\ existsb isCapture evs = false.
Proof.
  unfold autoExpand, bind.
  destruct (measurePageHeight_trace s) as (evs & T & N).
  destruct (measurePageHeight world s) as [[e | pageHeight] s1]; cbn [snd] in T.
  - exists evs. split; assumption.
  - destruct (PrimFloat.leb pageHeight 0); [exists evs; split; assumption|].
    cbv zeta.
    destruct (negb _); [|exists evs; split; assumption].
    unfold cdpDo. rewrite call_eq. cbn [snd ret]. rewrite T.
    eexists (evs ++ [_])%list. rewrite <- app_assoc. split; [reflexivity|].
    rewrite existsb_app, N. reflexivity.
Qed.

Lemma runAction_quiet (req : ScreenshotRequest) (vw : Z) (a : Action) (v : Vars)
  (s : W * list Event) :
  keepsClip a = true -> quiet v s (runAction world req vw a v s).
Proof.
  destruct a; try discriminate; intros _; unfold runAction, bind.
  - unfold cdpDo. rewrite call_eq. cbn. repeat split.
    eexists [_]. split; reflexivity.
  - destruct (autoExpand_trace req vw (viewportHeight v) s) as (evs & T & N).
    destruct (autoExpand world req vw (viewportHeight v) s) as [[e h] s1].
    cbn in *. repeat split. exists evs. split; assumption.
Qed.

Lemma runActions_quiet (req : ScreenshotRequest) (vw : Z) (l : list Action) (v : Vars)
  (s : W * list Event) :
  forallb keepsClip l = true -> quiet v s (runActions world req vw l v s).
Proof.
  revert v s. induction l as [|a l IH]; intros v s H.
  - cbn. repeat split. exists []. rewrite app_nil_r. split; reflexivity.
  - cbn [forallb] in H. apply andb_true_iff in H as [Ha Hl].
    cbn [runActions]. unfold bind.
    pose proof (runAction_quiet req vw a v s Ha) as Q.
    destruct (runAction world req vw a v s) as [[[e|] v1] s1]; cbn [fst snd].
    + exact Q.
    + exact (quiet_trans _ _ _ _ _ Q (IH v1 s1 Hl)).
Qed.

Lemma preparation_keepsClip (req : ScreenshotRequest) (vw vh : Z) (ae : bool) :
  forallb keepsClip (preparation req vw vh ae) = true.
Proof.
  unfold preparation.
  destruct (negb (UserAgent req =? "")%string), (0 <? Z.of_nat (length (Headers req))),
    (negb (WaitFor req =? "")%string), (WaitTime req >? 0), ae; reflexivity.
Qed.

Lemma buildActions_parts (req : ScreenshotRequest) (vw vh : Z) (ae : bool) :
  buildActions req vw vh ae
  = (preparation req vw vh ae ++ clipStep req ++ [ActCapture])%list.
Proof.
  unfold buildActions, preparation, clipStep.
  repeat rewrite <- app_assoc. reflexivity.
Qed.

(** A successful capture step: one call, with the parameters built from the
    clip at hand, whose bytes become [img]. *)
Lemma capture_step (req : ScreenshotRequest) (vw : Z) (v : Vars) (s : W * list Event) :
  let r := runActions world req vw [ActCapture] v s in
  let p := captureParams req (clip v) in
  fst (fst r) = None ->
  snd (snd r) = (snd s ++ [EvCaptureScreenshot p])%list
  /\ fst (cdp_CaptureScreenshot world p (fst s)) = inr (img (snd (fst r))).
Proof.
  cbv zeta. cbn [runActions runAction]. unfold bind. rewrite call_eq. cbn [fst snd ret].
  destruct (fst (cdp_CaptureScreenshot world _ (fst s))) as [e | buf]; cbn; [discriminate|].
  intros _. split; reflexivity.
Qed.

Lemma selectorClip_step (req : ScreenshotRequest) (vw : Z) (v : Vars) (s : W * list Event) :
  let r := runAction world req vw ActSelectorClip v s in
  fst (fst r) = None ->
  snd (snd r) = (snd s ++ [EvEvaluateBoundingRect (Selector req)])%list
  /\ img (snd (fst r)) = img v
  /\ exists rect,
       fst (cdp_EvaluateBoundingRect world (Selector req) (fst s)) = inr rect
       /\ PrimFloat.leb (rect_Width rect) 0 = false
       /\ PrimFloat.leb (rect_Height rect) 0 = false
       /\ clip (snd (fst r))
          = Some (mkViewport (rect_X rect) (rect_Y rect) (rect_Width rect)
                    (rect_Height rect) 1).
Proof.
  cbv zeta. cbn [runAction]. unfold selectorClip, bind. rewrite call_eq. cbn [fst snd ret].
  destruct (fst (cdp_EvaluateBoundingRect world _ (fst s))) as [e | rect]; cbn;
    [discriminate|].
  destruct (PrimFloat.leb (rect_Width rect) 0) eqn:E1; cbn; [discriminate|].
  destruct (PrimFloat.leb (rect_Height rect) 0) eqn:E2; cbn; [discriminate|].
  intros _. repeat split. exists rect. repeat split; assumption.
Qed.

Lemma fullPageClip_step (req : ScreenshotRequest) (vw : Z) (v : Vars) (s : W * list Event) :
  let r := runAction world req vw ActFullPageClip v s in
  fst (fst r) = None ->
  snd (snd r) = (snd s ++ [EvGetLayoutMetrics])%list
  /\ img (snd (fst r)) = img v
  /\ exists contentSize,
       fst (cdp_GetLayoutMetrics world (fst s)) = inr (Some contentSize)
       /\ PrimFloat.leb (rect_Width contentSize) 0 = false
       /\ PrimFloat.leb (rect_Height contentSize) 0 = false
       /\ clip (snd (fst r))
          = Some (mkViewport 0 0 (rect_Width contentSize) (rect_Height contentSize) 1).
Proof.
  cbv zeta. cbn [runAction]. unfold fullPageClip, bind. rewrite call_eq. cbn [fst snd ret].
  destruct (fst (cdp_GetLayoutMetrics world (fst s))) as [e | [contentSize|]]; cbn;
    try discriminate.
  destruct (PrimFloat.leb (rect_Width contentSize) 0) eqn:E1; cbn; [discriminate|].
  destruct (PrimFloat.leb (rect_Height contentSize) 0) eqn:E2; cbn; [discriminate|].
  intros _. repeat split. exists contentSize. repeat split; assumption.
Qed.

End Runs.

Lemma handlerRun_capture (L : GoLib) (W : Type) (world : World W)
  (req : ScreenshotRequest) (s : W * list Event) :
  let r := handlerRun world req s in
  fst (fst r) = None ->
  exists (p : CaptureParams) (evs : list Event),
    snd (snd r) = (snd s ++ evs ++ [EvCaptureScreenshot p])%list
    /\ existsb isCapture evs = false
    /\ p = captureParams req (cap_Clip p)
    /\ (exists w0, fst (cdp_CaptureScreenshot world p w0) = inr (img (snd (fst r))))
    /\ (Selector req <> ""%string ->
        cap_CaptureBeyondViewport p = false
        /\ exists rect,
             cap_Clip p = Some (mkViewport (rect_X rect) (rect_Y rect) (rect_Width rect)
                                  (rect_Height rect) 1)
             /\ PrimFloat.leb (rect_Width rect) 0 = false
             /\ PrimFloat.leb (rect_Height rect) 0 = false
             /\ exists w0, fst (cdp_EvaluateBoundingRect world (Selector req) w0) = inr rect)
    /\ (Selector req = ""%string -> Clip req <> None ->
        cap_Clip p = initialClip req /\ cap_CaptureBeyondViewport p = false)
    /\ (Selector req = ""%string -> Clip req = None -> FullPage req = true ->
        cap_CaptureBeyondViewport p = true
        /\ exists contentSize,
             cap_Clip p = Some (mkViewport 0 0 (rect_Width contentSize)
                                  (rect_Height contentSize) 1)
             /\ PrimFloat.leb (rect_Width contentSize) 0 = false
             /\ PrimFloat.leb (rect_Height contentSize) 0 = false
             /\ exists w0, fst (cdp_GetLayoutMetrics world w0) = inr (Some contentSize))
    /\ (Selector req = ""%string -> Clip req = None -> FullPage req = false ->
        cap_Clip p = None /\ cap_CaptureBeyondViewport p = false).
Proof.
  cbv zeta. unfold handlerRun.
  set (vw := fst (initialViewport req)). set (vh := snd (initialViewport req)).
  set (ae := negb (Selector req =? "")%string && (Height req =? 0)).
  rewrite buildActions_parts, runActions_app.
  pose proof (runActions_quiet world req vw _ (mkVars vh (initialClip req) "") s
                (preparation_keepsClip req vw vh ae)) as Q.
  destruct (runActions world req vw (preparation req vw vh ae) _ s) as [[[e|] v1] s1];
    cbn [fst snd]; [discriminate|].
  destruct Q as (C1 & I1 & evs1 & T1 & N1). cbn [fst snd clip img] in C1, I1, T1.
  unfold clipStep.
  destruct (Selector req =? "")%string eqn:Hsel; cbn [negb].
  - apply String.eqb_eq in Hsel.
    destruct (FullPage req && match Clip req with None => true | Some _ => false end) eqn:Hfp.
    + (* the layout metrics settle the clip *)
      apply andb_true_iff in Hfp as [Hf Hc].
      rewrite runActions_app, runActions_single.
      pose proof (fullPageClip_step world req vw v1 s1) as S. cbv zeta in S.
      destruct (runAction world req vw ActFullPageClip v1 s1) as [[[e|] v2] s2];
        cbn [fst snd] in *; [discriminate|].
      destruct (S eq_refl) as (T2 & I2 & content & G & P1 & P2 & C2).
      intro Hok.
      destruct (capture_step world req vw v2 s2 Hok) as (T3 & B).
      exists (captureParams req (clip v2)), (evs1 ++ [EvGetLayoutMetrics])%list.
      split; [rewrite T3, T2, T1, <- !app_assoc; reflexivity|].
      split; [rewrite existsb_app, N1; reflexivity|].
      split; [reflexivity|]. split; [exists (fst s2); exact B|].
      split; [intro Hn; contradiction|].
      split; [intros _ Hn; destruct (Clip req); [discriminate Hc | contradiction]|].
      split.
      * intros _ Hcl _. split.
        -- unfold captureParams. cbn [cap_CaptureBeyondViewport].
           rewrite Hf, Hsel, Hcl. reflexivity.
        -- exists content. cbn [captureParams cap_Clip]. repeat split; try assumption.
           exists (fst s1). exact G.
      * intros _ _ Hff. congruence.
    + change ([] ++ [ActCapture])%list with [ActCapture].
      intro Hok.
      destruct (capture_step world req vw v1 s1 Hok) as (T3 & B).
      exists (captureParams req (clip v1)), evs1.
      split; [rewrite T3, T1, <- !app_assoc; reflexivity|].
      split; [exact N1|].
      split; [reflexivity|]. split; [exists (fst s1); exact B|].
      split; [intro Hn; contradiction|].
      unfold captureParams. cbn [cap_Clip cap_CaptureBeyondViewport]. rewrite C1.
      split; [|split].
      * intros _ Hn. split; [reflexivity|].
        destruct (Clip req); [|contradiction]. apply andb_false_r.
      * intros _ Hcl Hf. rewrite Hf, Hcl in Hfp. discriminate Hfp.
      * intros _ Hcl Hf. unfold initialClip. rewrite Hcl, Hf. split; reflexivity.
  - (* the selector's bounding box settles the clip *)
    apply String.eqb_neq in Hsel.
    change ([ActCommand (ScrollIntoView (Selector req));
             ActCommand (WaitVisible (Selector req)); ActSelectorClip] ++ [ActCapture])%list
      with ([ActCommand (ScrollIntoView (Selector req));
             ActCommand (WaitVisible (Selector req))]
            ++ [ActSelectorClip; ActCapture])%list.
    rewrite runActions_app.
    pose proof (runActions_quiet world req vw
                  [ActCommand (ScrollIntoView (Selector req));
                   ActCommand (WaitVisible (Selector req))] v1 s1 eq_refl) as Q.
    destruct (runActions world req vw [ActCommand _; ActCommand _] v1 s1)
      as [[[e|] v2] s2]; cbn [fst snd]; [discriminate|].
    destruct Q as (C2 & I2 & evs2 & T2 & N2). cbn [fst snd clip img] in C2, I2, T2.
    change [ActSelectorClip; ActCapture] with ([ActSelectorClip] ++ [ActCapture])%list.
    rewrite runActions_app, runActions_single.
    pose proof (selectorClip_step world req vw v2 s2) as S. cbv zeta in S.
    destruct (runAction world req vw ActSelectorClip v2 s2) as [[[e|] v3] s3];
      cbn [fst snd] in *; [discriminate|].
    destruct (S eq_refl) as (T3 & I3 & rect & G & P1 & P2 & C3).
    intro Hok.
    destruct (capture_step world req vw v3 s3 Hok) as (T4 & B).
    exists (captureParams req (clip v3)),
      (evs1 ++ evs2 ++ [EvEvaluateBoundingRect (Selector req)])%list.
    split; [rewrite T4, T3, T2, T1, <- !app_assoc; reflexivity|].
    split; [rewrite !existsb_app, N1, N2; reflexivity|].
    split; [reflexivity|]. split; [exists (fst s3); exact B|].
    split.
    + intros _. split.
      * unfold captureParams. cbn [cap_CaptureBeyondViewport].
        apply String.eqb_neq in Hsel. rewrite Hsel. apply andb_false_iff. left.
        apply andb_false_r.
      * exists rect. cbn [captureParams cap_Clip]. repeat split; try assumption.
        exists (fst s2). exact G.
    + split; [|split]; intro Hn; contradiction.
Qed.



(** X18. Whatever the page reports, and whether or not the step fails, the
    auto-expand step never shrinks the viewport and never takes it beyond
    30000; when it changes the height, the last call of the step hands
    the new height to the browser. The viewport height of a validated
    request is below that bound. *)
Theorem autoExpand_never_shrinks (L : GoLib) (W : Type) (world : World W)
  (req : ScreenshotRequest) (viewportWidth viewportHeight : Z) (s : W * list Event) :
  let result := autoExpand world req viewportWidth viewportHeight s in
  let final := snd (fst result) in
  viewportHeight <= maxAutoViewportHeight ->
  viewportHeight <= final <= maxAutoViewportHeight
  /\ (final <> viewportHeight ->
      exists evs,
        snd (snd result)
        = (snd s ++ evs ++ [EvCommand (SetDeviceMetricsOverride viewportWidth final
                                         (DeviceScale req) (Mobile req))])%list)
  /\ (forall r, snd (validate r) = None ->
        snd (initialViewport (fst (validate r))) <= maxAutoViewportHeight).
Proof.
  cbv zeta. unfold maxAutoViewportHeight. intro Hvh. split; [|split].
  - unfold autoExpand, bind, ret, maxAutoViewportHeight.
    destruct (measurePageHeight world s) as [[e | h] s1]; cbn [fst snd]; [lia|].
    destruct (PrimFloat.leb h 0); cbn [fst snd ret]; [lia|].
    destruct (int64_Ceil h <? viewportHeight) eqn:E1.
    + rewrite Z.gtb_ltb.
      destruct (30000 <? viewportHeight) eqn:E2;
        [apply Z.ltb_lt in E2; lia|].
      rewrite Z.eqb_refl. cbn. lia.
    + apply Z.ltb_ge in E1. rewrite Z.gtb_ltb.
      destruct (30000 <? int64_Ceil h) eqn:E2.
      * destruct (negb (30000 =? viewportHeight)).
        -- unfold cdpDo. rewrite call_eq. cbn. lia.
        -- cbn. lia.
      * apply Z.ltb_ge in E2.
        destruct (negb (int64_Ceil h =? viewportHeight)).
        -- unfold cdpDo. rewrite call_eq. cbn. lia.
        -- cbn. lia.
  - unfold autoExpand, bind, ret, maxAutoViewportHeight.
    destruct (measurePageHeight_trace world s) as (evs & T & _).
    destruct (measurePageHeight world s) as [[e | h] s1]; cbn [fst snd] in *;
      [intro H; contradiction|].
    destruct (PrimFloat.leb h 0); cbn [fst snd ret]; [intro H; contradiction|].
    cbv zeta.
    set (desired := if (if int64_Ceil h <? viewportHeight then viewportHeight
                        else int64_Ceil h) >? 30000
                    then 30000
                    else if int64_Ceil h <? viewportHeight then viewportHeight
                         else int64_Ceil h).
    destruct (negb (desired =? viewportHeight)).
    + unfold cdpDo. rewrite call_eq. cbn [fst snd ret]. intros _.
      exists evs. rewrite T, <- app_assoc. reflexivity.
    + cbn. intro H. contradiction.
  - intros r Hv.
    pose proof (validate_accepts_inv L r Hv)
      as (I1 & I2 & I3 & I4 & I5 & I6 & I7 & I8 & I9 & I10 & I11 & ->).
    destruct r as [u sel w h f qu wt wf fp hd ua ds mo la ti cl]; fields.
    cbv beta delta [setFormat initialViewport]; fields. cbv zeta.
    apply orb_false_iff in I3 as [W1 W2].
    apply Z.ltb_ge in W1. rewrite Z.gtb_ltb in W2. apply Z.ltb_ge in W2.
    unfold defaultHeight.
    destruct (h =? 0) eqn:Eh; cbn [negb andb] in I4.
    + destruct (mo && la); cbn; lia.
    + apply orb_false_iff in I4 as [H1 H2].
      apply Z.ltb_ge in H1. rewrite Z.gtb_ltb in H2. apply Z.ltb_ge in H2.
      destruct (mo && la); cbn; lia.
Qed.

(** X18 at a content height of 50000 under the viewport 1920 by 1080. *)
Lemma autoExpand_never_shrinks_witness :
  let world := examples.worldOf examples.emptyEnv examples.noNetwork 50000 in
  let final := snd (fst (autoExpand world zeroRequest 1920 1080 examples.start)) in
  1080 <= maxAutoViewportHeight /\ 1080 <= final <= maxAutoViewportHeight.
Proof.
  cbv zeta. split; [discriminate|].
  refine (proj1 (autoExpand_never_shrinks examples.lib unit
                   (examples.worldOf examples.emptyEnv examples.noNetwork 50000)
                   zeroRequest 1920 1080 examples.start _)).
  discriminate.
Defined.

(** ** Resolution and the handlers *)

Section Resolution.

Context {L : GoLib} {W : Type} (world : World W).

Lemma viaJSONVersion_requests (httpBase : url.URL) (s : W * list Event) :
  exists n, (1 <= n <= 3)%nat
    /\ snd (snd (resolveWSEndpointViaJSONVersion world httpBase s))
       = (snd s ++ firstn n (discoveryRequests httpBase))%list.
Proof.
  unfold resolveWSEndpointViaJSONVersion, bind, httpDo. rewrite call_eq.
  fold (discoveryURL httpBase "/json/version").
  set (s1 := (snd (http_Do world "GET" (discoveryURL httpBase "/json/version") (fst s)),
              (snd s ++ [EvHTTP "GET" (discoveryURL httpBase "/json/version")])%list)).
  assert (H1 : exists n, (1 <= n <= 3)%nat
                 /\ snd s1 = (snd s ++ firstn n (discoveryRequests httpBase))%list).
  { exists 1%nat. split; [lia | reflexivity]. }
  destruct (fst (http_Do world "GET" _ (fst s))) as [e | resp]; [exact H1|].
  destruct (non2xx resp); [exact H1|].
  destruct (json_Decode_version (http.Body resp)) as [e | vr]; [exact H1|].
  cbv zeta.
  destruct (hasDevToolsPath _); [exact H1|].
  pose proof (viaJSONNew_trace L W world httpBase s1) as Tn.
  destruct (resolveWSEndpointViaJSONNew world httpBase s1) as [[e | r] s2]; cbn [snd] in Tn.
  - pose proof (viaJSONList_trace L W world httpBase s2) as Tl.
    destruct (resolveWSEndpointViaJSONList world httpBase s2) as [[e' | r] s3];
      cbn [snd] in Tl; cbn [ret snd]; exists 3%nat; (split; [lia|]);
      rewrite Tl, Tn; unfold s1; cbn [snd]; rewrite <- !app_assoc; reflexivity.
  - cbn [ret snd]. exists 2%nat. split; [lia|].
    rewrite Tn. unfold s1. cbn [snd]. rewrite <- !app_assoc. reflexivity.
Qed.

Lemma resolveWSEndpoint_requests (s : W * list Event) :
  match discoveryBase world with
  | Some httpBase =>
      exists n, (1 <= n <= 3)%nat
        /\ snd (snd (resolveWSEndpoint world s))
           = (snd s ++ firstn n (discoveryRequests httpBase))%list
  | None => snd (resolveWSEndpoint world s) = s
  end.
Proof.
  unfold discoveryBase, resolveWSEndpoint, isFullEndpoint. cbv zeta.
  destruct (negb (getChromeWSEndpoint world =? "")%string).
  - destruct (match url_Parse (getChromeWSEndpoint world) with
              | inl _ => false | inr u => _ end); [reflexivity|].
    destruct (httpBaseFromWSEndpoint (getChromeWSEndpoint world)) as [e | httpBase];
      [reflexivity|].
    unfold bind.
    destruct (viaJSONVersion_requests httpBase s) as (n & Hn & T).
    destruct (resolveWSEndpointViaJSONVersion world httpBase s) as [[e | r] s1];
      exists n; (split; [exact Hn | exact T]).
  - destruct (getBrowserlessHTTPURL world =? "")%string; [reflexivity|].
    destruct (parseBrowserlessHTTPBase (getBrowserlessHTTPURL world)) as [e | httpBase];
      [reflexivity|].
    unfold bind.
    destruct (viaJSONVersion_requests httpBase s) as (n & Hn & T).
    destruct (resolveWSEndpointViaJSONVersion world httpBase s) as [[e | r] s1];
      exists n; (split; [exact Hn | exact T]).
Qed.

End Resolution.

(** X12. A resolution makes no call at all when the configuration leads
    to no discovery (a full direct endpoint, an endpoint or a control-plane
    address that cannot be used, nothing configured). Otherwise it makes
    between one and three requests and nothing else: an initial part of
    [GET /json/version], [PUT /json/new], [GET /json/list] under the
    control plane. [/health] makes exactly the calls of the resolution, so
    a health probe can create a target through [/json/new]. *)
Theorem resolution_requests (L : GoLib) (W : Type) (world : World W) (s : W * list Event) :
  match discoveryBase world with
  | Some httpBase =>
      exists n, (1 <= n <= 3)%nat
        /\ snd (snd (resolveWSEndpoint world s))
           = (snd s ++ firstn n (discoveryRequests httpBase))%list
        /\ snd (healthHandler world s) = snd (resolveWSEndpoint world s)
  | None =>
      snd (resolveWSEndpoint world s) = s /\ snd (healthHandler world s) = s
  end.
Proof.
  assert (Hh : snd (healthHandler world s) = snd (resolveWSEndpoint world s)).
  { unfold healthHandler, bind.
    destruct (resolveWSEndpoint world s) as [[[wsURL configured] err] s1]. reflexivity. }
  pose proof (resolveWSEndpoint_requests world s) as H.
  destruct (discoveryBase world) as [httpBase|].
  - destruct H as (n & Hn & T). exists n. repeat split; try assumption; lia.
  - split; [exact H | now rewrite Hh].
Qed.

Lemma runAction_withEnv (L : GoLib) (W : Type) (world : World W) (key : string)
  (value : option string) (req : ScreenshotRequest) (vw : Z) (a : Action) (v : Vars)
  (s : W * list Event) :
  runAction (withEnv world key value) req vw a v s = runAction world req vw a v s.
Proof. destruct a; reflexivity. Qed.

Lemma runActions_withEnv (L : GoLib) (W : Type) (world : World W) (key : string)
  (value : option string) (req : ScreenshotRequest) (vw : Z) (l : list Action) (v : Vars)
  (s : W * list Event) :
  runActions (withEnv world key value) req vw l v s = runActions world req vw l v s.
Proof.
  revert v s. induction l as [|a l IH]; intros v s; [reflexivity|].
  cbn [runActions]. unfold bind. rewrite runAction_withEnv.
  destruct (runAction world req vw a v s) as [[[e|] v1] s1]; cbn [fst snd];
    [reflexivity | apply IH].
Qed.

Lemma resolveWSEndpoint_withEnv (L : GoLib) (W : Type) (world : World W)
  (value : option string) (s : W * list Event) :
  getChromeWSEndpoint world <> ""%string ->
  resolveWSEndpoint (withEnv world "BROWSERLESS_HTTP_URL" value) s
  = resolveWSEndpoint world s.
Proof.
  intro Hws. apply String.eqb_neq in Hws.
  unfold resolveWSEndpoint.
  change (getChromeWSEndpoint (withEnv world "BROWSERLESS_HTTP_URL" value))
    with (getChromeWSEndpoint world).
  rewrite Hws. cbn [negb]. reflexivity.
Qed.

(** X5. A [CHROME_WS_ENDPOINT] that is not blank counts as configured and
    shuts [BROWSERLESS_HTTP_URL] out of the resolution: with that variable
    set to anything, or unset, the resolver and the screenshot handler
    answer the same and [/health] has the same status. An endpoint that
    cannot be used is therefore never replaced by the control plane. *)
Theorem direct_endpoint_overrides_control_plane (L : GoLib) (W : Type) (world : World W)
  (value : option string) (c : gin.Context) (s : W * list Event) :
  getChromeWSEndpoint world <> ""%string ->
  resolveWSEndpoint (withEnv world "BROWSERLESS_HTTP_URL" value) s
  = resolveWSEndpoint world s
  /\ screenshotHandler (withEnv world "BROWSERLESS_HTTP_URL" value) c s
     = screenshotHandler world c s
  /\ status (fst (healthHandler (withEnv world "BROWSERLESS_HTTP_URL" value) s))
     = status (fst (healthHandler world s))
  /\ snd (fst (fst (resolveWSEndpoint world s))) = true.
Proof.
  intro Hws.
  pose proof (resolveWSEndpoint_withEnv L W world value s Hws) as Hr.
  split; [exact Hr|]. split; [|split].
  - unfold screenshotHandler.
    destruct (parseRequest c) as [req [e|]]; [reflexivity|].
    destruct (validate (applyDefaults req)) as [req' [e|]]; [reflexivity|].
    destruct (initialViewport req') as [vw vh].
    unfold bind. rewrite Hr.
    destruct (resolveWSEndpoint world s) as [[[wsURL configured] err] s1].
    destruct configured; cbn [negb]; [|reflexivity].
    destruct err as [e|]; [reflexivity|].
    change (chromedp_Dial (withEnv world "BROWSERLESS_HTTP_URL" value))
      with (chromedp_Dial world).
    destruct (call (EvDial wsURL) (chromedp_Dial world wsURL) s1) as [d s2].
    destruct (dial_err d) as [e|]; [reflexivity|].
    rewrite runActions_withEnv. reflexivity.
  - unfold healthHandler, bind. rewrite Hr.
    destruct (resolveWSEndpoint world s) as [[[wsURL configured] err] s1]. reflexivity.
  - destruct (snd (fst (fst (resolveWSEndpoint world s)))) eqn:E; [reflexivity|].
    apply resolveWSEndpoint_configured in E. destruct E as [E _]. contradiction.
Qed.

(** X5 at [scenarios.directEnv], with a control plane set besides. *)
Lemma direct_endpoint_overrides_control_plane_witness :
  let world := examples.worldOf scenarios.directEnv examples.noNetwork 800 in
  getChromeWSEndpoint world = "ws://chrome:9222/devtools/browser/abc"
  /\ screenshotHandler (L := examples.lib)
       (withEnv world "BROWSERLESS_HTTP_URL" (Some "http://elsewhere:3000"))
       examples.getExample examples.start
     = screenshotHandler (L := examples.lib) world examples.getExample examples.start.
Proof.
  cbv zeta. split; [reflexivity|].
  refine (proj1 (proj2 (direct_endpoint_overrides_control_plane examples.lib unit
                          (examples.worldOf scenarios.directEnv examples.noNetwork 800)
                          (Some "http://elsewhere:3000") examples.getExample
                          examples.start _))).
  discriminate.
Defined.

Lemma runAction_extends (L : GoLib) (W : Type) (world : World W) (req : ScreenshotRequest)
  (vw : Z) (a : Action) (v : Vars) (s : W * list Event) :
  exists evs, snd (snd (runAction world req vw a v s)) = (snd s ++ evs)%list.
Proof.
  destruct a.
  - destruct (runAction_quiet world req vw (ActCommand c) v s eq_refl)
      as (_ & _ & evs & T & _). exists evs. exact T.
  - destruct (runAction_quiet world req vw ActAutoExpand v s eq_refl)
      as (_ & _ & evs & T & _). exists evs. exact T.
  - cbn [runAction]. unfold selectorClip, bind. rewrite call_eq. eexists [_]. reflexivity.
  - cbn [runAction]. unfold fullPageClip, bind. rewrite call_eq. eexists [_]. reflexivity.
  - cbn [runAction]. unfold bind. rewrite call_eq. cbn [fst snd].
    destruct (fst (cdp_CaptureScreenshot world _ (fst s))); eexists [_]; reflexivity.
Qed.

Lemma runActions_extends (L : GoLib) (W : Type) (world : World W) (req : ScreenshotRequest)
  (vw : Z) (l : list Action) (v : Vars) (s : W * list Event) :
  exists evs, snd (snd (runActions world req vw l v s)) = (snd s ++ evs)%list.
Proof.
  revert v s. induction l as [|a l IH]; intros v s.
  - exists []. cbn. now rewrite app_nil_r.
  - cbn [runActions]. unfold bind.
    destruct (runAction_extends L W world req vw a v s) as (evs1 & T1).
    destruct (runAction world req vw a v s) as [[[e|] v1] s1]; cbn [fst snd] in *.
    + exists evs1. exact T1.
    + destruct (IH v1 s1) as (evs2 & T2). exists (evs1 ++ evs2)%list.
      rewrite T2, T1, app_assoc. reflexivity.
Qed.

(** X4. When [CHROME_WS_ENDPOINT], trimmed, parses with a path that begins
    with [/devtools/browser/], it is the resolved address as it stands and
    no request is made: [/health] answers 200 without any call, and the
    first call of a valid screenshot request is the dial of that address. *)
Theorem full_direct_endpoint_is_used_as_given (L : GoLib) (W : Type) (world : World W)
  (s : W * list Event) :
  let ws := getChromeWSEndpoint world in
  ws <> ""%string ->
  isFullEndpoint ws = true ->
  resolveWSEndpoint world s = ((ws, true, None), s)
  /\ status (fst (healthHandler world s)) = StatusOK
  /\ snd (healthHandler world s) = s
  /\ (forall (c : gin.Context) (req : ScreenshotRequest),
        parseRequest c = (req, None) ->
        snd (validate (applyDefaults req)) = None ->
        exists evs,
          snd (snd (screenshotHandler world c s)) = (snd s ++ EvDial ws :: evs)%list).
Proof.
  cbv zeta. intros Hws Hfull.
  assert (Hr : resolveWSEndpoint world s = ((getChromeWSEndpoint world, true, None), s)).
  { unfold resolveWSEndpoint. unfold isFullEndpoint in Hfull.
    apply String.eqb_neq in Hws. rewrite Hws. cbn [negb]. rewrite Hfull. reflexivity. }
  split; [exact Hr|]. split; [|split].
  - unfold healthHandler, bind. rewrite Hr. cbn.
    apply String.eqb_neq in Hws. rewrite Hws. reflexivity.
  - unfold healthHandler, bind. rewrite Hr. reflexivity.
  - intros c req Hp Hv. unfold screenshotHandler. rewrite Hp.
    destruct (validate (applyDefaults req)) as [req' [e|]]; [discriminate Hv|].
    destruct (initialViewport req') as [vw vh].
    unfold bind. rewrite Hr. cbn [negb]. rewrite call_eq.
    set (s2 := (snd (chromedp_Dial world (getChromeWSEndpoint world) (fst s)),
                (snd s ++ [EvDial (getChromeWSEndpoint world)])%list)).
    destruct (dial_err _) as [e|].
    + exists []. reflexivity.
    + destruct (runActions_extends L W world req' vw
                  (buildActions req' vw vh
                     (negb (Selector req' =? "")%string && (Height req' =? 0)))
                  (mkVars vh (initialClip req') "") s2) as (evs & T).
      destruct (runActions world req' vw _ _ s2) as [[[e|] v] s3]; cbn [fst snd] in *;
        exists evs; unfold ret; cbn [snd]; rewrite T; unfold s2; cbn [snd];
        rewrite <- app_assoc; reflexivity.
Qed.

(** X4 at [scenarios.directEnv]. *)
Lemma full_direct_endpoint_is_used_as_given_witness :
  let world := examples.worldOf scenarios.directEnv examples.noNetwork 800 in
  getChromeWSEndpoint world = "ws://chrome:9222/devtools/browser/abc"
  /\ isFullEndpoint (L := examples.lib) (getChromeWSEndpoint world) = true
  /\ resolveWSEndpoint (L := examples.lib) world examples.start
     = (("ws://chrome:9222/devtools/browser/abc", true, None), examples.start).
Proof.
  cbv zeta. split; [reflexivity|]. split; [reflexivity|].
  refine (proj1 (full_direct_endpoint_is_used_as_given examples.lib unit
                   (examples.worldOf scenarios.directEnv examples.noNetwork 800)
                   examples.start _ eq_refl)).
  discriminate.
Defined.

(** X3. A request that does not parse, or that fails validation once
    defaulted, is answered 400 with the text of the error as its only
    field, and the handler calls nothing: the world and the trace are as
    before. A 400 is the answer to such a request only. *)
Theorem rejected_request_makes_no_call (L : GoLib) (W : Type) (world : World W)
  (c : gin.Context) (s : W * list Event) :
  let answer := screenshotHandler world c s in
  (forall e, snd (parseRequest c) = Some e ->
     answer = (JSON StatusBadRequest [("error"%string, JString (Error e))], s))
  /\ (forall e, snd (parseRequest c) = None ->
        handlerCheck (fst (parseRequest c)) = Some e ->
        answer = (JSON StatusBadRequest [("error"%string, JString (Error e))], s))
  /\ (status (fst answer) = StatusBadRequest ->
      snd answer = s
      /\ (snd (parseRequest c) <> None
          \/ handlerCheck (fst (parseRequest c)) <> None)).
Proof.
  cbv zeta. unfold screenshotHandler, handlerCheck.
  destruct (parseRequest c) as [req [e|]]; cbn [fst snd].
  - split; [|split].
    + intros e' H. inversion H; subst. reflexivity.
    + intros e' H. discriminate H.
    + intros _. split; [reflexivity | left; discriminate].
  - split; [intros e' H; discriminate H|].
    destruct (validate (applyDefaults req)) as [req' [e|]]; cbn [fst snd].
    + split.
      * intros e' _ H. inversion H; subst. reflexivity.
      * intros _. split; [reflexivity | right; discriminate].
    + split; [intros e' _ H; discriminate H|].
      destruct (initialViewport req') as [vw vh].
      unfold bind.
      destruct (resolveWSEndpoint world s) as [[[wsURL configured] err] s1].
      destruct configured; cbn [negb]; [|discriminate].
      destruct err as [e|].
      * cbn. destruct (resolveFailure_status e) as [H | H]; rewrite H; discriminate.
      * destruct (call (EvDial wsURL) (chromedp_Dial world wsURL) s1) as [d s2].
        destruct (dial_err d) as [e|].
        -- cbn. destruct (dialFailure_status d e) as [H | H]; rewrite H; discriminate.
        -- destruct (runActions world req' vw _ _ s2) as [[[e|] v] s3]; cbn;
             [|discriminate].
           destruct (runFailure_status e) as [H | [H | H]]; rewrite H; discriminate.
Qed.

(** X3 at a GET request without a url. *)
Lemma rejected_request_makes_no_call_witness :
  let world := examples.worldOf examples.emptyEnv examples.noNetwork 800 in
  snd (parseRequest (L := examples.lib) examples.getNothing) = None
  /\ screenshotHandler (L := examples.lib) world examples.getNothing examples.start
     = (JSON StatusBadRequest [("error", JString "url is required")], examples.start).
Proof.
  cbv zeta. split; [reflexivity|].
  exact (proj1 (proj2 (rejected_request_makes_no_call examples.lib unit
                         (examples.worldOf examples.emptyEnv examples.noNetwork 800)
                         examples.getNothing examples.start))
           (errors.New "url is required") eq_refl eq_refl).
Defined.

Lemma resolveWSEndpoint_result (L : GoLib) (W : Type) (world : World W)
  (s : W * list Event) :
  match fst (resolveWSEndpoint world s) with
  | (wsURL, configured, Some _) => wsURL = ""%string
  | (wsURL, configured, None) => configured = true
  end.
Proof.
  unfold resolveWSEndpoint, bind, ret.
  destruct (negb (getChromeWSEndpoint world =? "")%string).
  - destruct (match url_Parse _ with inl _ => false | inr u => _ end); [reflexivity|].
    destruct (httpBaseFromWSEndpoint _) as [e | httpBase]; [reflexivity|].
    destruct (resolveWSEndpointViaJSONVersion world httpBase s) as [[e | r] s1];
      reflexivity.
  - destruct (getBrowserlessHTTPURL world =? "")%string; [reflexivity|].
    destruct (parseBrowserlessHTTPBase _) as [e | httpBase]; [reflexivity|].
    destruct (resolveWSEndpointViaJSONVersion world httpBase s) as [[e | r] s1];
      reflexivity.
Qed.

(** X8. [/health] answers 200 or 503: 200 exactly when the resolution
    returned an address that is not empty and no error. The fields
    [status] and [chrome_ws_available] say the same as the status code,
    [chrome_ws_configured] and [chrome_ws_endpoint] are the resolver's
    answers, [browserless_http_url] is the control-plane address in force,
    and [details] is present exactly when the resolution returned an
    error, whose text it is. A 503 never names an endpoint. *)
Theorem health_reports_resolution (L : GoLib) (W : Type) (world : World W)
  (s : W * list Event) :
  let resolved := fst (resolveWSEndpoint world s) in
  let wsURL := fst (fst resolved) in
  let err := snd resolved in
  let reply := fst (healthHandler world s) in
  let available := status reply =? StatusOK in
  (status reply = StatusOK \/ status reply = StatusServiceUnavailable)
  /\ (status reply = StatusOK <-> err = None /\ wsURL <> ""%string)
  /\ jsonField "status" reply = Some (JString (if available then "ok" else "degraded"))
  /\ jsonField "chrome_ws_available" reply = Some (JBool available)
  /\ jsonField "chrome_ws_configured" reply = Some (JBool (snd (fst resolved)))
  /\ jsonField "chrome_ws_endpoint" reply = Some (JString wsURL)
  /\ jsonField "browserless_http_url" reply = Some (JString (getBrowserlessHTTPURL world))
  /\ details reply = option_map (fun e => JString (Error e)) err
  /\ (status reply = StatusServiceUnavailable -> wsURL = ""%string).
Proof.
  cbv zeta. pose proof (resolveWSEndpoint_result L W world s) as R.
  unfold healthHandler, bind, details.
  destruct (resolveWSEndpoint world s) as [[[wsURL configured] err] s1].
  cbn [fst snd] in *.
  destruct err as [e|].
  - subst wsURL. rewrite andb_false_r. cbn.
    repeat split; try discriminate; auto. intros [H _]. discriminate H.
  - subst configured. cbn [andb].
    destruct (wsURL =? "")%string eqn:E; cbn.
    + apply String.eqb_eq in E. repeat split; try discriminate; auto; try congruence.
      intros [_ H]. contradiction.
    + apply String.eqb_neq in E. repeat split; try discriminate; auto.
Qed.

Lemma discoveryRequests_no_capture (L : GoLib) (httpBase : url.URL) (n : nat) :
  existsb isCapture (firstn n (discoveryRequests httpBase)) = false.
Proof. destruct n as [|[|[|[|n]]]]; reflexivity. Qed.

Lemma resolveWSEndpoint_no_capture (L : GoLib) (W : Type) (world : World W)
  (s : W * list Event) :
  exists evs, snd (snd (resolveWSEndpoint world s)) = (snd s ++ evs)%list
              /\ existsb isCapture evs = false.
Proof.
  pose proof (resolveWSEndpoint_requests world s) as H.
  destruct (discoveryBase world) as [httpBase|].
  - destruct H as (n & _ & T). eexists. split; [exact T|].
    apply discoveryRequests_no_capture.
  - exists []. rewrite H, app_nil_r. split; reflexivity.
Qed.

(** X11. A 200 reply carries the bytes that the browser returned to the
    capture call, which is the last outside call of the handler and its
    only capture; its content type is that of the validated request's
    format. *)
Theorem served_image_is_the_capture (L : GoLib) (W : Type) (world : World W)
  (c : gin.Context) (s : W * list Event) :
  let answer := screenshotHandler world c s in
  status (fst answer) = StatusOK ->
  exists (req : ScreenshotRequest) (p : CaptureParams) (evs : list Event) (buf : string),
    snd (parseRequest c) = None
    /\ validate (applyDefaults (fst (parseRequest c))) = (req, None)
    /\ fst answer = Data StatusOK (contentTypeForFormat (Format req)) buf
    /\ p = captureParams req (cap_Clip p)
    /\ snd (snd answer) = (snd s ++ evs ++ [EvCaptureScreenshot p])%list
    /\ existsb isCapture evs = false
    /\ exists w0, fst (cdp_CaptureScreenshot world p w0) = inr buf.
Proof.
  cbv zeta. unfold screenshotHandler.
  destruct (parseRequest c) as [req [e|]]; cbn [fst snd]; [discriminate|].
  destruct (validate (applyDefaults req)) as [req' [e|]]; [discriminate|].
  pose proof (handlerRun_capture L W world req') as Hrun. unfold handlerRun in Hrun.
  destruct (initialViewport req') as [vw vh]. cbn [fst snd] in Hrun.
  unfold bind.
  destruct (resolveWSEndpoint_no_capture L W world s) as (evs0 & T0 & N0).
  destruct (resolveWSEndpoint world s) as [[[wsURL configured] err] s1].
  cbn [snd] in T0.
  destruct configured; cbn [negb]; [|discriminate].
  destruct err as [e|].
  { cbn. destruct (resolveFailure_status e) as [H | H]; rewrite H; discriminate. }
  rewrite call_eq.
  set (s2 := (snd (chromedp_Dial world wsURL (fst s1)), (snd s1 ++ [EvDial wsURL])%list)).
  destruct (dial_err _) as [e|].
  { cbn. destruct (dialFailure_status (fst (chromedp_Dial world wsURL (fst s1))) e)
      as [H | H]; rewrite H; discriminate. }
  specialize (Hrun s2). cbv zeta in Hrun.
  destruct (runActions world req' vw _ _ s2) as [[[e|] v] s3]; cbn [fst snd] in *.
  { cbn. destruct (runFailure_status e) as [H | [H | H]]; rewrite H; discriminate. }
  intros _.
  destruct (Hrun eq_refl) as (p & evs & T & N & Hp & (w0 & B) & _).
  exists req', p, (evs0 ++ [EvDial wsURL] ++ evs)%list, (img v).
  split; [reflexivity|]. split; [reflexivity|]. split; [reflexivity|].
  split; [exact Hp|]. split; [|split].
  - unfold ret. cbn [snd]. rewrite T. unfold s2. cbn [snd]. rewrite T0.
    rewrite <- !app_assoc. reflexivity.
  - rewrite !existsb_app, N0, N. reflexivity.
  - exists w0. exact B.
Qed.

(** X11 at [examples.getExample] against a control plane that names a full
    address. *)
Lemma served_image_is_the_capture_witness :
  let world := examples.worldOf examples.emptyEnv examples.fullVersionNetwork 800 in
  let answer := screenshotHandler (L := examples.lib) world examples.getExample
                  examples.start in
  status (fst answer) = StatusOK
  /\ exists p evs,
       fst answer = Data StatusOK "image/png" "IMG"
       /\ snd (snd answer) = (evs ++ [EvCaptureScreenshot p])%list
       /\ existsb isCapture evs = false.
Proof.
  cbv zeta. split; [reflexivity|].
  destruct (served_image_is_the_capture examples.lib unit
              (examples.worldOf examples.emptyEnv examples.fullVersionNetwork 800)
              examples.getExample examples.start eq_refl)
    as (req & p & evs & buf & _ & _ & _ & _ & T & N & _).
  exists p, evs. split; [reflexivity|]. split; [exact T | exact N].
Defined.

(** X6. The control plane that [httpBaseFromWSEndpoint] derives from an
    endpoint has scheme http for ws and https for wss, the endpoint's host
    and path, and neither credentials nor query nor fragment; and
    [wsSchemeForHTTPBase] leads back to the endpoint's scheme. *)
Theorem ws_endpoint_base (L : GoLib) (ws : string) (httpBase : url.URL) :
  httpBaseFromWSEndpoint ws = inr httpBase ->
  exists u,
    url_Parse (strings.TrimSpace ws) = inr u
    /\ ((url.Scheme u = "ws"%string /\ url.Scheme httpBase = "http"%string)
        \/ (url.Scheme u = "wss"%string /\ url.Scheme httpBase = "https"%string))
    /\ wsSchemeForHTTPBase httpBase = inr (url.Scheme u)
    /\ url.Host httpBase = url.Host u /\ url.Host u <> ""%string
    /\ url.Path httpBase = url.Path u
    /\ url.User httpBase = None
    /\ url.RawQuery httpBase = ""%string
    /\ url.Fragment httpBase = ""%string.
Proof.
  unfold httpBaseFromWSEndpoint. cbv zeta.
  destruct (strings.TrimSpace ws =? "")%string; [discriminate|].
  destruct (url_Parse (strings.TrimSpace ws)) as [e | u]; [discriminate|].
  destruct (url.Scheme u =? "ws")%string eqn:E1; cbn [negb andb].
  - apply String.eqb_eq in E1.
    destruct (url.Host u =? "")%string eqn:E2; [discriminate|].
    apply String.eqb_neq in E2.
    rewrite E1. cbn. intro H. inversion H; subst; clear H.
    exists u. unfold wsSchemeForHTTPBase. cbn. rewrite E1.
    repeat split; auto.
  - destruct (url.Scheme u =? "wss")%string eqn:E3; cbn [negb]; [|discriminate].
    apply String.eqb_eq in E3.
    destruct (url.Host u =? "")%string eqn:E2; [discriminate|].
    apply String.eqb_neq in E2.
    intro H. inversion H; subst; clear H.
    exists u. unfold wsSchemeForHTTPBase. cbn. rewrite E3.
    repeat split; auto.
Qed.

(** X6 at a wss endpoint with a base path and a token in its query. *)
Lemma ws_endpoint_base_witness :
  exists httpBase,
    httpBaseFromWSEndpoint (L := examples.lib) " wss://chrome.example:9222/proxy?token=abc "
    = inr httpBase
    /\ wsSchemeForHTTPBase (L := examples.lib) httpBase = inr "wss"%string
    /\ url.Host httpBase = "chrome.example:9222"%string
    /\ url.Path httpBase = "/proxy"%string
    /\ url.RawQuery httpBase = ""%string.
Proof.
  eexists. split; [vm_compute; reflexivity|].
  destruct (ws_endpoint_base examples.lib " wss://chrome.example:9222/proxy?token=abc "
              _ eq_refl) as (u & Hu & _ & Hs & Hh & _ & Hp & _ & Hq & _).
  vm_compute in Hu. inversion Hu; subst; clear Hu.
  repeat split; assumption.
Defined.

Lemma string_app_assoc (a b c : string) : ((a ++ b) ++ c = a ++ (b ++ c))%string.
Proof. induction a as [|x a IH]; cbn; [reflexivity | now rewrite IH]. Qed.

(** A control plane with an http or https scheme: the scheme is always
    translated, and the authority is built whenever there is a host name. *)
Lemma supported_base (L : GoLib) (httpBase : url.URL) :
  url.Scheme httpBase = "http"%string \/ url.Scheme httpBase = "https"%string ->
  wsSchemeForHTTPBase httpBase
  = inr (if (url.Scheme httpBase =? "http")%string then "ws" else "wss")%string
  /\ (url.Hostname httpBase <> ""%string ->
      httpBaseHostPortWithDefault httpBase = inr (controlPlaneAuthority httpBase))
  /\ (url.Hostname httpBase = ""%string ->
      httpBaseHostPortWithDefault httpBase
      = inl (errors.New ("invalid BROWSERLESS_HTTP_URL "
                         ++ strconv_Quote (URL_String httpBase) ++ ": missing hostname"))).
Proof.
  intro Hs. unfold wsSchemeForHTTPBase, httpBaseHostPortWithDefault, controlPlaneAuthority.
  cbv zeta. split; [|split].
  - destruct Hs as [-> | ->]; reflexivity.
  - intro Hh. apply String.eqb_neq in Hh. rewrite Hh.
    destruct (url.Port httpBase =? "")%string; [|reflexivity].
    destruct Hs as [-> | ->]; reflexivity.
  - intro Hh. rewrite Hh. cbn [String.eqb]. rewrite !string_app_assoc. reflexivity.
Qed.

Lemma resolver_base_supported (L : GoLib) (raw : string) (httpBase : url.URL) :
  parseBrowserlessHTTPBase raw = inr httpBase \/ httpBaseFromWSEndpoint raw = inr httpBase ->
  (url.Scheme httpBase = "http"%string \/ url.Scheme httpBase = "https"%string)
  /\ url.Host httpBase <> ""%string.
Proof.
  intros [H | H].
  - unfold parseBrowserlessHTTPBase in H. cbv zeta in H.
    destruct (strings.TrimSpace raw =? "")%string; [discriminate|].
    destruct (url_Parse (strings.TrimSpace raw)) as [e | u]; [discriminate|].
    destruct (url.Scheme u =? "")%string; [discriminate|].
    destruct (negb (url.Scheme u =? "http")%string && negb (url.Scheme u =? "https")%string)
      eqn:Es; [discriminate|].
    destruct (url.Host u =? "")%string eqn:Eh; [discriminate|].
    inversion H; subst. apply scheme_check in Es. apply String.eqb_neq in Eh. auto.
  - unfold httpBaseFromWSEndpoint in H. cbv zeta in H.
    destruct (strings.TrimSpace raw =? "")%string; [discriminate|].
    destruct (url_Parse (strings.TrimSpace raw)) as [e | u]; [discriminate|].
    destruct (negb (url.Scheme u =? "ws")%string && negb (url.Scheme u =? "wss")%string);
      [discriminate|].
    destruct (url.Host u =? "")%string eqn:Eh; [discriminate|].
    inversion H; subst. apply String.eqb_neq in Eh. cbn.
    split; [|exact Eh]. destruct (url.Scheme u =? "wss")%string; auto.
Qed.

(** X7. Against a control plane returned by [parseBrowserlessHTTPBase] or
    by [httpBaseFromWSEndpoint], the rewrite of an address succeeds exactly
    when the address is not blank, parses and has a scheme and a host, and
    the control plane has a host name. It fails in one of four ways; the
    two errors for an unsupported scheme are out of reach. *)
Theorem rewrite_succeeds_exactly (L : GoLib) (raw ws : string) (httpBase : url.URL) :
  parseBrowserlessHTTPBase raw = inr httpBase \/ httpBaseFromWSEndpoint raw = inr httpBase ->
  ((exists rewritten, rewriteWebSocketDebuggerURL ws httpBase = inr rewritten)
   <-> (strings.TrimSpace ws <> ""%string
        /\ (exists wsU, url_Parse (strings.TrimSpace ws) = inr wsU
                        /\ url.Scheme wsU <> ""%string /\ url.Host wsU <> ""%string)
        /\ url.Hostname httpBase <> ""%string))
  /\ (forall e, rewriteWebSocketDebuggerURL ws httpBase = inl e ->
        Error e = "missing webSocketDebuggerUrl"%string
        \/ (exists e', url_Parse (strings.TrimSpace ws) = inl e')
        \/ Error e = ("invalid webSocketDebuggerUrl " ++ strconv_Quote (strings.TrimSpace ws)
                      ++ ": missing scheme or host")%string
        \/ Error e = ("invalid BROWSERLESS_HTTP_URL " ++ strconv_Quote (URL_String httpBase)
                      ++ ": missing hostname")%string).
Proof.
  intro Hb. destruct (resolver_base_supported L raw httpBase Hb) as [Hs Hh].
  destruct (supported_base L httpBase Hs) as (S1 & S2 & S3).
  unfold rewriteWebSocketDebuggerURL. cbv zeta.
  destruct (strings.TrimSpace ws =? "")%string eqn:E0.
  { apply String.eqb_eq in E0. split.
    - split; [intros [r H]; discriminate H | intros [H _]; contradiction].
    - intros e H. inversion H; subst. left. reflexivity. }
  apply String.eqb_neq in E0.
  destruct (url_Parse (strings.TrimSpace ws)) as [e0 | wsU] eqn:Ep.
  { split.
    - split; [intros [r H]; discriminate H|].
      intros (_ & (wsU & H & _) & _). discriminate H.
    - intros e H. right. left. exists e0. reflexivity. }
  destruct ((url.Scheme wsU =? "")%string || (url.Host wsU =? "")%string) eqn:E1.
  { split.
    - split; [intros [r H]; discriminate H|].
      intros (_ & (wsU' & H & H1 & H2) & _). inversion H; subst.
      apply String.eqb_neq in H1, H2. rewrite H1, H2 in E1. discriminate E1.
    - intros e H. inversion H; subst. right. right. left. cbn [Error errors.New].
      rewrite !string_app_assoc. reflexivity. }
  apply orb_false_iff in E1 as [E1 E2]. apply String.eqb_neq in E1, E2.
  destruct (string_dec (url.Hostname httpBase) "") as [Hn | Hn].
  - rewrite (S3 Hn). split.
    + split; [intros [r H]; discriminate H | intros (_ & _ & H); contradiction].
    + intros e H. inversion H; subst. right. right. right. reflexivity.
  - rewrite (S2 Hn), S1. split.
    + split; [|intros _; eexists; reflexivity].
      intros _. split; [exact E0|]. split; [|exact Hn].
      exists wsU. repeat split; assumption.
    + intros e H. discriminate H.
Qed.

(** X7 at the control plane [http://:3000], which is accepted though it has
    no host name: no address can be rewritten against it. *)
Lemma rewrite_succeeds_exactly_witness :
  exists httpBase,
    parseBrowserlessHTTPBase (L := examples.lib) "http://:3000" = inr httpBase
    /\ url.Hostname httpBase = ""%string
    /\ forall r,
         rewriteWebSocketDebuggerURL (L := examples.lib)
           "ws://0.0.0.0:3000/devtools/browser/abc" httpBase <> inr r.
Proof.
  eexists. split; [vm_compute; reflexivity|]. split; [vm_compute; reflexivity|].
  intros r H.
  pose proof (proj1 (proj1 (rewrite_succeeds_exactly examples.lib "http://:3000"
                              "ws://0.0.0.0:3000/devtools/browser/abc" _
                              (or_introl eq_refl)))
                (ex_intro _ r H)) as (_ & _ & Hn).
  apply Hn. vm_compute. reflexivity.
Defined.

(** X13. The fallbacks are tried in one situation only. Whenever
    [/json/version] fails to answer, answers outside 2xx, cannot be
    decoded, or names an address with the devtools path, that settles the
    discovery after this single request, also when the rewrite of the
    named address fails. Only a 2xx answer whose address lacks the devtools
    path is followed by [PUT /json/new]. *)
Theorem version_answer_is_final (L : GoLib) (W : Type) (world : World W)
  (httpBase : url.URL) (s : W * list Event) :
  let version := EvHTTP "GET" (discoveryURL httpBase "/json/version") in
  let first := http_Do world "GET" (discoveryURL httpBase "/json/version") (fst s) in
  let r := resolveWSEndpointViaJSONVersion world httpBase s in
  match settledByVersion httpBase (fst first) with
  | Some result => r = (result, (snd first, (snd s ++ [version])%list))
  | None =>
      exists rest,
        snd (snd r)
        = (snd s ++ version :: EvHTTP "PUT" (discoveryURL httpBase "/json/new") :: rest)%list
  end.
Proof.
  cbv zeta. unfold settledByVersion, resolveWSEndpointViaJSONVersion, bind, httpDo.
  rewrite call_eq. fold (discoveryURL httpBase "/json/version").
  destruct (fst (http_Do world "GET" _ (fst s))) as [e | resp]; [reflexivity|].
  unfold non2xx, returned.
  destruct ((http.StatusCode resp <? 200) || (http.StatusCode resp >=? 300));
    [reflexivity|].
  destruct (json_Decode_version (http.Body resp)) as [e | vr]; [reflexivity|].
  cbv zeta.
  destruct (hasDevToolsPath _); [reflexivity|].
  set (s1 := (snd (http_Do world "GET" (discoveryURL httpBase "/json/version") (fst s)),
              (snd s ++ [EvHTTP "GET" (discoveryURL httpBase "/json/version")])%list)).
  pose proof (viaJSONNew_trace L W world httpBase s1) as Tn.
  destruct (resolveWSEndpointViaJSONNew world httpBase s1) as [[e | r] s2]; cbn [snd] in Tn.
  - pose proof (viaJSONList_trace L W world httpBase s2) as Tl.
    destruct (resolveWSEndpointViaJSONList world httpBase s2) as [[e' | r] s3];
      cbn [snd] in Tl; cbn [ret snd]; eexists; rewrite Tl, Tn; unfold s1; cbn [snd];
      rewrite <- !app_assoc; reflexivity.
  - cbn [ret snd]. exists []. rewrite Tn. unfold s1. cbn [snd].
    rewrite <- !app_assoc. reflexivity.
Qed.

(** X14. The page height of the auto-expand step is the content height of
    the layout metrics when that call succeeds with a positive height, and
    no script is run then. In every other case, a failed metrics call
    included, the fallback script is run and decides alone. The
    measurement fails only through the script, by its error or by a height
    that is not positive; the step then fails, with that error or with
    [failed to determine page height], and leaves the viewport height as it
    was. *)
Theorem page_height_measurement (L : GoLib) (W : Type) (world : World W)
  (req : ScreenshotRequest) (viewportWidth viewportHeight : Z) (s : W * list Event) :
  let metrics := cdp_GetLayoutMetrics world (fst s) in
  let script := cdp_EvaluatePageHeight world (snd metrics) in
  let usable := match fst metrics with
                | inr (Some contentSize) => PrimFloat.ltb 0 (rect_Height contentSize)
                | _ => false
                end in
  (usable = true ->
   exists contentSize,
     fst metrics = inr (Some contentSize)
     /\ measurePageHeight world s
        = (inr (rect_Height contentSize), (snd metrics, (snd s ++ [EvGetLayoutMetrics])%list)))
  /\ (usable = false ->
      measurePageHeight world s
      = (fst script,
         (snd script, (snd s ++ [EvGetLayoutMetrics; EvEvaluatePageHeight])%list)))
  /\ (forall e s1, measurePageHeight world s = (inl e, s1) ->
        autoExpand world req viewportWidth viewportHeight s = ((Some e, viewportHeight), s1)
        /\ usable = false /\ fst script = inl e)
  /\ (forall h s1, measurePageHeight world s = (inr h, s1) ->
        PrimFloat.leb h 0 = true ->
        autoExpand world req viewportWidth viewportHeight s
        = ((Some (errors.New "failed to determine page height"), viewportHeight), s1)
        /\ usable = false).
Proof.
  cbv zeta.
  assert (Hm : measurePageHeight world s
               = match fst (cdp_GetLayoutMetrics world (fst s)) with
                 | inr (Some contentSize) =>
                     if PrimFloat.ltb 0 (rect_Height contentSize)
                     then (inr (rect_Height contentSize),
                           (snd (cdp_GetLayoutMetrics world (fst s)),
                            (snd s ++ [EvGetLayoutMetrics])%list))
                     else (fst (cdp_EvaluatePageHeight world
                                  (snd (cdp_GetLayoutMetrics world (fst s)))),
                           (snd (cdp_EvaluatePageHeight world
                                   (snd (cdp_GetLayoutMetrics world (fst s)))),
                            (snd s ++ [EvGetLayoutMetrics; EvEvaluatePageHeight])%list))
                 | _ => (fst (cdp_EvaluatePageHeight world
                                (snd (cdp_GetLayoutMetrics world (fst s)))),
                         (snd (cdp_EvaluatePageHeight world
                                 (snd (cdp_GetLayoutMetrics world (fst s)))),
                          (snd s ++ [EvGetLayoutMetrics; EvEvaluatePageHeight])%list))
                 end).
  { unfold measurePageHeight, bind. rewrite call_eq.
    destruct (fst (cdp_GetLayoutMetrics world (fst s))) as [e | [contentSize|]];
      [| destruct (PrimFloat.ltb 0 (rect_Height contentSize)); [reflexivity|] |];
      rewrite call_eq; cbn [fst snd]; rewrite <- app_assoc; reflexivity. }
  split; [|split; [|split]].
  - intro Hu. rewrite Hm.
    destruct (fst (cdp_GetLayoutMetrics world (fst s))) as [e | [contentSize|]];
      try discriminate Hu.
    rewrite Hu. exists contentSize. split; reflexivity.
  - intro Hu. rewrite Hm.
    destruct (fst (cdp_GetLayoutMetrics world (fst s))) as [e | [contentSize|]];
      try reflexivity.
    rewrite Hu. reflexivity.
  - intros e s1 H. split.
    + unfold autoExpand, bind. rewrite H. reflexivity.
    + rewrite Hm in H.
      destruct (fst (cdp_GetLayoutMetrics world (fst s))) as [e0 | [contentSize|]];
        [| destruct (PrimFloat.ltb 0 (rect_Height contentSize)); [discriminate H|] |];
        inversion H; auto.
  - intros h s1 H Hle. split.
    + unfold autoExpand, bind. rewrite H, Hle. reflexivity.
    + rewrite Hm in H.
      destruct (fst (cdp_GetLayoutMetrics world (fst s))) as [e0 | [contentSize|]];
        try reflexivity.
      destruct (PrimFloat.ltb 0 (rect_Height contentSize)) eqn:Hlt; [|reflexivity].
      inversion H; subst.
      rewrite (proj2 (float_leb_false _ _) (or_intror Hlt)) in Hle. discriminate Hle.
Qed.

(** X19. The replies of [/screenshot] have four shapes: an image with one
    of three content types and status 200; a 400 whose only field is
    [error]; the 503 of a missing configuration, whose only field is
    [error]; and a failure after validation, with the fields [error] and
    [details], whose status and title are one of six fixed pairs. *)
Theorem reply_shapes (L : GoLib) (W : Type) (world : World W) (c : gin.Context)
  (s : W * list Event) :
  let reply := fst (screenshotHandler world c s) in
  (exists data, reply = Data StatusOK "image/png" data
                \/ reply = Data StatusOK "image/jpeg" data
                \/ reply = Data StatusOK "image/webp" data)
  \/ (exists text, reply = JSON StatusBadRequest [("error", JString text)])
  \/ reply = JSON StatusServiceUnavailable [("error", JString notConfiguredMessage)]
  \/ (exists st title text,
        reply = JSON st [("error", JString title); ("details", JString text)]
        /\ In (st, title) failureTitles).
Proof.
  cbv zeta. unfold screenshotHandler.
  destruct (parseRequest c) as [req [e|]]; [right; left; eexists; reflexivity|].
  destruct (validate (applyDefaults req)) as [req' [e|]];
    [right; left; eexists; reflexivity|].
  destruct (initialViewport req') as [vw vh].
  unfold bind.
  destruct (resolveWSEndpoint world s) as [[[wsURL configured] err] s1].
  destruct configured; cbn [negb]; [|do 2 right; left; reflexivity].
  destruct err as [e|].
  { do 3 right. unfold ret, resolveFailure. cbn [fst].
    destruct (isTimeoutErr (Some e)); do 3 eexists; (split; [reflexivity | cbn; auto 10]). }
  destruct (call (EvDial wsURL) (chromedp_Dial world wsURL) s1) as [d s2].
  destruct (dial_err d) as [e|].
  { do 3 right. unfold ret, dialFailure. cbn [fst]. cbv zeta.
    repeat match goal with
           | |- context [if ?b then _ else _] => destruct b
           end; do 3 eexists; (split; [reflexivity | cbn; auto 10]). }
  destruct (runActions world req' vw _ _ s2) as [[[e|] v] s3]; cbn [fst snd].
  { do 3 right. unfold ret, runFailure. cbn [fst]. cbv zeta.
    repeat match goal with
           | |- context [if ?b then _ else _] => destruct b
           end; do 3 eexists; (split; [reflexivity | cbn; auto 10]). }
  left. exists (img v). unfold ret. cbn [fst].
  destruct (format_cases (Format req')) as [[-> _] | [[-> _] | [-> _]]]; auto.
Qed.

Lemma firstUsable_none (L : GoLib) (httpBase : url.URL)
  (payloads : list browserlessCDPJSONPayload) :
  firstUsable httpBase payloads = None <-> Forall (unusable httpBase) payloads.
Proof.
  induction payloads as [|p rest IH]; cbn.
  - split; [constructor | reflexivity].
  - unfold unusable at 1.
    destruct (hasDevToolsPath (WebSocketDebuggerURL p)) eqn:Hp; cbn.
    + destruct (rewriteWebSocketDebuggerURL (WebSocketDebuggerURL p) httpBase)
        as [e | r] eqn:Hr.
      * rewrite IH. split.
        -- intro H. constructor; [right; exists e; exact Hr | exact H].
        -- intro H. inversion H; assumption.
      * split; [discriminate|]. intro H. inversion H as [|? ? Hu _]; subst.
        destruct Hu as [Hu | [e Hu]]; [rewrite Hp in Hu | rewrite Hr in Hu];
          discriminate Hu.
    + rewrite IH. split.
      * intro H. constructor; [left; exact Hp | exact H].
      * intro H. inversion H; assumption.
Qed.

Lemma firstUsable_skips (L : GoLib) (httpBase : url.URL)
  (skipped rest : list browserlessCDPJSONPayload) (p : browserlessCDPJSONPayload)
  (rewritten : string) :
  Forall (unusable httpBase) skipped ->
  usable httpBase p rewritten ->
  firstUsable httpBase (skipped ++ p :: rest) = Some rewritten.
Proof.
  intros Hs [Hu1 Hu2]. induction Hs as [|q skipped' Hq Hs IH]; cbn.
  - rewrite Hu1, Hu2. reflexivity.
  - destruct Hq as [Hq | [e Hq]].
    + rewrite Hq. cbn. exact IH.
    + destruct (hasDevToolsPath (WebSocketDebuggerURL q)); cbn; [|exact IH].
      rewrite Hq. exact IH.
Qed.

(** X20. Once [/json/list] has answered 2xx with a list that decodes, the
    list fallback fails exactly when no entry is usable, that is when
    every entry lacks the devtools path or cannot be rewritten; the error
    then tells the number of entries. An entry that is usable and
    preceded by unusable ones only is the result. *)
Theorem list_fallback_fails_exactly (L : GoLib) (W : Type) (world : World W)
  (httpBase : url.URL) (s : W * list Event) (resp : http.Response)
  (payloads : list browserlessCDPJSONPayload) :
  fst (http_Do world "GET" (discoveryURL httpBase "/json/list") (fst s)) = inr resp ->
  non2xx resp = false ->
  json_Decode_payloads (http.Body resp) = inr payloads ->
  let r := fst (resolveWSEndpointViaJSONList world httpBase s) in
  ((exists e, r = inl e) <-> Forall (unusable httpBase) payloads)
  /\ (Forall (unusable httpBase) payloads ->
      r = inl (errors.New ("browserless /json/list returned "
                           ++ strconv.Itoa (Z.of_nat (length payloads))
                           ++ " targets, but none has a usable devtools ws")))
  /\ (forall (skipped rest : list browserlessCDPJSONPayload) p rewritten,
        payloads = (skipped ++ p :: rest)%list ->
        Forall (unusable httpBase) skipped ->
        usable httpBase p rewritten ->
        r = inr rewritten).
Proof.
  intros Hd H2 Hp. cbv zeta.
  unfold resolveWSEndpointViaJSONList, bind, httpDo. rewrite call_eq.
  fold (discoveryURL httpBase "/json/list"). rewrite Hd. cbn [fst ret].
  rewrite H2, Hp.
  split; [|split].
  - rewrite <- firstUsable_none.
    destruct (firstUsable httpBase payloads) as [r|]; split.
    + intros [e H]. discriminate H.
    + discriminate.
    + reflexivity.
    + intros _. eexists. reflexivity.
  - intro H. apply firstUsable_none in H. rewrite H. reflexivity.
  - intros skipped rest p rewritten -> Hs Hu.
    rewrite (firstUsable_skips L httpBase skipped rest p rewritten Hs Hu). reflexivity.
Qed.

(** X20 at [examples.listBody], whose first entry is unusable. *)
Lemma list_fallback_fails_exactly_witness :
  let world := examples.worldOf examples.emptyEnv examples.bareVersionNetwork 800 in
  let httpBase := baseOf (L := examples.lib) "http://localhost:3000" in
  fst (http_Do world "GET" (discoveryURL (L := examples.lib) httpBase "/json/list") tt)
  = inr (http.mkResponse 200 examples.listBody)
  /\ fst (resolveWSEndpointViaJSONList (L := examples.lib) world httpBase examples.start)
     = inr "ws://localhost:3000/devtools/page/B".
Proof.
  cbv zeta. split; [reflexivity|].
  refine (proj2 (proj2 (list_fallback_fails_exactly examples.lib unit
                          (examples.worldOf examples.emptyEnv examples.bareVersionNetwork 800)
                          (baseOf (L := examples.lib) "http://localhost:3000")
                          examples.start (http.mkResponse 200 examples.listBody)
                          [ examples.payloadWith "/devtools/page/A";
                            examples.payloadWith "ws://0.0.0.0:3000/devtools/page/B" ]
                          eq_refl eq_refl eq_refl))
            [examples.payloadWith "/devtools/page/A"] []
            (examples.payloadWith "ws://0.0.0.0:3000/devtools/page/B")
            "ws://localhost:3000/devtools/page/B" eq_refl _ _).
  - constructor; [|constructor]. right. eexists. vm_compute. reflexivity.
  - split; vm_compute; reflexivity.
Defined.

(** X21. What a 200 of [/health] promises: a valid screenshot request
    served from the same state of the world makes the same discovery
    requests and then dials the very address that [/health] reported
    under [chrome_ws_endpoint]. *)
Theorem health_ok_means_dial (L : GoLib) (W : Type) (world : World W)
  (c : gin.Context) (req : ScreenshotRequest) (s : W * list Event) :
  status (fst (healthHandler world s)) = StatusOK ->
  parseRequest c = (req, None) ->
  snd (validate (applyDefaults req)) = None ->
  exists wsURL before after,
    jsonField "chrome_ws_endpoint" (fst (healthHandler world s)) = Some (JString wsURL)
    /\ wsURL <> ""%string
    /\ snd (snd (healthHandler world s)) = (snd s ++ before)%list
    /\ snd (snd (screenshotHandler world c s))
       = (snd s ++ before ++ EvDial wsURL :: after)%list
    /\ existsb isCapture before = false.
Proof.
  intros Hh Hp Hv.
  destruct (resolveWSEndpoint_no_capture L W world s) as (evs0 & T0 & N0).
  pose proof (resolveWSEndpoint_result L W world s) as R.
  unfold healthHandler, screenshotHandler, bind in *. rewrite Hp.
  destruct (validate (applyDefaults req)) as [req' [e|]]; [discriminate Hv|].
  destruct (initialViewport req') as [vw vh].
  destruct (resolveWSEndpoint world s) as [[[wsURL configured] err] s1].
  cbn [fst snd] in *.
  destruct err as [e|].
  { rewrite andb_false_r in Hh. discriminate Hh. }
  subst configured. cbn [andb negb] in *.
  destruct (wsURL =? "")%string eqn:E; [discriminate Hh|].
  apply String.eqb_neq in E.
  exists wsURL, evs0.
  rewrite call_eq.
  set (s2 := (snd (chromedp_Dial world wsURL (fst s1)), (snd s1 ++ [EvDial wsURL])%list)).
  assert (Hs2 : snd s2 = (snd s ++ evs0 ++ [EvDial wsURL])%list).
  { unfold s2. cbn [snd]. rewrite T0, <- app_assoc. reflexivity. }
  destruct (dial_err _) as [e|].
  - exists []. split; [reflexivity|]. split; [exact E|]. split; [exact T0|].
    split; [|exact N0]. unfold ret. cbn [snd]. exact Hs2.
  - destruct (runActions_extends L W world req' vw
                (buildActions req' vw vh
                   (negb (Selector req' =? "")%string && (Height req' =? 0)))
                (mkVars vh (initialClip req') "") s2) as (evs & T).
    exists evs. split; [reflexivity|]. split; [exact E|]. split; [exact T0|].
    split; [|exact N0].
    destruct (runActions world req' vw _ _ s2) as [[[e|] v] s3]; cbn [fst snd] in *;
      unfold ret; cbn [snd]; rewrite T, Hs2, <- !app_assoc; reflexivity.
Qed.

(** X21 at [examples.getExample] against a control plane that names a full
    address. *)
Lemma health_ok_means_dial_witness :
  let world := examples.worldOf examples.emptyEnv examples.fullVersionNetwork 800 in
  status (fst (healthHandler (L := examples.lib) world examples.start)) = StatusOK
  /\ parseRequest (L := examples.lib) examples.getExample
     = (mkRequest "https://example.com" "" 1920 0 "png" 90 0 "" false [] ""
          1%float false false 30 None, None)
  /\ exists after,
       snd (snd (screenshotHandler (L := examples.lib) world examples.getExample
                   examples.start))
       = (EvHTTP "GET" "http://localhost:3000/json/version"
          :: EvDial "ws://localhost:3000/devtools/browser/abc" :: after)%list.
Proof.
  cbv zeta. split; [reflexivity|]. split; [reflexivity|].
  destruct (health_ok_means_dial examples.lib unit
              (examples.worldOf examples.emptyEnv examples.fullVersionNetwork 800)
              examples.getExample _ examples.start eq_refl eq_refl eq_refl)
    as (wsURL & before & after & Hf & _ & Hb & T & _).
  vm_compute in Hf. inversion Hf; subst; clear Hf.
  vm_compute in Hb. subst before.
  exists after. exact T.
Defined.

(** ** The GET parser *)

Section GetParser.

Context {L : GoLib}.

Lemma parseIntQuery_complaint (c : gin.Context) (key : string) (d : Z) :
  option_map Error (snd (parseIntQuery c key d))
  = if malformed c (key, IntParam) then Some (complaint (key, IntParam)) else None.
Proof.
  unfold parseIntQuery, malformed, complaint. cbn [fst snd].
  destruct (gin.Query c key =? "")%string; [reflexivity|].
  destruct (strconv.Atoi (gin.Query c key)); reflexivity.
Qed.

Lemma parseFloatQuery_complaint (c : gin.Context) (key : string) (d : float) :
  option_map Error (snd (parseFloatQuery c key d))
  = if malformed c (key, FloatParam) then Some (complaint (key, FloatParam)) else None.
Proof.
  unfold parseFloatQuery, malformed, complaint. cbn [fst snd].
  destruct (gin.Query c key =? "")%string; [reflexivity|].
  destruct (strconv_ParseFloat (gin.Query c key)); reflexivity.
Qed.

Lemma parseBoolQuery_complaint (c : gin.Context) (key : string) (d : bool) :
  option_map Error (snd (parseBoolQuery c key d))
  = if malformed c (key, BoolParam) then Some (complaint (key, BoolParam)) else None.
Proof.
  unfold parseBoolQuery, malformed, complaint. cbn [fst snd].
  destruct (gin.Query c key =? "")%string; [reflexivity|].
  destruct (strconv.ParseBool (gin.Query c key)); reflexivity.
Qed.

Lemma assign_complaint {A : Type} (parsed : A * option GoError)
  (set : A -> ScreenshotRequest)
  (next : ScreenshotRequest -> ScreenshotRequest * option GoError)
  (bad : bool) (text : string) (rest : option string) :
  option_map Error (snd parsed) = (if bad then Some text else None) ->
  (forall req, option_map Error (snd (next req)) = rest) ->
  option_map Error (snd (assign parsed set next)) = if bad then Some text else rest.
Proof.
  intros Hp Hn. unfold assign.
  destruct (snd parsed) as [e|]; destruct bad; cbn in *; try discriminate Hp.
  - exact Hp.
  - apply Hn.
Qed.

Lemma firstComplaint_cases (c : gin.Context) :
  firstComplaint c
  = if malformed c ("width", IntParam) then Some (complaint ("width", IntParam))
    else if malformed c ("height", IntParam) then Some (complaint ("height", IntParam))
    else if malformed c ("quality", IntParam) then Some (complaint ("quality", IntParam))
    else if malformed c ("wait_time", IntParam)
    then Some (complaint ("wait_time", IntParam))
    else if malformed c ("timeout", IntParam) then Some (complaint ("timeout", IntParam))
    else if malformed c ("device_scale", FloatParam)
    then Some (complaint ("device_scale", FloatParam))
    else if malformed c ("full_page", BoolParam)
    then Some (complaint ("full_page", BoolParam))
    else if malformed c ("mobile", BoolParam) then Some (complaint ("mobile", BoolParam))
    else if malformed c ("landscape", BoolParam)
    then Some (complaint ("landscape", BoolParam))
    else if negb (gin.Query c "headers" =? "")%string
    then match json_Unmarshal_headers (gin.Query c "headers") with
         | Some _ => None
         | None => Some "headers must be a valid JSON object"%string
         end
    else None.
Proof.
  unfold firstComplaint, typedParams. cbn [find].
  repeat (destruct (malformed c _); [reflexivity|]). reflexivity.
Qed.

Lemma parseRequestFromGET_complaint (c : gin.Context) :
  option_map Error (snd (parseRequestFromGET c)) = firstComplaint c.
Proof.
  rewrite firstComplaint_cases. unfold parseRequestFromGET. cbv zeta.
  repeat (apply assign_complaint;
          [first [apply parseIntQuery_complaint | apply parseFloatQuery_complaint
                 | apply parseBoolQuery_complaint] | intro]).
  destruct (negb (gin.Query c "headers" =? "")%string); [|reflexivity].
  destruct (json_Unmarshal_headers _); reflexivity.
Qed.

End GetParser.

(** X17. [parseRequestFromGET] fails exactly when a typed parameter has a
    text that is not empty and that its type does not read, or [headers]
    is not empty and no JSON object. The error names the first such
    parameter in the order width, height, quality, wait_time, timeout,
    device_scale, full_page, mobile, landscape, headers; the handler
    answers it with 400 and that text, calling nothing. *)
Theorem get_parser_reports_first_malformed (L : GoLib) (W : Type) (world : World W)
  (c : gin.Context) (s : W * list Event) :
  option_map Error (snd (parseRequestFromGET c)) = firstComplaint c
  /\ (gin.Method c = "GET"%string ->
      forall text, firstComplaint c = Some text ->
        screenshotHandler world c s
        = (JSON StatusBadRequest [("error"%string, JString text)], s)).
Proof.
  pose proof (parseRequestFromGET_complaint c) as H.
  split; [exact H|].
  intros Hm text Ht. unfold screenshotHandler, parseRequest. rewrite Hm. cbn [String.eqb].
  change ("GET" =? "GET")%string with true. cbv iota.
  rewrite Ht in H.
  destruct (parseRequestFromGET c) as [req [e|]]; cbn in H; [|discriminate H].
  inversion H; subst. reflexivity.
Qed.

(** X17 at a query whose [mobile] and [width] are both malformed. *)
Lemma get_parser_reports_first_malformed_witness :
  let c := gin.mkContext "GET" [("url", "https://example.com"); ("mobile", "maybe");
                                ("width", "wide")] "" in
  firstComplaint (L := examples.lib) c = Some "width must be integer"
  /\ screenshotHandler (L := examples.lib)
       (examples.worldOf examples.emptyEnv examples.noNetwork 800) c examples.start
     = (JSON StatusBadRequest [("error", JString "width must be integer")], examples.start).
Proof.
  cbv zeta. split; [reflexivity|].
  exact (proj2 (get_parser_reports_first_malformed examples.lib unit
                  (examples.worldOf examples.emptyEnv examples.noNetwork 800)
                  (gin.mkContext "GET" [("url", "https://example.com"); ("mobile", "maybe");
                                        ("width", "wide")] "")
                  examples.start)
           eq_refl "width must be integer" eq_refl).
Defined.

Lemma query_default (c : gin.Context) (key d : string) :
  gin.Query c key = ""%string ->
  gin.DefaultQuery c key d = ""%string \/ gin.DefaultQuery c key d = d.
Proof.
  unfold gin.Query, gin.DefaultQuery. destruct (gin.GetQuery c key); auto.
Qed.

Lemma parseIntQuery_default (L : GoLib) (c : gin.Context) (key : string) (d : Z) :
  gin.Query c key = ""%string -> parseIntQuery c key d = (d, None).
Proof. intro H. unfold parseIntQuery. rewrite H. reflexivity. Qed.

Lemma parseFloatQuery_default (L : GoLib) (c : gin.Context) (key : string) (d : float) :
  gin.Query c key = ""%string -> parseFloatQuery c key d = (d, None).
Proof. intro H. unfold parseFloatQuery. rewrite H. reflexivity. Qed.

Lemma parseBoolQuery_default (L : GoLib) (c : gin.Context) (key : string) (d : bool) :
  gin.Query c key = ""%string -> parseBoolQuery c key d = (d, None).
Proof. intro H. unfold parseBoolQuery. rewrite H. reflexivity. Qed.

(** X22. The two entry points default alike. A GET request whose
    parameters with a default are all absent or empty is parsed without
    error, and once defaulted it is the request that a JSON body with the
    same url, selector, wait_for and user_agent and nothing else is
    defaulted to. *)
Theorem get_and_post_defaults_agree (L : GoLib) (c : gin.Context) :
  Forall (fun key => gin.Query c key = ""%string) defaultedParams ->
  snd (parseRequestFromGET c) = None
  /\ applyDefaults (fst (parseRequestFromGET c))
     = applyDefaults (textsOnly (gin.Query c "url") (gin.Query c "selector")
                        (gin.Query c "wait_for") (gin.Query c "user_agent")).
Proof.
  intro H. unfold defaultedParams in H.
  inversion H as [|? ? Hformat H1]; clear H; subst.
  inversion H1 as [|? ? Hwidth H2]; clear H1; subst.
  inversion H2 as [|? ? Hheight H3]; clear H2; subst.
  inversion H3 as [|? ? Hquality H4]; clear H3; subst.
  inversion H4 as [|? ? Hwait H5]; clear H4; subst.
  inversion H5 as [|? ? Htimeout H6]; clear H5; subst.
  inversion H6 as [|? ? Hscale H7]; clear H6; subst.
  inversion H7 as [|? ? Hfull H8]; clear H7; subst.
  inversion H8 as [|? ? Hmobile H9]; clear H8; subst.
  inversion H9 as [|? ? Hlandscape H10]; clear H9; subst.
  inversion H10 as [|? ? Hheaders _]; clear H10; subst.
  assert (Hp : parseRequestFromGET c
               = (mkRequest (gin.Query c "url") (gin.Query c "selector") defaultWidth 0
                    (gin.DefaultQuery c "format" defaultFormat) defaultQuality 0
                    (gin.Query c "wait_for") false [] (gin.Query c "user_agent")
                    defaultDeviceScale false false defaultTimeoutSec None, None)).
  { unfold parseRequestFromGET.
    rewrite (parseIntQuery_default L c "width" _ Hwidth),
      (parseIntQuery_default L c "height" _ Hheight),
      (parseIntQuery_default L c "quality" _ Hquality),
      (parseIntQuery_default L c "wait_time" _ Hwait),
      (parseIntQuery_default L c "timeout" _ Htimeout),
      (parseFloatQuery_default L c "device_scale" _ Hscale),
      (parseBoolQuery_default L c "full_page" _ Hfull),
      (parseBoolQuery_default L c "mobile" _ Hmobile),
      (parseBoolQuery_default L c "landscape" _ Hlandscape), Hheaders.
    reflexivity. }
  rewrite Hp. split; [reflexivity|]. cbn [fst].
  rewrite !applyDefaults_fields. unfold textsOnly. fields.
  destruct (query_default c "format" defaultFormat Hformat) as [-> | ->]; reflexivity.
Qed.

(** X22 at [examples.getExample]. *)
Lemma get_and_post_defaults_agree_witness :
  Forall (fun key => gin.Query examples.getExample key = ""%string) defaultedParams
  /\ applyDefaults (fst (parseRequestFromGET (L := examples.lib) examples.getExample))
     = applyDefaults (textsOnly "https://example.com" "" "" "").
Proof.
  assert (H : Forall (fun key => gin.Query examples.getExample key = ""%string)
                defaultedParams) by (repeat constructor).
  split; [exact H|].
  exact (proj2 (get_and_post_defaults_agree examples.lib examples.getExample H)).
Defined.

(** * The handler, step by step *)

(** ** The auto-expand step *)







(** ** An unset height without a selector *)








(** ** The committed viewport *)

Lemma committedViewports_app (evs1 evs2 : list Event) :
  committedViewports (evs1 ++ evs2) = (committedViewports evs1 ++ committedViewports evs2)%list.
Proof. apply flat_map_app. Qed.

Lemma beforeCommit_commits_nothing (evs : list Event) :
  forallb beforeCommit evs = true -> committedViewports evs = [].
Proof.
  induction evs as [|ev evs IH]; [reflexivity|].
  cbn [forallb]. intro H. apply andb_true_iff in H. destruct H as [H1 H2].
  specialize (IH H2). unfold committedViewports in *. cbn [flat_map]. rewrite IH.
  destruct ev as [m u | w | [] | | | sel | p]; try reflexivity; discriminate H1.
Qed.

(** The discovery makes HTTP requests only. *)
Lemma resolveWSEndpoint_before_commit (L : GoLib) (W : Type) (world : World W)
  (s : W * list Event) :
  exists evs, snd (snd (resolveWSEndpoint world s)) = (snd s ++ evs)%list
              /\ forallb beforeCommit evs = true.
Proof.
  pose proof (resolveWSEndpoint_requests world s) as H.
  destruct (discoveryBase world) as [httpBase|].
  - destruct H as (n & _ & T). exists (firstn n (discoveryRequests httpBase)).
    split; [exact T|].
    destruct n as [|[|[|[|n]]]]; reflexivity.
  - exists []. rewrite H, app_nil_r. split; reflexivity.
Qed.

Lemma runAction_leavesViewport (L : GoLib) (W : Type) (world : World W)
  (req : ScreenshotRequest) (vw : Z) (a : Action) (v : Vars) (s : W * list Event) :
  leavesViewport a = true ->
  exists evs, snd (snd (runAction world req vw a v s)) = (snd s ++ evs)%list
              /\ committedViewports evs = []
              /\ viewportHeight (snd (fst (runAction world req vw a v s))) = viewportHeight v.
Proof.
  intro H. destruct a as [c | | | |]; try discriminate H.
  - cbn [runAction]. unfold bind, cdpDo, ret. rewrite call_eq. cbn [fst snd].
    exists [EvCommand c]. split; [reflexivity|]. split; [|reflexivity].
    destruct c; try reflexivity; discriminate H.
  - cbn [runAction]. unfold selectorClip, bind, ret. rewrite call_eq. cbn [fst snd].
    eexists [_]. split; [reflexivity|]. split; [reflexivity|].
    destruct (fst (cdp_EvaluateBoundingRect world (Selector req) (fst s))) as [e | rect];
      [reflexivity|].
    destruct (PrimFloat.leb (rect_Width rect) 0 || PrimFloat.leb (rect_Height rect) 0);
      reflexivity.
  - cbn [runAction]. unfold fullPageClip, bind, ret. rewrite call_eq. cbn [fst snd].
    eexists [_]. split; [reflexivity|]. split; [reflexivity|].
    destruct (fst (cdp_GetLayoutMetrics world (fst s))) as [e | [contentSize|]];
      try reflexivity.
    destruct (PrimFloat.leb (rect_Width contentSize) 0
              || PrimFloat.leb (rect_Height contentSize) 0); reflexivity.
  - cbn [runAction]. unfold bind, ret. rewrite call_eq. cbn [fst snd].
    exists [EvCaptureScreenshot (captureParams req (clip v))].
    destruct (fst (cdp_CaptureScreenshot world _ (fst s))); repeat split.
Qed.

Lemma runActions_leavesViewport (L : GoLib) (W : Type) (world : World W)
  (req : ScreenshotRequest) (vw : Z) (l : list Action) (v : Vars) (s : W * list Event) :
  forallb leavesViewport l = true ->
  exists evs, snd (snd (runActions world req vw l v s)) = (snd s ++ evs)%list
              /\ committedViewports evs = []
              /\ viewportHeight (snd (fst (runActions world req vw l v s))) = viewportHeight v.
Proof.
  revert v s. induction l as [|a l IH]; intros v s H.
  - exists []. cbn. rewrite app_nil_r. repeat split.
  - cbn [forallb] in H. apply andb_true_iff in H. destruct H as [Ha Hl].
    cbn [runActions]. unfold bind.
    destruct (runAction_leavesViewport L W world req vw a v s Ha) as (evs1 & T1 & C1 & V1).
    destruct (runAction world req vw a v s) as [[[e|] v1] s1]; cbn [fst snd] in *.
    + exists evs1. repeat split; assumption.
    + destruct (IH v1 s1 Hl) as (evs2 & T2 & C2 & V2).
      exists (evs1 ++ evs2)%list. rewrite T2, T1, app_assoc, committedViewports_app, C1, C2.
      repeat split. congruence.
Qed.

Lemma measurePageHeight_commits_nothing (L : GoLib) (W : Type) (world : World W)
  (s : W * list Event) :
  exists evs, snd (snd (measurePageHeight world s)) = (snd s ++ evs)%list
              /\ committedViewports evs = [].
Proof.
  unfold measurePageHeight, bind. rewrite call_eq.
  destruct (fst (cdp_GetLayoutMetrics world (fst s))) as [e | [contentSize|]].
  - rewrite call_eq. cbn. exists [EvGetLayoutMetrics; EvEvaluatePageHeight].
    rewrite <- app_assoc. split; reflexivity.
  - destruct (PrimFloat.ltb 0 (rect_Height contentSize)).
    + cbn. exists [EvGetLayoutMetrics]. split; reflexivity.
    + rewrite call_eq. cbn. exists [EvGetLayoutMetrics; EvEvaluatePageHeight].
      rewrite <- app_assoc. split; reflexivity.
  - rewrite call_eq. cbn. exists [EvGetLayoutMetrics; EvEvaluatePageHeight].
    rewrite <- app_assoc. split; reflexivity.
Qed.

(** The auto-expand step hands the browser no viewport, or one of the same
    width and a greater height up to the bound. *)
Lemma autoExpand_commits (L : GoLib) (W : Type) (world : World W)
  (req : ScreenshotRequest) (vw vh : Z) (s : W * list Event) :
  vh <= maxAutoViewportHeight ->
  exists evs, snd (snd (autoExpand world req vw vh s)) = (snd s ++ evs)%list
              /\ (committedViewports evs = []
                  \/ exists h, vh < h <= maxAutoViewportHeight
                               /\ committedViewports evs = [(vw, h)]).
Proof.
  intro Hvh. unfold autoExpand, bind.
  destruct (measurePageHeight_commits_nothing L W world s) as (evs & T & N).
  destruct (measurePageHeight world s) as [[e | pageHeight] s1]; cbn [snd] in T.
  - exists evs. split; [exact T | left; exact N].
  - destruct (PrimFloat.leb pageHeight 0); [exists evs; split; [exact T | left; exact N]|].
    cbv zeta.
    set (d1 := if int64_Ceil pageHeight <? vh then vh else int64_Ceil pageHeight).
    set (d2 := if d1 >? maxAutoViewportHeight then maxAutoViewportHeight else d1).
    assert (Hd : vh <= d2 <= maxAutoViewportHeight).
    { subst d2 d1. destruct (int64_Ceil pageHeight <? vh) eqn:E1.
      - destruct (vh >? maxAutoViewportHeight) eqn:E2; lia.
      - destruct (int64_Ceil pageHeight >? maxAutoViewportHeight) eqn:E2; lia. }
    destruct (d2 =? vh) eqn:E; cbn [negb].
    + exists evs. split; [exact T | left; exact N].
    + unfold cdpDo. rewrite call_eq. cbn [snd ret]. rewrite T.
      eexists (evs ++ [_])%list. rewrite <- app_assoc. split; [reflexivity|].
      right. exists d2. apply Z.eqb_neq in E. split; [lia|].
      rewrite committedViewports_app, N. reflexivity.
Qed.

(** The handler's list: [network.Enable], the device metrics, then actions
    that hand over no viewport around the auto-expand step, if any. *)
Lemma buildActions_commits (req : ScreenshotRequest) (vw vh : Z) (ae : bool) :
  exists before after,
    buildActions req vw vh ae
    = (ActCommand NetworkEnable
       :: ActCommand (SetDeviceMetricsOverride vw vh (DeviceScale req) (Mobile req))
       :: before ++ (if ae then [ActAutoExpand] else []) ++ after)%list
    /\ forallb leavesViewport before = true
    /\ forallb leavesViewport after = true.
Proof.
  unfold buildActions.
  exists ((if negb (UserAgent req =? "")%string
           then [ActCommand (SetUserAgentOverride (UserAgent req))] else [])
          ++ (if 0 <? Z.of_nat (length (Headers req))
              then [ActCommand (SetExtraHTTPHeaders (Headers req))] else [])
          ++ [ ActCommand (Navigate (URL req)); ActCommand (WaitReady "body") ]
          ++ (if negb (WaitFor req =? "")%string
              then [ActCommand (WaitVisible (WaitFor req))] else [])
          ++ (if WaitTime req >? 0 then [ActCommand (Sleep (WaitTime req))] else []))%list,
         ((if negb (Selector req =? "")%string
           then [ ActCommand (ScrollIntoView (Selector req));
                  ActCommand (WaitVisible (Selector req));
                  ActSelectorClip ]
           else if FullPage req && match Clip req with None => true | Some _ => false end
                then [ActFullPageClip] else [])
          ++ [ActCapture])%list.
  split; [repeat rewrite <- app_assoc; reflexivity|].
  split.
  - repeat rewrite forallb_app.
    destruct (negb (UserAgent req =? "")%string);
      destruct (0 <? Z.of_nat (length (Headers req)));
      destruct (negb (WaitFor req =? "")%string);
      destruct (WaitTime req >? 0); reflexivity.
  - rewrite forallb_app.
    destruct (negb (Selector req =? "")%string); [reflexivity|].
    destruct (FullPage req && match Clip req with None => true | Some _ => false end);
      reflexivity.
Qed.

(** The run of the list after the device metrics. *)
Lemma runActions_commits (L : GoLib) (W : Type) (world : World W)
  (req : ScreenshotRequest) (vw : Z) (before after : list Action) (ae : bool)
  (v : Vars) (s : W * list Event) :
  forallb leavesViewport before = true ->
  forallb leavesViewport after = true ->
  viewportHeight v <= maxAutoViewportHeight ->
  exists evs,
    snd (snd (runActions world req vw
                (before ++ (if ae then [ActAutoExpand] else []) ++ after) v s))
    = (snd s ++ evs)%list
    /\ (committedViewports evs = []
        \/ (ae = true
            /\ exists h, viewportHeight v < h <= maxAutoViewportHeight
                         /\ committedViewports evs = [(vw, h)])).
Proof.
  intros Hb Ha Hv. rewrite runActions_app.
  destruct (runActions_leavesViewport L W world req vw before v s Hb) as (evs1 & T1 & C1 & V1).
  destruct (runActions world req vw before v s) as [[[e|] v1] s1]; cbn [fst snd] in *.
  - exists evs1. split; [exact T1 | left; exact C1].
  - rewrite runActions_app. destruct ae.
    + rewrite runActions_single. cbn [runAction]. unfold bind, ret.
      destruct (autoExpand_commits L W world req vw (viewportHeight v1) s1) as (evs2 & T2 & C2);
        [lia|].
      destruct (autoExpand world req vw (viewportHeight v1) s1) as [[e h1] s2];
        cbn [fst snd] in *.
      destruct e as [e|]; cbn [fst snd].
      * exists (evs1 ++ evs2)%list. rewrite T2, T1, app_assoc. split; [reflexivity|].
        rewrite committedViewports_app, C1. cbn [app].
        destruct C2 as [C2 | (h & Hh & C2)]; [left; exact C2|].
        right. split; [reflexivity|]. exists h. split; [lia | exact C2].
      * destruct (runActions_leavesViewport L W world req vw after
                    (mkVars h1 (clip v1) (img v1)) s2 Ha) as (evs3 & T3 & C3 & _).
        exists (evs1 ++ evs2 ++ evs3)%list. rewrite T3, T2, T1.
        repeat rewrite app_assoc. split; [reflexivity|].
        repeat rewrite committedViewports_app. rewrite C1, C3, app_nil_r. cbn [app].
        destruct C2 as [C2 | (h & Hh & C2)]; [left; exact C2|].
        right. split; [reflexivity|]. exists h. split; [lia | exact C2].
    + change (runActions world req vw [] v1 s1) with ((@None GoError, v1), s1).
      cbn [fst snd].
      destruct (runActions_leavesViewport L W world req vw after v1 s1 Ha)
        as (evs3 & T3 & C3 & _).
      exists (evs1 ++ evs3)%list. rewrite T3, T1, app_assoc. split; [reflexivity|].
      left. rewrite committedViewports_app, C1, C3. reflexivity.
Qed.

Lemma runActions_cons (L : GoLib) (W : Type) (world : World W) (req : ScreenshotRequest)
  (vw : Z) (a : Action) (rest : list Action) (v : Vars) (s : W * list Event) :
  runActions world req vw (a :: rest) v s
  = match fst (fst (runAction world req vw a v s)) with
    | Some err => ((Some err, snd (fst (runAction world req vw a v s))),
                   snd (runAction world req vw a v s))
    | None => runActions world req vw rest (snd (fst (runAction world req vw a v s)))
                (snd (runAction world req vw a v s))
    end.
Proof.
  cbn [runActions]. unfold bind.
  destruct (runAction world req vw a v s) as [[[e|] v1] s1]; reflexivity.
Qed.

Lemma runAction_command (L : GoLib) (W : Type) (world : World W) (req : ScreenshotRequest)
  (vw : Z) (cmd : Command) (v : Vars) (s : W * list Event) :
  runAction world req vw (ActCommand cmd) v s
  = ((fst (cdp_Do world cmd (fst s)), v),
     (snd (cdp_Do world cmd (fst s)), (snd s ++ [EvCommand cmd])%list)).
Proof.
  cbn [runAction]. unfold bind, cdpDo, ret. rewrite call_eq. reflexivity.
Qed.

Lemma runFailure_not_ok (e : GoError) : status (runFailure e) <> StatusOK.
Proof. destruct (runFailure_status e) as [H | [H | H]]; rewrite H; discriminate. Qed.

(** The sizes of a request that [validate] accepts. *)
Lemma validated_sizes (L : GoLib) (r req : ScreenshotRequest) :
  validate r = (req, None) ->
  100 <= Width req <= 4096
  /\ (100 <= Height req <= 10000 \/ (Height req = 0 /\ Selector req <> ""%string)).
Proof.
  intro Hv.
  assert (Hn : snd (validate r) = None) by (rewrite Hv; reflexivity).
  pose proof (validate_accepts_inv L r Hn)
    as (_ & _ & I3 & I4 & I5 & _ & _ & _ & _ & _ & _ & Hfst).
  rewrite Hv in Hfst. cbn [fst] in Hfst. subst req.
  destruct r as [u sel w h f qu wt wf fp hd ua ds mo la ti cl]; fields.
  cbv beta delta [setFormat]; fields.
  apply orb_false_iff in I3 as [W1 W2].
  apply Z.ltb_ge in W1. rewrite Z.gtb_ltb in W2. apply Z.ltb_ge in W2.
  split; [lia|].
  destruct (h =? 0) eqn:Eh; cbn [negb andb] in I4.
  - apply Z.eqb_eq in Eh. cbn [andb] in I5. apply String.eqb_neq in I5.
    right. split; assumption.
  - apply orb_false_iff in I4 as [H1 H2].
    apply Z.ltb_ge in H1. rewrite Z.gtb_ltb in H2. apply Z.ltb_ge in H2.
    left. lia.
Qed.

(** The trace of the handler on a validated request: it stops before it
    hands over a viewport, or hands over the initial one after the
    discovery, the dial and [network.Enable], and afterwards at most the
    one of the auto-expand step. *)
Lemma screenshotHandler_commits (L : GoLib) (W : Type) (world : World W)
  (c : gin.Context) (s : W * list Event) (req : ScreenshotRequest) :
  snd (parseRequest c) = None ->
  validate (applyDefaults (fst (parseRequest c))) = (req, None) ->
  snd (initialViewport req) <= maxAutoViewportHeight ->
  let answer := screenshotHandler world c s in
  let vw := fst (initialViewport req) in
  let vh := snd (initialViewport req) in
  let commit := EvCommand (SetDeviceMetricsOverride vw vh (DeviceScale req) (Mobile req)) in
  exists evs,
    snd (snd answer) = (snd s ++ evs)%list
    /\ ((forallb beforeCommit evs = true /\ status (fst answer) <> StatusOK)
        \/ exists pre post,
             evs = (pre ++ commit :: post)%list
             /\ forallb beforeCommit pre = true
             /\ (committedViewports post = []
                 \/ (negb (Selector req =? "")%string && (Height req =? 0) = true
                     /\ exists h, vh < h <= maxAutoViewportHeight
                                  /\ committedViewports post = [(vw, h)]))).
Proof.
  intros Hp Hv Hmax. cbv zeta. unfold screenshotHandler.
  destruct (parseRequest c) as [req0 [e|]]; cbn [fst snd] in *; [discriminate Hp|].
  rewrite Hv. destruct (initialViewport req) as [vw vh]. cbn [fst snd] in *.
  unfold bind.
  destruct (resolveWSEndpoint_before_commit L W world s) as (evs0 & T0 & B0).
  destruct (resolveWSEndpoint world s) as [[[wsURL configured] err] s1]. cbn [snd] in T0.
  destruct configured; cbn [negb].
  2:{ exists evs0. split; [exact T0|]. left. split; [exact B0 | cbn; discriminate]. }
  destruct err as [e|].
  { exists evs0. split; [exact T0|]. left. split; [exact B0|]. cbn [ret fst].
    destruct (resolveFailure_status e) as [H | H]; rewrite H; discriminate. }
  rewrite call_eq. cbn [fst snd].
  destruct (dial_err (fst (chromedp_Dial world wsURL (fst s1)))) as [e|].
  { exists (evs0 ++ [EvDial wsURL])%list. rewrite T0, app_assoc. split; [reflexivity|].
    left. split; [rewrite forallb_app, B0; reflexivity|]. cbn [ret fst].
    destruct (dialFailure_status (fst (chromedp_Dial world wsURL (fst s1))) e) as [H | H];
      rewrite H; discriminate. }
  cbv zeta.
  destruct (buildActions_commits req vw vh (negb (Selector req =? "")%string && (Height req =? 0)))
    as (before & after & HB & Lb & La).
  rewrite HB. clear HB.
  rewrite runActions_cons, runAction_command. cbn [fst snd].
  destruct (fst (cdp_Do world NetworkEnable (snd (chromedp_Dial world wsURL (fst s1)))))
    as [e|].
  { exists (evs0 ++ [EvDial wsURL; EvCommand NetworkEnable])%list.
    cbn [fst snd ret]. rewrite T0. repeat rewrite <- app_assoc. split; [reflexivity|].
    left. split; [rewrite forallb_app, B0; reflexivity | apply runFailure_not_ok]. }
  rewrite runActions_cons, runAction_command. cbn [fst snd].
  set (s2 := snd (cdp_Do world NetworkEnable (snd (chromedp_Dial world wsURL (fst s1))))).
  set (commit := SetDeviceMetricsOverride vw vh (DeviceScale req) (Mobile req)).
  destruct (fst (cdp_Do world commit s2)) as [e|].
  { exists ((evs0 ++ [EvDial wsURL; EvCommand NetworkEnable]) ++ EvCommand commit :: [])%list.
    cbn [fst snd ret]. rewrite T0. repeat rewrite <- app_assoc. split; [reflexivity|].
    right. exists (evs0 ++ [EvDial wsURL; EvCommand NetworkEnable])%list, [].
    repeat rewrite <- app_assoc.
    split; [reflexivity|]. split; [rewrite forallb_app, B0; reflexivity|].
    left. reflexivity. }
  match goal with
  | |- context [runActions world req vw ?l ?v ?st] =>
      destruct (runActions_commits L W world req vw before after
                  (negb (Selector req =? "")%string && (Height req =? 0)) v st Lb La Hmax)
        as (evs3 & T3 & C3);
      destruct (runActions world req vw l v st) as [[e v3] s3]
  end.
  cbn [fst snd] in *.
  exists ((evs0 ++ [EvDial wsURL; EvCommand NetworkEnable]) ++ EvCommand commit :: evs3)%list.
  split.
  - destruct e; cbn [ret snd]; rewrite T3, T0; repeat rewrite <- app_assoc; reflexivity.
  - right. exists (evs0 ++ [EvDial wsURL; EvCommand NetworkEnable])%list, evs3.
    split; [reflexivity|]. split; [rewrite forallb_app, B0; reflexivity|].
    destruct C3 as [C3 | (Hae & h & Hh & C3)]; [left; exact C3|].
    right. split; [exact Hae|]. exists h. split; [exact Hh | exact C3].
Qed.

(** C6, as amended. On a validated request the handler hands the browser
    its first viewport after the discovery requests, the dial and
    [network.Enable] only, before any other call: (height, width) when
    [mobile] and [landscape] are both set, and (width, height) otherwise,
    where height is the request's height, or 1080 when that is unset.
    When the handler stops before that, it hands over no viewport and does
    not reply 200; a reply of 200 follows this first viewport. With the
    height given
    it is the only viewport handed over, so that a mobile landscape request
    is committed as (originalHeight, originalWidth), exchanged once, and
    any other request as (originalWidth, originalHeight). With the height
    unset, which takes a selector, the auto-expand step may hand over one
    more viewport, of the same first component and a greater second one,
    up to 30000. *)
Theorem committed_viewport (L : GoLib) (W : Type) (world : World W) (c : gin.Context)
  (s : W * list Event) (req : ScreenshotRequest) :
  snd (parseRequest c) = None ->
  validate (applyDefaults (fst (parseRequest c))) = (req, None) ->
  let answer := screenshotHandler world c s in
  let height := if Height req =? 0 then 1080 else Height req in
  let first := if Mobile req && Landscape req then (height, Width req)
               else (Width req, height) in
  let commit := EvCommand (SetDeviceMetricsOverride (fst first) (snd first)
                             (DeviceScale req) (Mobile req)) in
  exists evs,
    snd (snd answer) = (snd s ++ evs)%list
    /\ ((forallb beforeCommit evs = true /\ status (fst answer) <> StatusOK)
        \/ exists pre post,
             evs = (pre ++ commit :: post)%list
             /\ forallb beforeCommit pre = true
             /\ (committedViewports post = []
                 \/ (Height req = 0 /\ Selector req <> ""
                     /\ exists h, snd first < h <= 30000
                                  /\ committedViewports post = [(fst first, h)])))
    /\ (Height req <> 0 ->
        committedViewports evs = []
        \/ committedViewports evs
           = [if Mobile req && Landscape req then (Height req, Width req)
              else (Width req, Height req)])
    /\ (status (fst answer) = StatusOK -> hd_error (committedViewports evs) = Some first).
Proof.
  intros Hp Hv. cbv zeta.
  destruct (validated_sizes L _ req Hv) as [Hw Hh].
  assert (Hiv : initialViewport req
                = if Mobile req && Landscape req
                  then (if Height req =? 0 then 1080 else Height req, Width req)
                  else (Width req, if Height req =? 0 then 1080 else Height req))
    by reflexivity.
  assert (Hmax : snd (initialViewport req) <= maxAutoViewportHeight).
  { rewrite Hiv. unfold maxAutoViewportHeight.
    destruct (Mobile req && Landscape req); destruct (Height req =? 0) eqn:E; cbn [snd];
      try lia; apply Z.eqb_neq in E; lia. }
  destruct (screenshotHandler_commits L W world c s req Hp Hv Hmax) as (evs & T & Shape).
  cbv zeta in Shape. rewrite Hiv in Shape.
  exists evs. split; [exact T|].
  destruct Shape as [[B S] | (pre & post & E & B & C)].
  - split; [left; split; assumption|]. split.
    + intros _. left. apply beforeCommit_commits_nothing. exact B.
    + intro H. contradiction.
  - assert (Hc : committedViewports evs
                 = (if Mobile req && Landscape req
                    then (if Height req =? 0 then 1080 else Height req, Width req)
                    else (Width req, if Height req =? 0 then 1080 else Height req))
                   :: committedViewports post).
    { rewrite E, committedViewports_app, (beforeCommit_commits_nothing pre B).
      destruct (Mobile req && Landscape req); reflexivity. }
    split; [|split].
    + right. exists pre, post. split; [exact E|]. split; [exact B|].
      destruct C as [C | (Hae & h & Hhh & C)]; [left; exact C|].
      right. apply andb_true_iff in Hae. destruct Hae as [Hsel Hz].
      apply negb_true_iff in Hsel. apply String.eqb_neq in Hsel. apply Z.eqb_eq in Hz.
      split; [exact Hz|]. split; [exact Hsel|]. exists h.
      split; [unfold maxAutoViewportHeight in Hhh; exact Hhh | exact C].
    + intro Hnz. right. rewrite Hc.
      destruct C as [C | (Hae & _)].
      * rewrite C. apply Z.eqb_neq in Hnz. rewrite Hnz. reflexivity.
      * apply andb_true_iff in Hae. destruct Hae as [_ Hz]. apply Z.eqb_eq in Hz.
        contradiction.
    + intros _. rewrite Hc. reflexivity.
Qed.

(** C6 at the mobile landscape request of [examples.getMobileLandscape],
    1280 by 720: it is served after the one viewport 720 by 1280. *)
Lemma committed_viewport_witness :
  let world := examples.worldOf examples.emptyEnv examples.fullVersionNetwork 800 in
  let req := mkRequest "https://example.com" "" 1280 720 "png" 90 0 "" false [] ""
               1%float true true 30 None in
  let answer := screenshotHandler (L := examples.lib) world examples.getMobileLandscape
                  examples.start in
  snd (parseRequest (L := examples.lib) examples.getMobileLandscape) = None
  /\ validate (L := examples.lib)
       (applyDefaults (fst (parseRequest (L := examples.lib) examples.getMobileLandscape)))
     = (req, None)
  /\ status (fst answer) = StatusOK
  /\ committedViewports (snd (snd answer)) = [(720, 1280)].
Proof.
  cbv zeta.
  assert (Hp : snd (parseRequest (L := examples.lib) examples.getMobileLandscape) = None)
    by (vm_compute; reflexivity).
  assert (Hv : validate (L := examples.lib)
                 (applyDefaults
                    (fst (parseRequest (L := examples.lib) examples.getMobileLandscape)))
               = (mkRequest "https://example.com" "" 1280 720 "png" 90 0 "" false [] ""
                    1%float true true 30 None, None))
    by (vm_compute; reflexivity).
  assert (Hs : status (fst (screenshotHandler (L := examples.lib)
                              (examples.worldOf examples.emptyEnv
                                 examples.fullVersionNetwork 800)
                              examples.getMobileLandscape examples.start)) = StatusOK)
    by (vm_compute; reflexivity).
  split; [exact Hp|]. split; [exact Hv|]. split; [exact Hs|].
  destruct (committed_viewport examples.lib unit
              (examples.worldOf examples.emptyEnv examples.fullVersionNetwork 800)
              examples.getMobileLandscape examples.start _ Hp Hv)
    as (evs & T & _ & Once & First).
  change (snd examples.start ++ evs)%list with evs in T. rewrite T.
  specialize (First Hs). cbn [Height Width Mobile Landscape andb Z.eqb] in Once, First.
  destruct (Once ltac:(discriminate)) as [H | H]; [|exact H].
  rewrite H in First. discriminate First.
Defined.

(** C6 as stated fails when the height is left unset: the mobile landscape
    capture of the element [#main] at width 1280 is validated with the
    height 0, and the handler hands the browser 1080 by 1280 and then, the
    content being 5000 high, 1080 by 5000, neither of them 0 by 1280. *)
Lemma committed_viewport_unset_height :
  let world := examples.worldOf examples.emptyEnv examples.fullVersionNetwork 5000 in
  let c := scenarios.getMobileLandscapeElement in
  let req := fst (validate (L := examples.lib)
                    (applyDefaults (fst (parseRequest (L := examples.lib) c)))) in
  let answer := screenshotHandler (L := examples.lib) world c examples.start in
  snd (parseRequest (L := examples.lib) c) = None
  /\ snd (validate (L := examples.lib)
            (applyDefaults (fst (parseRequest (L := examples.lib) c)))) = None
  /\ Mobile req = true /\ Landscape req = true
  /\ Height req = 0 /\ Width req = 1280
  /\ status (fst answer) = StatusOK
  /\ committedViewports (snd (snd answer)) = [(1080, 1280); (1080, 5000)].
Proof. cbv zeta. repeat split. Qed.

(** ** Replies to failures of the dial and of the run *)







